(* ===== verification/_CoqProject ===== *)
-Q . S2P
Prelude.v
Calendar.v
LocalTime.v
Strftime.v
Json.v
JsonRead.v
Url.v
App.v
Http.v
Response.v
Server.v
