(* ===== verification/Prelude.v ===== *)
(** * A verification development of py-web-hello (src/app.py)

    ** The program
    [src/app.py] is a Flask application of nineteen lines:
    - line 4 creates the application; the decorators of lines 6 and 10
      register two URL rules;
    - [index] (lines 6-8) answers [GET /] with [render_template('index.html')];
    - [update_data] (lines 10-16) answers [POST /update]: it reads the
      wall clock with [datetime.now()], formats it with
      [strftime("%Y-%m-%d %H:%M:%S")] and returns [jsonify] of
      [{'status': 'success', 'message': f'Data updated at {current_time}'}];
    - lines 18-19 start the development server on [0.0.0.0:5000] with
      [debug=False].
    The behaviour of these lines lies in what they call: Flask's routing
    and dispatch, CPython's clock, [datetime.now()] and [strftime],
    [json.dumps], Jinja, and Werkzeug's development server over
    [http.server].  The development models each of these as far as the
    program uses it, from their sources, and composes them as
    [src/app.py] does.

    ** Files, in dependency order
    - [Prelude] (this file): the Python exceptions the modelled code raises
      ([py_exc], with [SystemExit]), the result monad [result] with its
      notation in [web_scope], the hint databases [web] and [web_rw], the
      tactics [zlia], [zconcrete], [zcases] and [case_if], and lemmas on
      integers (lexicographic comparison, radix comparison, exhaustive
      checks over a range with [zforall]) and on strings.
    - [Calendar], Module [Calendar]: the proleptic Gregorian calendar of
      CPython's [datetime] that [datetime.now()] runs ([_is_leap],
      [_days_before_year], [_days_in_month], [_days_before_month],
      [_ymd2ord], the constructor's date check), and [ord2ymd], the
      day-to-date conversion of the stand-ins for [localtime_r] and
      [gmtime_r] (not code of the program).
    - [LocalTime], Module [LocalTime]: CPython's system clock as a
      saturating 64-bit [PyTime_t] ([system_clock]: [pytime_mul],
      [pytime_add]) and [datetime.now()] as its C code computes it
      ([datetime_best_possible], [datetime_from_timet_and_us], [local],
      [utc_to_seconds], the constructor's checks).  The C library's
      [localtime] is an interface, the class [LocalClock], with a contract
      [LocalClockOk]; the instance [zone_clock off], a stand-in for the C
      library, computes it for a zone given by its UTC offset at each
      instant.
    - [Strftime], Module [Strftime]: [strftime] for the directives the code
      uses, the timestamp [current_time], a parser and a pattern matcher
      for the timestamp.
    - [Json], Module [Json]: the JSON values [jsonify] serialises and
      [json.dumps] with Flask's settings (sorted keys, compact separators,
      ASCII escapes).
    - [JsonRead], Module [JsonRead]: the client's side, a JSON reader on
      fuel ([loads]), used to state what the body of an answer means; it
      models no code of the repository.
    - [Url], Module [Url]: CPython's [urllib.parse.urlsplit] (with the
      checks of a bracketed host and [ipaddress]'s IPv4 and IPv6 parsing)
      and [unquote] (percent escapes, UTF-8 decoding with [replace]), and
      Werkzeug's [PATH_INFO] and [QUERY_STRING] from a request target.
    - [App], Module [App]: requests (method, path, query string, body)
      and responses, the template folder, [render_template], the two
      views, the route table [url_map] with the methods Flask and
      Werkzeug add, Werkzeug's URL matching ([url_match]: leading slashes
      dropped, static rules matched, the redirect to the path with a
      trailing slash, the retry with doubled slashes merged, 404 and 405)
      and [dispatch] (Flask's [full_dispatch_request]: a redirect answered
      308 to the path with the query string, automatic [OPTIONS], [HEAD]
      answered as [GET] with its body marked not to be sent, an exception
      answered with 500).
    - [Http], Module [Http]: a connection's bytes as the development
      server reads them: [rfile.readline], CPython's [parse_request]
      (words, version check with 400 and 505, HTTP/0.9, the reduction of
      a leading [//], the header lines of [http.client._read_headers] with
      their limits answered 431) and Werkzeug's [handle_one_request],
      composed with [Url.path_info], [Url.query_string] and
      [App.dispatch]; an exception of [make_environ] closes the
      connection without an answer.  Each error carries what
      [send_error] is called with: the code, the message (with [repr] of
      the offending word or line), the explanation, and the request
      version and command of the handler at that moment.
    - [Response], Module [Response]: the bytes written back:
      [date_time_string] ([email.utils.formatdate] over [gmtime] of the
      saturated clock), CPython's [send_error] (status line and headers
      skipped in the [HTTP/0.9] state), the [write] of Werkzeug's
      [run_wsgi] with the headers of Werkzeug's [Response] ([entity]),
      and [connection_bytes], the bytes a client reads for the bytes it
      sent.
    - [Server], Module [Server]: [app.run]'s start-up ([bind_port]: a
      port in use prints the error and a hint and calls [sys.exit(1)])
      and the timestamps of two requests served at two clock readings.

    ** What the theorems show
    - [App]: [POST /update] answers exactly the JSON the code builds, with
      a timestamp of the shape [dddd-dd-dd dd:dd:dd] that reads back as
      the local wall time, in a zone with a fixed offset; [GET /] answers
      the rendered template when it exists and 500 when it is missing (at
      request time, not at start-up); other methods answer 405 with the
      allowed methods; [HEAD] is answered as [GET] without the body; a
      doubled leading slash is ignored; redirects never chain.
    - [Server]: with a fixed offset the timestamps of two [POST /update]
      answers compare as the seconds of the two clock readings, whatever
      order they were taken in; when the zone sets its clocks back, two
      requests an hour apart receive identical answers although
      [datetime.now()] returns different values (their folds differ).
    - [Http] and [Url]: [POST /update?q] at the wire, in HTTP 0.x or 1.x,
      with fewer than 100 headers none of which is [Host], [Expect],
      [Connection] or [Upgrade], and any body, is answered with the JSON
      of [update_data]; a query string changes nothing but the location
      of a redirect, which carries it; a request line reads back as its
      command, target and version; malformed versions are refused with
      400 and versions from 2.0 on with 505; a target with an unclosed
      bracket closes the connection with no answer at all; the path never
      starts with two slashes; 100 header lines or more, or a header line
      longer than [_MAXLINE] with its CRLF, are refused with 431; the
      header loop terminates; [unquote] reads back percent-encoded UTF-8,
      and [PATH_INFO] is well-formed UTF-8 by the table of the Unicode
      standard.
    - [Response]: [POST /update] receives exactly the status line
      [HTTP/1.1 200 OK], [Server], [Date], [Content-Type:
      application/json], a [Content-Length] equal to the length of the
      JSON, [Connection: close] and the JSON with its newline; a request
      line with a bad version, or one from 2.0 on, receives the bare
      HTML error page with no status line; no request can put a line
      break into the status line of an error; [HEAD] receives the bytes
      of [GET] without the body, a lower-case [head] the body too; the
      [Date] header parses back, with RFC 9110's own name tables, as the
      UTC second of the clock and its weekday.
    - [Json] and [JsonRead]: the reader reads back what [dumps] writes,
      as the value with its object items sorted by key.
    - [LocalTime]: the clock is a [PyTime_t], exact from 1677-09-21 to
      2262-04-11, saturated after, and before 1677 [PyTime_MIN] plus the
      nanoseconds; [datetime.now()] raises only the [localtime] error or
      the year error under the [localtime] contract; with a fixed offset
      of less than a day it never raises and returns the wall time of the
      clock's second; in a zone it detects the fold.
    - [Strftime]: the timestamp of a valid [datetime] parses back to its
      fields, and two timestamps are ordered as the wall times are.

    ** Bounds and evaluation
    Python's integers are unbounded and are [Z]; the C [int] of
    [tm_year] is bounded by [INT_MIN]/[INT_MAX] in [zone_localtime]; the
    clock is the 64-bit [PyTime_t] of CPython, its saturation written out
    with [Z.quot] for C's division, and split by floor division as
    [_PyTime_ROUND_FLOOR] does.  Every definition of the program is
    structurally recursive.  The [while True] loop of [_read_headers] is
    [Http.read_headers_loop] on fuel, and [read_headers_terminates]
    proves that [_MAXHEADERS + 1] iterations suffice on every stream,
    giving the structural [read_headers].  The client's reader
    [JsonRead.loads] runs on fuel: [S (2 * length)] suffices, because
    each call either consumes a character or returns, and
    [loads_terminates] proves the answer is the same with any more fuel.
    Exhaustive checks ([zforall], evaluated with [vm_compute]) range over
    the twelve months of a year and the 366 days of a leap year only; the
    146097-day cycle is handled by the cycle decomposition, not by
    evaluation.  The percent encoding and UTF-8 lemmas of [Url] check
    each of the 256 characters by evaluation; a request line is a
    [string] of characters below 256, as [http.server] decodes it.  The
    limits of [http.client] ([_MAXLINE = 65536], [_MAXHEADERS = 100]) are
    [nat] constants that proofs never unfold; the theorems about them
    hold for every header list and line, and only their witnesses
    evaluate, on 100 short lines.

    ** Not modelled
    Socket I/O, threads and the serving loop (each connection is handled
    on its own; the application keeps no state, and the clock is an
    input of each request); the meaning of the request headers:
    [email.parser] building the message, [Host] (the server name of the
    URL adapter: [400 BadHost] when its IDNA encoding fails),
    [Expect: 100-continue] (an interim [HTTP/1.1 100 Continue] before
    the answer), [Connection: Upgrade] with [Upgrade: websocket] (a
    [400 WebsocketMismatch] on these HTTP rules): the lines are read and
    counted, not interpreted, and the theorems about answers assume
    headers of other names; the body (the views read none); the value of
    the [Server] header (fixed by the installed Werkzeug and Python, a
    parameter) and the scheme, host and quoting of the [Location] and
    page of a redirect (built from the [Host] header and quoted by
    [iri_to_uri], a parameter); the logging of each request to the
    standard error; the double-precision rounding of [time.time()]
    before [fromtimestamp] rounds it to microseconds (the model rounds
    the exact nanosecond reading; the two differ only within a fraction
    of a microsecond of a rounding boundary); the C library's
    [localtime_r] and [gmtime_r] (stand-ins computing a zone from its
    offset function; the time zone database is not modelled); Jinja
    syntax (the page is static, and the repository ships no
    [templates/index.html], so the folder is a parameter of every
    theorem); JSON numbers and the indented output of [debug=True] (the
    code emits neither); the host part of URL matching (both rules match
    any host); the order of the methods in [Allow] (Werkzeug collects
    them in a [set]); the extra macOS hint of a port in use.  Paths are
    kept as the UTF-8 bytes of the [str] Werkzeug matches: the rules are
    ASCII and [/] only occurs as itself in UTF-8, so matching the bytes
    decides as matching the [str] does.  [Other] holds a method name the
    model does not know; only whether it is one of the known names
    matters.  [%Y] is modelled as CPython 3.12.5 and later pad it (four
    digits); older versions on glibc do not pad years below 1000.
*)

From Stdlib Require Import ZArith Lia String Ascii List Bool.
Import ListNotations.

(** ** Python exceptions raised by the modelled code *)

Inductive py_exc : Type :=
| ValueError (msg : string)
| SystemExit (code : Z)
| TemplateNotFound (name : string)
| OSError (msg : string).

(** A computation that returns an [A] or raises a Python exception. *)
Inductive result (A : Type) : Type :=
| Ok (a : A)
| Raise (e : py_exc).
Arguments Ok {A} a.
Arguments Raise {A} e.

Definition bind {A B} (r : result A) (k : A -> result B) : result B :=
  match r with
  | Ok a => k a
  | Raise e => Raise e
  end.

Declare Scope web_scope.
Delimit Scope web_scope with web.
Notation "x <- r ;; k" := (bind r (fun x => k))
  (at level 100, r at next level, right associativity) : web_scope.

(** Option chaining for the parsers of the development. *)
Notation "'let?' p ':=' o 'in' k" := (match o with Some p => k | None => None end)
  (at level 10, p pattern, o at level 100, k at level 200) : web_scope.

Lemma bind_Ok {A B} (a : A) (k : A -> result B) : bind (Ok a) k = k a.
Proof. reflexivity. Qed.

Lemma bind_Raise {A B} (e : py_exc) (k : A -> result B) : bind (Raise e) k = Raise e.
Proof. reflexivity. Qed.

Lemma bind_eq_Ok {A B} (r : result A) (k : A -> result B) (b : B) :
  bind r k = Ok b -> exists a, r = Ok a /\ k a = Ok b.
Proof. destruct r; simpl; [eauto | discriminate]. Qed.

Lemma bind_eq_Raise {A B} (r : result A) (k : A -> result B) (e : py_exc) :
  bind r k = Raise e -> r = Raise e \/ exists a, r = Ok a /\ k a = Raise e.
Proof. destruct r; simpl; [eauto | intros H; left; injection H as ->; reflexivity]. Qed.

(** ** Automation *)

Create HintDb web discriminated.
Create Rewrite HintDb web_rw.
#[export] Hint Rewrite @bind_Ok @bind_Raise : web_rw.

(** [zlia]: linear integer arithmetic after turning [/] and [mod] into
    their defining equations. *)
Ltac zlia := Z.div_mod_to_equations; lia.

(** Closed integer comparisons, decided by evaluation. *)
Ltac zconcrete :=
  repeat split; vm_compute; first [reflexivity | let H := fresh in intro H; discriminate H | discriminate].

(** Case analysis on the integer comparisons of the goal, each with its
    meaning as a hypothesis. *)
Ltac zcases :=
  repeat match goal with
         | |- context [Z.ltb ?a ?b] => destruct (Z.ltb_spec a b)
         | |- context [Z.leb ?a ?b] => destruct (Z.leb_spec a b)
         | |- context [Z.eqb ?a ?b] => destruct (Z.eqb_spec a b)
         end; cbn [andb orb negb].

(** Case analysis on the boolean tests of an [if] in the goal. *)
Ltac case_if :=
  match goal with
  | |- context [if ?b then _ else _] => let E := fresh "E" in destruct b eqn:E
  end.

(** ** Lists *)

Lemma NoDup_app_disjoint {A} (l1 l2 : list A) (x : A) :
  NoDup (l1 ++ l2) -> In x l1 -> In x l2 -> False.
Proof.
  induction l1 as [|y l1 IH]; simpl; intros ND H1 H2; [exact H1|].
  inversion ND as [|? ? Hy ND']; subst.
  destruct H1 as [<-|H1]; [apply Hy, in_or_app; right; exact H2 | exact (IH ND' H1 H2)].
Qed.

(** ** Integers *)

Local Open Scope Z_scope.

Lemma Z_div_mod_unique_eq (a b q r : Z) :
  0 <= r < b -> a = b * q + r -> a / b = q /\ a mod b = r.
Proof.
  intros Hr Ha. split; [symmetry; apply Z.div_unique with r | symmetry; apply Z.mod_unique with q]; lia.
Qed.

(** Lexicographic combination of two comparisons. *)
Definition lex (c1 c2 : comparison) : comparison :=
  match c1 with Eq => c2 | Lt => Lt | Gt => Gt end.

Lemma lex_assoc c1 c2 c3 : lex (lex c1 c2) c3 = lex c1 (lex c2 c3).
Proof. destruct c1; reflexivity. Qed.

(** Comparing [a * B + b] by the leading digit [a] first, for digits
    [b] below the radix [B]. *)
Lemma Z_compare_radix (B a1 b1 a2 b2 : Z) :
  0 <= b1 < B -> 0 <= b2 < B ->
  Z.compare (a1 * B + b1) (a2 * B + b2) = lex (Z.compare a1 a2) (Z.compare b1 b2).
Proof.
  intros H1 H2.
  destruct (Z.compare_spec a1 a2) as [->|Hlt|Hgt].
  - destruct (Z.compare_spec b1 b2) as [E|E|E].
    + subst. apply Z.compare_refl.
    + apply Z.compare_lt_iff. lia.
    + apply Z.compare_gt_iff. lia.
  - apply Z.compare_lt_iff. nia.
  - apply Z.compare_gt_iff. nia.
Qed.

(** Exhaustive checks over a finite range of integers: [zforall lo n f]
    evaluates [f] on [lo], ..., [lo + n - 1]. *)
Fixpoint zforall (lo : Z) (n : nat) (f : Z -> bool) : bool :=
  match n with
  | O => true
  | S n' => f lo && zforall (lo + 1) n' f
  end.

Lemma zforall_spec (lo : Z) (n : nat) (f : Z -> bool) :
  zforall lo n f = true -> forall x, lo <= x < lo + Z.of_nat n -> f x = true.
Proof.
  revert lo; induction n as [|n IH]; intros lo H x Hx; simpl in *; [lia|].
  apply andb_true_iff in H as [H1 H2].
  destruct (Z.eq_dec x lo) as [->|Hne]; [exact H1|].
  apply (IH (lo + 1)); [exact H2 | lia].
Qed.

(** ** Strings *)

Local Open Scope string_scope.

Lemma string_length_app (s1 s2 : string) :
  String.length (s1 ++ s2) = (String.length s1 + String.length s2)%nat.
Proof. induction s1 as [|c s1 IH]; simpl; [reflexivity | now rewrite IH]. Qed.

#[export] Hint Rewrite string_length_app : web_rw.

Lemma string_app_cons (c : ascii) (s t : string) : String c s ++ t = String c (s ++ t).
Proof. reflexivity. Qed.

Lemma string_app_nil_r (s : string) : s ++ "" = s.
Proof. induction s as [|c s IH]; simpl; congruence. Qed.

Lemma string_app_assoc (s1 s2 s3 : string) : (s1 ++ s2) ++ s3 = s1 ++ (s2 ++ s3).
Proof. induction s1 as [|c s1 IH]; simpl; congruence. Qed.

Lemma ascii_compare_refl (c : ascii) : Ascii.compare c c = Eq.
Proof.
  pose proof (Ascii.compare_antisym c c) as A.
  destruct (Ascii.compare c c); simpl in A; congruence.
Qed.

Lemma string_compare_refl (s : string) : String.compare s s = Eq.
Proof. induction s as [|c s IH]; simpl; [reflexivity|]. now rewrite ascii_compare_refl. Qed.

(** Comparing two strings with a common prefix compares what follows it. *)
Lemma string_compare_app_l (p s1 s2 : string) :
  String.compare (p ++ s1) (p ++ s2) = String.compare s1 s2.
Proof.
  induction p as [|c p IH]; simpl; [reflexivity|]. now rewrite ascii_compare_refl.
Qed.

(** Comparing concatenations whose first parts have the same length. *)
Lemma string_compare_app (s1 s2 t1 t2 : string) :
  String.length s1 = String.length s2 ->
  String.compare (s1 ++ t1) (s2 ++ t2) = lex (String.compare s1 s2) (String.compare t1 t2).
Proof.
  revert s2; induction s1 as [|c1 s1 IH]; intros [|c2 s2] H; simpl in *;
    try discriminate; [reflexivity|].
  destruct (Ascii.compare c1 c2); auto.
Qed.

Lemma string_app_inv_l (p s1 s2 : string) : p ++ s1 = p ++ s2 -> s1 = s2.
Proof. induction p as [|c p IH]; simpl; [auto | intros H; injection H; auto]. Qed.

#[export] Hint Resolve string_app_inv_l : web.
