(* ===== verification/Calendar.v ===== *)
(** * Calendar: the proleptic Gregorian calendar of Python's [datetime]

    [update_data] (src/app.py, line 12) obtains [datetime.now()]; a
    [datetime] holds a proleptic Gregorian date.  This file models the
    calendar arithmetic [datetime.now()] runs: [is_leap],
    [days_in_month], [days_before_year], [days_before_month] and
    [ymd2ord] (CPython's [_datetimemodule.c], used by [utc_to_seconds] in
    the fold detection of [local]) and the constructor's date check
    [valid_ymd], with Python's floor division and modulo written as
    [Z.div] and [Z.modulo].  [ord2ymd] and [month_day] are not code
    [datetime.now()] runs: they are the day-to-date conversion the
    stand-ins for the C library's [localtime_r] and [gmtime_r]
    ([LocalTime.zone_localtime], [Response.gmtime]) use to produce a
    civil date, written after CPython's [ord_to_ymd].  The lemmas: the
    two conversions are inverse, the ordinals are monotone in the date,
    and the years repeat every 400 years (146097 days). *)

From Stdlib Require Import ZArith Lia List Bool.
From S2P Require Import Prelude.
Import ListNotations.

Local Open Scope Z_scope.

Module Calendar.

(** [_DAYS_IN_MONTH = [-1, 31, 28, 31, 30, 31, 30, 31, 31, 30, 31, 30, 31]] *)
Definition DAYS_IN_MONTH : list Z :=
  [-1; 31; 28; 31; 30; 31; 30; 31; 31; 30; 31; 30; 31].

(** The loop that builds [_DAYS_BEFORE_MONTH]: [-1] then the running sum
    of [_DAYS_IN_MONTH[1:]] before each month. *)
Fixpoint running_sums (dbm : Z) (dims : list Z) : list Z :=
  match dims with
  | [] => []
  | dim :: rest => dbm :: running_sums (dbm + dim) rest
  end.

Definition DAYS_BEFORE_MONTH : list Z := -1 :: running_sums 0 (tl DAYS_IN_MONTH).

(** Python list indexing [tbl[i]] for the indices the code uses. *)
Definition idx (tbl : list Z) (i : Z) : Z := nth (Z.to_nat i) tbl (-1).

Definition is_leap (year : Z) : bool :=
  (year mod 4 =? 0) && (negb (year mod 100 =? 0) || (year mod 400 =? 0)).

Definition days_before_year (year : Z) : Z :=
  let y := year - 1 in
  y * 365 + y / 4 - y / 100 + y / 400.

Definition days_in_month (year month : Z) : Z :=
  if (month =? 2) && is_leap year then 29 else idx DAYS_IN_MONTH month.

Definition days_before_month (year month : Z) : Z :=
  idx DAYS_BEFORE_MONTH month + (if (month >? 2) && is_leap year then 1 else 0).

(** [_ymd2ord] (its [assert 1 <= day <= dim] is the predicate
    [valid_date] below). *)
Definition ymd2ord (year month day : Z) : Z :=
  days_before_year year + days_before_month year month + day.

Definition DI400Y : Z := days_before_year 401.
Definition DI100Y : Z := days_before_year 101.
Definition DI4Y : Z := days_before_year 5.

(** The tail of [_ord2ymd]: month and day from the 0-based day [n] of a
    year; the month is first estimated as [(n + 50) >> 5], then corrected
    by one when the estimate overshoots. *)
Definition month_day (leapyear : bool) (n : Z) : Z * Z :=
  let month := Z.shiftr (n + 50) 5 in
  let preceding := idx DAYS_BEFORE_MONTH month
                   + (if (month >? 2) && leapyear then 1 else 0) in
  if preceding >? n then
    let month := month - 1 in
    let preceding := preceding - (idx DAYS_IN_MONTH month
                                  + (if (month =? 2) && leapyear then 1 else 0)) in
    (month, n - preceding + 1)
  else (month, n - preceding + 1).

(** [_ord2ymd]: ordinal (1 is 0001-01-01) to (year, month, day). *)
Definition ord2ymd (n : Z) : Z * Z * Z :=
  let n := n - 1 in
  let n400 := n / DI400Y in
  let n := n mod DI400Y in
  let year := n400 * 400 + 1 in
  let n100 := n / DI100Y in
  let n := n mod DI100Y in
  let n4 := n / DI4Y in
  let n := n mod DI4Y in
  let n1 := n / 365 in
  let n := n mod 365 in
  let year := year + n100 * 100 + n4 * 4 + n1 in
  if (n1 =? 4) || (n100 =? 4) then (year - 1, 12, 31)
  else
    let leapyear := (n1 =? 3) && (negb (n4 =? 24) || (n100 =? 3)) in
    let '(month, day) := month_day leapyear n in
    (year, month, day).

(** A date the [datetime] constructor accepts, years apart: the month is
    in [1..12] and the day in [1..days_in_month]. *)
Definition valid_ymd (year month day : Z) : bool :=
  (1 <=? month) && (month <=? 12) && (1 <=? day) && (day <=? days_in_month year month).

(** ** Year arithmetic *)

(** The year length the other functions imply. *)
Definition days_in_year (year : Z) : Z := if is_leap year then 366 else 365.

(** The day-of-year tables under a leap flag; [days_before_month] and
    [days_in_month] are these at [is_leap year]. *)
Definition dbm_of (leap : bool) (m : Z) : Z :=
  idx DAYS_BEFORE_MONTH m + (if (m >? 2) && leap then 1 else 0).
Definition dim_of (leap : bool) (m : Z) : Z :=
  if (m =? 2) && leap then 29 else idx DAYS_IN_MONTH m.

Lemma days_before_month_of y m : days_before_month y m = dbm_of (is_leap y) m.
Proof. reflexivity. Qed.

Lemma days_in_month_of y m : days_in_month y m = dim_of (is_leap y) m.
Proof. reflexivity. Qed.

Ltac destruct_zeqb :=
  repeat match goal with
         | |- context [Z.eqb ?a ?b] => destruct (Z.eqb_spec a b)
         end.

(** The 400/100/4/1-year cycle decomposition of [_ord2ymd], read
    backwards: the days before year [400a + 100b + 4c + d + 1], and
    whether it is leap. *)
Lemma days_before_year_cycles (a b c d : Z) :
  0 <= b <= 3 -> 0 <= c <= 24 -> 0 <= d <= 3 ->
  days_before_year (400 * a + 100 * b + 4 * c + d + 1)
  = 146097 * a + 36524 * b + 1461 * c + 365 * d.
Proof. intros. unfold days_before_year. zlia. Qed.

Lemma is_leap_cycles (a b c d : Z) :
  0 <= b <= 3 -> 0 <= c <= 24 -> 0 <= d <= 3 ->
  is_leap (400 * a + 100 * b + 4 * c + d + 1)
  = (d =? 3) && (negb (c =? 24) || (b =? 3)).
Proof. intros. unfold is_leap. destruct_zeqb; simpl; zlia. Qed.

Lemma days_before_year_succ (y : Z) :
  days_before_year (y + 1) = days_before_year y + days_in_year y.
Proof.
  unfold days_before_year, days_in_year, is_leap.
  replace (y + 1 - 1) with y by lia. destruct_zeqb; simpl; zlia.
Qed.

Lemma days_before_year_mono (y1 y2 : Z) :
  y1 < y2 -> days_before_year y1 + days_in_year y1 <= days_before_year y2.
Proof.
  intros H. rewrite <- days_before_year_succ.
  unfold days_before_year. zlia.
Qed.

(** ** The month estimate of [_ord2ymd], checked on every day of a year *)

Definition month_day_ok (leap : bool) (n : Z) : bool :=
  let '(m, d) := month_day leap n in
  (1 <=? m) && (m <=? 12) && (1 <=? d) && (d <=? dim_of leap m)
  && (dbm_of leap m + d =? n + 1).

(** A test on the days of the year holds on every day of every year once
    it holds on the 366 days of a leap year and the 365 of a common one. *)
Lemma year_days_check (f : bool -> Z -> bool) :
  zforall 0 366 (f true) = true -> zforall 0 365 (f false) = true ->
  forall (leap : bool) (n : Z), 0 <= n < (if leap then 366 else 365) -> f leap n = true.
Proof.
  intros H1 H2 [] n Hn; [apply (zforall_spec 0 366) | apply (zforall_spec 0 365)]; auto; lia.
Qed.

Lemma month_day_correct (leap : bool) (n : Z) :
  0 <= n < (if leap then 366 else 365) ->
  let '(m, d) := month_day leap n in
  1 <= m <= 12 /\ 1 <= d <= dim_of leap m /\ dbm_of leap m + d = n + 1.
Proof.
  intros Hn.
  assert (Hc : month_day_ok leap n = true)
    by (apply (year_days_check month_day_ok); [vm_compute; reflexivity.. | exact Hn]).
  unfold month_day_ok in Hc. destruct (month_day leap n) as [m d].
  repeat rewrite andb_true_iff in Hc. rewrite Z.eqb_eq, !Z.leb_le in Hc. lia.
Qed.

Definition month_day_inv_ok (leap : bool) (m : Z) : bool :=
  zforall 1 31 (fun d =>
    negb (d <=? dim_of leap m)
    || (let '(m', d') := month_day leap (dbm_of leap m + d - 1) in
        (m' =? m) && (d' =? d))).

Lemma month_day_inverse (leap : bool) (m d : Z) :
  1 <= m <= 12 -> 1 <= d <= dim_of leap m ->
  month_day leap (dbm_of leap m + d - 1) = (m, d).
Proof.
  intros Hm Hd.
  assert (Hdim : dim_of leap m <= 31).
  { assert (Hc : zforall 1 12 (fun m => dim_of leap m <=? 31) = true)
      by (destruct leap; reflexivity).
    apply Z.leb_le, (zforall_spec _ _ _ Hc). lia. }
  assert (Hc : month_day_inv_ok leap m = true).
  { assert (H : zforall 1 12 (month_day_inv_ok leap) = true)
      by (destruct leap; vm_compute; reflexivity).
    apply (zforall_spec _ _ _ H). lia. }
  unfold month_day_inv_ok in Hc.
  pose proof (zforall_spec _ _ _ Hc d ltac:(lia)) as Hd'. simpl in Hd'.
  destruct (d <=? dim_of leap m) eqn:E; [|apply Z.leb_gt in E; lia].
  destruct (month_day leap (dbm_of leap m + d - 1)) as [m' d'].
  simpl in Hd'. apply andb_true_iff in Hd' as [H1 H2].
  apply Z.eqb_eq in H1, H2. congruence.
Qed.

Lemma days_in_month_le_31 (y m : Z) : 1 <= m <= 12 -> days_in_month y m <= 31.
Proof.
  intros Hm. rewrite days_in_month_of.
  assert (Hc : zforall 1 12 (fun m => dim_of (is_leap y) m <=? 31) = true)
    by (destruct (is_leap y); reflexivity).
  apply Z.leb_le, (zforall_spec _ _ _ Hc). lia.
Qed.

(** ** [_ord2ymd] inverts [_ymd2ord] *)

(** The quotients and remainders of the cycle decomposition. *)
Lemma cycle_bounds (n a r1 b r2 c r3 d r : Z) :
  n - 1 = 146097 * a + r1 -> 0 <= r1 < 146097 ->
  r1 = 36524 * b + r2 -> 0 <= r2 < 36524 ->
  r2 = 1461 * c + r3 -> 0 <= r3 < 1461 ->
  r3 = 365 * d + r -> 0 <= r < 365 ->
  0 <= b <= 4 /\ 0 <= c <= 24 /\ 0 <= d <= 4 /\ (b = 4 -> c = 0 /\ d = 0 /\ r = 0)
  /\ (d = 4 -> r = 0 /\ c <= 23).
Proof. intros. lia. Qed.

Lemma valid_ymd_spec y m d :
  valid_ymd y m d = true <-> 1 <= m <= 12 /\ 1 <= d <= days_in_month y m.
Proof. unfold valid_ymd. rewrite !andb_true_iff, !Z.leb_le. tauto. Qed.

Ltac cycle_decompose n :=
  let a := fresh "a" in let r1 := fresh "r1" in let b := fresh "b" in
  let r2 := fresh "r2" in let c := fresh "c" in let r3 := fresh "r3" in
  let d := fresh "d" in let r := fresh "r" in
  remember ((n - 1) / 146097) as a eqn:Ea;
  remember ((n - 1) mod 146097) as r1 eqn:Er1;
  remember (r1 / 36524) as b eqn:Eb; remember (r1 mod 36524) as r2 eqn:Er2;
  remember (r2 / 1461) as c eqn:Ec; remember (r2 mod 1461) as r3 eqn:Er3;
  remember (r3 / 365) as d eqn:Ed; remember (r3 mod 365) as r eqn:Er;
  assert (n - 1 = 146097 * a + r1 /\ 0 <= r1 < 146097) by (subst; zlia);
  assert (r1 = 36524 * b + r2 /\ 0 <= r2 < 36524) by (subst; zlia);
  assert (r2 = 1461 * c + r3 /\ 0 <= r3 < 1461) by (subst; zlia);
  assert (r3 = 365 * d + r /\ 0 <= r < 365) by (subst; zlia);
  clear Ea Er1 Eb Er2 Ec Er3 Ed Er.

(** [_ord2ymd n] is a valid date whose ordinal is [n], for every integer
    [n] (Python's floor division makes the code total). *)
Lemma ord2ymd_spec (n : Z) :
  let '(y, m, d) := ord2ymd n in
  valid_ymd y m d = true /\ ymd2ord y m d = n.
Proof.
  unfold ord2ymd; cbv zeta.
  change DI400Y with 146097; change DI100Y with 36524; change DI4Y with 1461.
  cycle_decompose n.
  match goal with
  | H1 : _ /\ _, H2 : _ /\ _, H3 : _ /\ _, H4 : _ /\ _ |- _ =>
      destruct H1, H2, H3, H4
  end.
  edestruct cycle_bounds as (Hb & Hc & Hd & Hb4 & Hd4); try eassumption.
  destruct ((d =? 4) || (b =? 4)) eqn:Hs.
  - (* the last day of a 4-year or of a 400-year cycle *)
    unfold ymd2ord; rewrite valid_ymd_spec, days_in_month_of, days_before_month_of.
    apply orb_true_iff in Hs as [Hs|Hs]; apply Z.eqb_eq in Hs; subst.
    + destruct (Hd4 eq_refl) as [-> Hc'].
      replace (a * 400 + 1 + b * 100 + c * 4 + 4 - 1)
        with (400 * a + 100 * b + 4 * c + 3 + 1) by lia.
      rewrite days_before_year_cycles, is_leap_cycles by lia.
      rewrite (proj2 (Z.eqb_neq c 24)) by lia.
      change ((3 =? 3) && (negb false || (b =? 3))) with true.
      change (dim_of true 12) with 31; change (dbm_of true 12) with 335. lia.
    + destruct (Hb4 eq_refl) as (-> & -> & ->).
      replace (a * 400 + 1 + 4 * 100 + 0 * 4 + 0 - 1)
        with (400 * a + 100 * 3 + 4 * 24 + 3 + 1) by lia.
      rewrite days_before_year_cycles, is_leap_cycles by lia.
      change ((3 =? 3) && (negb (24 =? 24) || (3 =? 3))) with true.
      change (dim_of true 12) with 31; change (dbm_of true 12) with 335. lia.
  - apply orb_false_iff in Hs as [Hs1 Hs2]; apply Z.eqb_neq in Hs1, Hs2.
    replace (a * 400 + 1 + b * 100 + c * 4 + d)
      with (400 * a + 100 * b + 4 * c + d + 1) by lia.
    rewrite <- (is_leap_cycles a b c d) by lia.
    pose proof (month_day_correct (is_leap (400 * a + 100 * b + 4 * c + d + 1)) r)
      as Hmd.
    destruct (month_day _ r) as [m dd].
    destruct Hmd as (Hm & Hdd & Hsum); [destruct is_leap; lia|].
    unfold ymd2ord; rewrite valid_ymd_spec, days_in_month_of, days_before_month_of.
    rewrite days_before_year_cycles by lia. lia.
Qed.

(** The day of the year of a valid date lies within its year. *)
Lemma day_of_year_bounds (leap : bool) (m d : Z) :
  1 <= m <= 12 -> 1 <= d <= dim_of leap m ->
  1 <= dbm_of leap m + d <= (if leap then 366 else 365).
Proof.
  intros Hm Hd.
  assert (Hc : zforall 1 12 (fun m => (0 <=? dbm_of leap m)
                 && (dbm_of leap m + dim_of leap m <=? if leap then 366 else 365)) = true)
    by (destruct leap; reflexivity).
  pose proof (zforall_spec _ _ _ Hc m ltac:(lia)) as Hm'. cbv beta in Hm'.
  apply andb_true_iff in Hm' as [H1 H2]. apply Z.leb_le in H1, H2. lia.
Qed.

Lemma ymd2ord_bounds (y m d : Z) :
  valid_ymd y m d = true ->
  days_before_year y + 1 <= ymd2ord y m d <= days_before_year y + days_in_year y.
Proof.
  rewrite valid_ymd_spec, days_in_month_of. intros [Hm Hd].
  pose proof (day_of_year_bounds _ _ _ Hm Hd).
  unfold ymd2ord, days_in_year. rewrite days_before_month_of.
  destruct (is_leap y); lia.
Qed.

(** [_ymd2ord] is injective on valid dates. *)
Lemma ymd2ord_inj (y1 m1 d1 y2 m2 d2 : Z) :
  valid_ymd y1 m1 d1 = true -> valid_ymd y2 m2 d2 = true ->
  ymd2ord y1 m1 d1 = ymd2ord y2 m2 d2 -> (y1, m1, d1) = (y2, m2, d2).
Proof.
  intros V1 V2 E.
  pose proof (ymd2ord_bounds _ _ _ V1) as B1; pose proof (ymd2ord_bounds _ _ _ V2) as B2.
  assert (y1 = y2) as <-.
  { destruct (Z.lt_trichotomy y1 y2) as [Y|[Y|Y]]; [|exact Y|];
      apply days_before_year_mono in Y; lia. }
  rewrite valid_ymd_spec, days_in_month_of in V1, V2.
  destruct V1 as [Hm1 Hd1], V2 as [Hm2 Hd2].
  unfold ymd2ord in E. rewrite !days_before_month_of in E.
  assert (M : (m1, d1) = (m2, d2)).
  { rewrite <- (month_day_inverse _ _ _ Hm1 Hd1), <- (month_day_inverse _ _ _ Hm2 Hd2).
    f_equal. lia. }
  injection M as -> ->. reflexivity.
Qed.

(** [_ord2ymd] inverts [_ymd2ord] on valid dates. *)
Lemma ord2ymd_ymd2ord (y m d : Z) :
  valid_ymd y m d = true -> ord2ymd (ymd2ord y m d) = (y, m, d).
Proof.
  intros V. pose proof (ord2ymd_spec (ymd2ord y m d)) as S.
  destruct (ord2ymd (ymd2ord y m d)) as [[y' m'] d']. destruct S as [V' E].
  exact (ymd2ord_inj _ _ _ _ _ _ V' V E).
Qed.

(** The years [datetime] accepts, [1..9999], are the ordinals
    [1 .. 3652059]. *)
Lemma ord2ymd_year_range (n : Z) :
  let '(y, _, _) := ord2ymd n in (1 <= y <= 9999 <-> 1 <= n <= 3652059).
Proof.
  pose proof (ord2ymd_spec n) as S. destruct (ord2ymd n) as [[y m] d].
  destruct S as [V E]. pose proof (ymd2ord_bounds _ _ _ V) as B. rewrite E in B.
  change 3652059 with (days_before_year 10000).
  assert (D1 : days_before_year 1 = 0) by reflexivity.
  split; intros H.
  - split; [|destruct (Z.eq_dec y 9999) as [->|Hy]].
    + destruct (Z.eq_dec y 1) as [->|Hy]; [lia|].
      pose proof (days_before_year_mono 1 y ltac:(lia)). unfold days_in_year in *.
      destruct (is_leap 1), (is_leap y); lia.
    + change (days_before_year 10000) with (days_before_year (9999 + 1)).
      rewrite days_before_year_succ. lia.
    + pose proof (days_before_year_mono y 10000 ltac:(lia)). lia.
  - destruct (Z_lt_le_dec y 1) as [Hy|Hy].
    + pose proof (days_before_year_mono y 1 Hy). lia.
    + destruct (Z_lt_le_dec 9999 y) as [Hy'|Hy']; [|lia].
      destruct (Z.eq_dec y 10000) as [->|Hy''];
        [|pose proof (days_before_year_mono 10000 y ltac:(lia));
          unfold days_in_year in *; destruct (is_leap 10000)]; lia.
Qed.

(** Months follow each other: a later month starts after the earlier one
    ends. *)
Lemma dbm_mono (leap : bool) (m1 m2 : Z) :
  1 <= m1 -> m1 < m2 -> m2 <= 12 -> dbm_of leap m1 + dim_of leap m1 <= dbm_of leap m2.
Proof.
  intros H1 H12 H2.
  assert (Hc : zforall 1 12 (fun a => zforall 1 12 (fun b =>
                 negb (a <? b) || (dbm_of leap a + dim_of leap a <=? dbm_of leap b))) = true)
    by (destruct leap; vm_compute; reflexivity).
  pose proof (zforall_spec _ _ _ (zforall_spec _ _ _ Hc m1 ltac:(lia)) m2 ltac:(lia)) as H.
  cbv beta in H. apply orb_true_iff in H as [H|H];
    [apply negb_true_iff, Z.ltb_ge in H; lia | apply Z.leb_le in H; exact H].
Qed.

(** [_ymd2ord] orders valid dates lexicographically: comparing ordinals
    compares years, then months, then days. *)
Lemma ymd2ord_compare (y1 m1 d1 y2 m2 d2 : Z) :
  valid_ymd y1 m1 d1 = true -> valid_ymd y2 m2 d2 = true ->
  Z.compare (ymd2ord y1 m1 d1) (ymd2ord y2 m2 d2)
  = lex (Z.compare y1 y2) (lex (Z.compare m1 m2) (Z.compare d1 d2)).
Proof.
  intros V1 V2.
  pose proof (ymd2ord_bounds _ _ _ V1) as B1; pose proof (ymd2ord_bounds _ _ _ V2) as B2.
  destruct (Z.compare_spec y1 y2) as [<-|Y|Y].
  - rewrite valid_ymd_spec, days_in_month_of in V1, V2.
    unfold ymd2ord. rewrite !days_before_month_of.
    destruct (Z.compare_spec m1 m2) as [<-|M|M].
    + destruct (Z.compare_spec d1 d2) as [<-|D|D];
        [apply Z.compare_refl | apply Z.compare_lt_iff | apply Z.compare_gt_iff]; lia.
    + pose proof (dbm_mono (is_leap y1) m1 m2 ltac:(lia) M ltac:(lia)).
      apply Z.compare_lt_iff. lia.
    + pose proof (dbm_mono (is_leap y1) m2 m1 ltac:(lia) M ltac:(lia)).
      apply Z.compare_gt_iff. lia.
  - apply days_before_year_mono in Y. apply Z.compare_lt_iff. lia.
  - apply days_before_year_mono in Y. apply Z.compare_gt_iff. lia.
Qed.

End Calendar.
