(* ===== verification/LocalTime.v ===== *)
(** * LocalTime: the wall clock read by [datetime.now()]

    Line 12 of src/app.py calls [datetime.now()].  CPython computes it in
    C: [_PyTime_GetSystemClock] stores the [clock_gettime] reading as a
    [PyTime_t], a signed 64-bit count of nanoseconds whose multiplication
    and addition saturate ([system_clock]); [datetime_best_possible]
    splits it into whole seconds and microseconds by floor division
    ([as_timeval_floor]); [datetime_from_timet_and_us] breaks the seconds
    down with the C library's [localtime_r] (an [OSError] when it fails),
    clamps a leap second [tm_sec = 60] to 59, detects a "fold" by probing
    [localtime] one day earlier, and calls the [datetime] constructor,
    which checks the fields (year in [1..9999]).

    - [LocalClock] is the interface of the host's [localtime] (a type
      class): what the operating system promises the [datetime] module.
      [LocalClockOk] is its contract (field ranges).
    - [zone_localtime] is a stand-in for the C library, not code of the
      program: it implements the interface for a zone given by its UTC
      offset at each instant (a fixed offset, or one with daylight-saving
      steps), from the calendar of [Calendar]; [zone_localtime_ok]
      discharges the contract.
    - [now] is [datetime.now()] against any [LocalClock].  The theorems:
      the saturated clock is a [PyTime_t] and equals the reading from
      the first whole second of [PyTime_t] on; under the contract [now]
      raises only the [localtime] error or the year error; with a fixed
      offset of less than a day it never raises (the clock reaches only
      the years 1677 to 2262) and returns the wall time of the clock's
      second; in a zone that sets its clocks back it detects the fold. *)

From Stdlib Require Import ZArith Lia Bool String.
From S2P Require Import Prelude Calendar.

Local Open Scope Z_scope.

Module LocalTime.
Import Calendar.

(** The fields of C's [struct tm] that [datetime] reads. *)
Record tm := mk_tm {
  tm_year : Z;  (** years since 1900 *)
  tm_mon : Z;   (** 0..11 *)
  tm_mday : Z;  (** 1..31 *)
  tm_hour : Z;
  tm_min : Z;
  tm_sec : Z    (** 0..60: 60 is a leap second *)
}.

(** [localtime]: seconds since the epoch to broken-down local time, or a
    failure ([localtime_r] returns [NULL]; CPython raises [OSError] from
    [errno]). *)
Class LocalClock := { localtime : Z -> option tm }.

(** The ranges a conforming [localtime] fills the fields with. *)
Definition tm_ok (r : tm) : Prop :=
  valid_ymd (tm_year r + 1900) (tm_mon r + 1) (tm_mday r) = true
  /\ 0 <= tm_hour r < 24 /\ 0 <= tm_min r < 60 /\ 0 <= tm_sec r <= 60.

Class LocalClockOk (C : LocalClock) :=
  localtime_ok : forall t r, localtime t = Some r -> tm_ok r.

(** ** A zone: [localtime] as the C library computes it *)

(** The UTC offset in seconds in effect at each instant (from the host's
    zone database). *)
Definition offset := Z -> Z.

Definition SECS_PER_DAY : Z := 86400.

(** The ordinal of 1970-01-01, [_ymd2ord(1970, 1, 1)]. *)
Definition EPOCH_ORDINAL : Z := 719163.

(** [tm_year] is a C [int]. *)
Definition INT_MIN : Z := - 2 ^ 31.
Definition INT_MAX : Z := 2 ^ 31 - 1.

Definition zone_localtime (off : offset) (t : Z) : option tm :=
  let u := t + off t in
  let days := u / SECS_PER_DAY in
  let rem := u mod SECS_PER_DAY in
  let '(y, m, d) := ord2ymd (days + EPOCH_ORDINAL) in
  if (INT_MIN <=? y - 1900) && (y - 1900 <=? INT_MAX) then
    Some (mk_tm (y - 1900) (m - 1) d (rem / 3600) (rem mod 3600 / 60) (rem mod 60))
  else None.

#[export] Instance zone_clock (off : offset) : LocalClock :=
  { localtime := zone_localtime off }.

Lemma zone_localtime_ok (off : offset) : LocalClockOk (zone_clock off).
Proof.
  intros t r. simpl. unfold zone_localtime.
  pose proof (ord2ymd_spec ((t + off t) / SECS_PER_DAY + EPOCH_ORDINAL)) as S.
  destruct (ord2ymd _) as [[y m] d]. destruct S as [V _].
  case_if; [|discriminate]. intros H; injection H as <-.
  unfold tm_ok; simpl. replace (y - 1900 + 1900) with y by lia.
  replace (m - 1 + 1) with m by lia. unfold SECS_PER_DAY. repeat split; try zlia; auto.
Qed.

#[export] Existing Instance zone_localtime_ok.

(** ** Python's [datetime] *)

(** A naive [datetime]: the fields the C type stores. *)
Record datetime := mk_datetime {
  year : Z; month : Z; day : Z;
  hour : Z; minute : Z; second : Z; microsecond : Z;
  fold : Z
}.

Definition MINYEAR : Z := 1.
Definition MAXYEAR : Z := 9999.

Definition in_range (lo x hi : Z) : bool := (lo <=? x) && (x <=? hi).

(** The constructor [new_datetime_ex2] with its [check_date_args] and
    [check_time_args]. *)
Definition new_datetime (y m d hh mm ss us fd : Z) : result datetime :=
  if negb (in_range MINYEAR y MAXYEAR) then Raise (ValueError "year is out of range")
  else if negb (in_range 1 m 12) then Raise (ValueError "month must be in 1..12")
  else if negb (in_range 1 d (days_in_month y m)) then
    Raise (ValueError "day is out of range for month")
  else if negb (in_range 0 hh 23) then Raise (ValueError "hour must be in 0..23")
  else if negb (in_range 0 mm 59) then Raise (ValueError "minute must be in 0..59")
  else if negb (in_range 0 ss 59) then Raise (ValueError "second must be in 0..59")
  else if negb (in_range 0 us 999999) then
    Raise (ValueError "microsecond must be in 0..999999")
  else if negb (in_range 0 fd 1) then Raise (ValueError "fold must be either 0 or 1")
  else Ok (mk_datetime y m d hh mm ss us fd).

(** The fields of a valid [datetime], as the constructor checks them. *)
Definition datetime_ok (dt : datetime) : Prop :=
  in_range MINYEAR (year dt) MAXYEAR = true
  /\ valid_ymd (year dt) (month dt) (day dt) = true
  /\ 0 <= hour dt <= 23 /\ 0 <= minute dt <= 59 /\ 0 <= second dt <= 59
  /\ 0 <= microsecond dt <= 999999 /\ 0 <= fold dt <= 1.

(** [utc_to_seconds]: a broken-down time as seconds since 0001-01-01
    minus one day (the ordinal scale of [_ymd2ord]). *)
Definition utc_to_seconds (y m d hh mm ss : Z) : result Z :=
  if negb (in_range MINYEAR y MAXYEAR) then Raise (ValueError "year is out of range")
  else Ok (((ymd2ord y m d * 24 + hh) * 60 + mm) * 60 + ss).

(** [epoch]: 1970-01-01 on that scale; [max_fold_seconds]: one day. *)
Definition EPOCH : Z := EPOCH_ORDINAL * 24 * 60 * 60.
Definition max_fold_seconds : Z := 24 * 3600.

(** ** The system clock: [_PyTime_GetSystemClock] (Python/pytime.c)

    [clock_gettime(CLOCK_REALTIME)] fills a [timespec]; the reading [ns]
    below is that [timespec] as one integer, [tv_sec * 10^9 + tv_nsec]
    with [0 <= tv_nsec < 10^9].  CPython stores it in a [PyTime_t], a
    signed 64-bit count of nanoseconds, with [pytime_mul] and
    [pytime_add], which saturate at [PyTime_MIN]/[PyTime_MAX] instead of
    wrapping; [_PyTime_GetSystemClock] asks them not to raise. *)

Definition PyTime_MIN : Z := -9223372036854775808.
Definition PyTime_MAX : Z := 9223372036854775807.
Definition SEC_TO_NS : Z := 10 ^ 9.

(** [pytime_mul]: [*t * k] for [k >= 0], the bound of the sign of [*t]
    when [pytime_mul_check_overflow] (C division truncates: [Z.quot])
    detects an overflow. *)
Definition pytime_mul (t k : Z) : Z :=
  if (k =? 0) then t * k
  else if (t <? Z.quot PyTime_MIN k) || (Z.quot PyTime_MAX k <? t) then
    (if 0 <=? t then PyTime_MAX else PyTime_MIN)
  else t * k.

(** [pytime_add]: [*t1 + t2], saturated. *)
Definition pytime_add (t1 t2 : Z) : Z :=
  if (0 <? t2) && (PyTime_MAX - t2 <? t1) then PyTime_MAX
  else if (t2 <? 0) && (t1 <? PyTime_MIN - t2) then PyTime_MIN
  else t1 + t2.

(** [pytime_fromtimespec(tp, ts, raise_exc=0)]. *)
Definition pytime_fromtimespec (tv_sec tv_nsec : Z) : Z :=
  pytime_add (pytime_mul tv_sec SEC_TO_NS) tv_nsec.

(** [_PyTime_GetSystemClock()] for the reading [ns]. *)
Definition system_clock (ns : Z) : Z := pytime_fromtimespec (ns / SEC_TO_NS) (ns mod SEC_TO_NS).

(** [_PyTime_AsTimevalTime_t(t, &secs, &us, _PyTime_ROUND_FLOOR)]:
    [pytime_divide] floors [t] to microseconds, then the microseconds are
    split into seconds and a remainder made non-negative. *)
Definition as_timeval_floor (t : Z) : Z * Z :=
  let us := t / 1000 in (us / 10 ^ 6, us mod 10 ^ 6).

Section WithClock.
Context {C : LocalClock}.

(** The [OSError] of [_PyTime_localtime] when [localtime_r] fails:
    glibc sets [errno] to [EOVERFLOW]. *)
Definition localtime_exc : py_exc :=
  OSError "Value too large for defined data type".

Definition tm_seconds (r : tm) : result Z :=
  utc_to_seconds (tm_year r + 1900) (tm_mon r + 1) (tm_mday r)
                 (tm_hour r) (tm_min r) (tm_sec r).

(** [local(u)]: the local wall time of the instant [u - epoch], on the
    same scale. *)
Definition local (u : Z) : result Z :=
  match localtime (u - EPOCH) with
  | None => Raise localtime_exc
  | Some r => tm_seconds r
  end.

(** [datetime_from_timet_and_us] for [localtime] and no [tzinfo]. *)
Definition from_timet_and_us (timet us : Z) : result datetime :=
  match localtime timet with
  | None => Raise localtime_exc
  | Some r =>
      let y := tm_year r + 1900 in
      let m := tm_mon r + 1 in
      let d := tm_mday r in
      let hh := tm_hour r in
      let mm := tm_min r in
      let ss := Z.min 59 (tm_sec r) in
      (result_seconds <- utc_to_seconds y m d hh mm ss ;;
       probe_seconds <- local (EPOCH + timet - max_fold_seconds) ;;
       let transition := result_seconds - probe_seconds - max_fold_seconds in
       fd <- (if transition <? 0 then
                probe2 <- local (EPOCH + timet + transition) ;;
                Ok (if probe2 =? result_seconds then 1 else 0)
              else Ok 0) ;;
       new_datetime y m d hh mm ss us fd)%web
  end.

(** [datetime.now()] ([datetime_best_possible]): the system clock read
    at [ns], split into seconds and microseconds by floor division. *)
Definition now (ns : Z) : result datetime :=
  let '(secs, us) := as_timeval_floor (system_clock ns) in
  from_timet_and_us secs us.

End WithClock.

(** ** The constructor *)

Lemma in_range_spec lo x hi : in_range lo x hi = true <-> lo <= x <= hi.
Proof. unfold in_range. rewrite andb_true_iff, !Z.leb_le. reflexivity. Qed.

Lemma in_range_false lo x hi : in_range lo x hi = false <-> ~ (lo <= x <= hi).
Proof. rewrite <- in_range_spec. destruct (in_range lo x hi); intuition congruence. Qed.

(** ** The saturated clock *)

(** [pytime_mul] by [SEC_TO_NS] saturates exactly where the product
    leaves [PyTime_t]. *)
Lemma pytime_mul_sec (t : Z) :
  pytime_mul t SEC_TO_NS =
  if t <? -9223372036 then PyTime_MIN else if 9223372036 <? t then PyTime_MAX else t * SEC_TO_NS.
Proof.
  unfold pytime_mul.
  change (Z.quot PyTime_MIN SEC_TO_NS) with (-9223372036).
  change (Z.quot PyTime_MAX SEC_TO_NS) with 9223372036.
  change (SEC_TO_NS =? 0) with false. cbv iota. zcases; reflexivity || lia.
Qed.

Lemma system_clock_cases (ns : Z) :
  system_clock ns = pytime_add (if ns / SEC_TO_NS <? -9223372036 then PyTime_MIN
                                else if 9223372036 <? ns / SEC_TO_NS then PyTime_MAX
                                else ns / SEC_TO_NS * SEC_TO_NS) (ns mod SEC_TO_NS).
Proof. unfold system_clock, pytime_fromtimespec. now rewrite pytime_mul_sec. Qed.

(** The reading [_PyTime_GetSystemClock] returns is a [PyTime_t]. *)
Lemma system_clock_bounds (ns : Z) : PyTime_MIN <= system_clock ns <= PyTime_MAX.
Proof.
  rewrite system_clock_cases. unfold pytime_add, PyTime_MIN, PyTime_MAX, SEC_TO_NS.
  pose proof (Z.mod_pos_bound ns (10 ^ 9) ltac:(lia)). zcases; lia.
Qed.

(** Within [PyTime_t], from the first whole second on, the clock is
    stored exactly. *)
Lemma system_clock_exact (ns : Z) :
  -9223372036 * SEC_TO_NS <= ns <= PyTime_MAX -> system_clock ns = ns.
Proof.
  intros H. rewrite system_clock_cases. unfold pytime_add, PyTime_MIN, PyTime_MAX, SEC_TO_NS in *.
  pose proof (Z.div_mod ns (10 ^ 9) ltac:(lia)). pose proof (Z.mod_pos_bound ns (10 ^ 9) ltac:(lia)).
  assert (-9223372036 <= ns / 10 ^ 9 <= 9223372036) by zlia. zcases; lia.
Qed.

Lemma system_clock_exact_seconds (t : Z) :
  -9223372036 <= t <= 9223372036 -> system_clock (t * 10 ^ 9) = t * 10 ^ 9.
Proof. intros H. apply system_clock_exact. unfold SEC_TO_NS, PyTime_MAX. lia. Qed.

Lemma as_timeval_floor_spec (t : Z) : as_timeval_floor t = (t / 10 ^ 9, t mod 10 ^ 9 / 1000).
Proof.
  unfold as_timeval_floor. f_equal; [rewrite Z.div_div by lia; reflexivity|].
  change (10 ^ 9) with (1000 * 10 ^ 6). rewrite Z.rem_mul_r by lia. zlia.
Qed.

(** [now] reads the saturated clock and splits it by floor division. *)
Lemma now_unfold {C : LocalClock} (ns : Z) :
  now ns = from_timet_and_us (system_clock ns / 10 ^ 9) (system_clock ns mod 10 ^ 9 / 1000).
Proof. unfold now. now rewrite as_timeval_floor_spec. Qed.

(** [new_datetime] returns the [datetime] of its arguments when they pass
    the checks, and raises [ValueError] otherwise. *)
Lemma new_datetime_spec y m d hh mm ss us fd :
  (new_datetime y m d hh mm ss us fd = Ok (mk_datetime y m d hh mm ss us fd)
   /\ datetime_ok (mk_datetime y m d hh mm ss us fd))
  \/ (exists msg, new_datetime y m d hh mm ss us fd = Raise (ValueError msg)
      /\ ~ datetime_ok (mk_datetime y m d hh mm ss us fd)).
Proof.
  unfold new_datetime, datetime_ok, valid_ymd; simpl.
  repeat match goal with
         | |- context [negb (in_range ?l ?x ?h)] =>
             let E := fresh "E" in
             destruct (in_range l x h) eqn:E; simpl;
             [rewrite in_range_spec in E | rewrite in_range_false in E;
               right; eexists; split; [reflexivity|]; intros Hok;
               rewrite ?andb_true_iff, ?Z.leb_le, ?in_range_spec in Hok; lia]
         end.
  left. split; [reflexivity|]. rewrite ?andb_true_iff, ?Z.leb_le. lia.
Qed.

Lemma new_datetime_Ok y m d hh mm ss us fd dt :
  new_datetime y m d hh mm ss us fd = Ok dt ->
  dt = mk_datetime y m d hh mm ss us fd /\ datetime_ok dt.
Proof.
  destruct (new_datetime_spec y m d hh mm ss us fd) as [[-> ?] | (msg & -> & _)];
    intros Heq; [injection Heq as <-; auto | discriminate].
Qed.

Lemma new_datetime_valid y m d hh mm ss us fd :
  datetime_ok (mk_datetime y m d hh mm ss us fd) ->
  new_datetime y m d hh mm ss us fd = Ok (mk_datetime y m d hh mm ss us fd).
Proof. destruct (new_datetime_spec y m d hh mm ss us fd) as [[? ?]|(? & _ & ?)]; tauto. Qed.

(** ** [now] against the [localtime] contract *)

Definition year_error : py_exc := ValueError "year is out of range".

Lemma utc_to_seconds_raise y m d hh mm ss e :
  utc_to_seconds y m d hh mm ss = Raise e -> e = year_error.
Proof. unfold utc_to_seconds. case_if; intros H; [injection H as <-; reflexivity | discriminate]. Qed.

Lemma new_datetime_raise y m d hh mm ss us fd e :
  1 <= m <= 12 -> 1 <= d <= days_in_month y m -> 0 <= hh <= 23 -> 0 <= mm <= 59 ->
  0 <= ss <= 59 -> 0 <= us <= 999999 -> 0 <= fd <= 1 ->
  new_datetime y m d hh mm ss us fd = Raise e -> e = year_error.
Proof.
  intros Hm Hd Hh Hmi Hs Hus Hfd Hnd. unfold new_datetime in Hnd.
  repeat match type of Hnd with
         | context [in_range ?l ?x ?h] =>
             let E := fresh "E" in
             destruct (in_range l x h) eqn:E; simpl in Hnd;
             [| try (rewrite in_range_false in E; lia)]
         end; unfold year_error; congruence.
Qed.

(** The fold the probe computes is 0 or 1. *)
Lemma fold_value_range (c : bool) (l : result Z) (v a b fd : Z) :
  (if c then bind l (fun p => Ok (if p =? v then a else b)) else Ok 0) = Ok fd ->
  0 <= a <= 1 -> 0 <= b <= 1 -> 0 <= fd <= 1.
Proof.
  destruct c; [|intros H; injection H as <-; lia].
  destruct l as [p|]; simpl; [|discriminate].
  destruct (p =? v); intros H; injection H as <-; lia.
Qed.

(** Whatever the clock, a [datetime] that [now] returns passed the
    constructor's checks. *)
Lemma now_Ok_valid {C : LocalClock} (ns : Z) (dt : datetime) :
  now ns = Ok dt -> datetime_ok dt.
Proof.
  rewrite now_unfold. unfold from_timet_and_us. destruct (localtime _) as [r|]; [|discriminate].
  cbv zeta. intros H.
  apply bind_eq_Ok in H as (? & _ & H). apply bind_eq_Ok in H as (? & _ & H).
  apply bind_eq_Ok in H as (? & _ & H). exact (proj2 (new_datetime_Ok _ _ _ _ _ _ _ _ _ H)).
Qed.

Section Contract.
Context {C : LocalClock} {HC : LocalClockOk C}.

Lemma local_raise u e : local u = Raise e -> e = localtime_exc \/ e = year_error.
Proof.
  unfold local. destruct (localtime (u - EPOCH)).
  - intros H. right. exact (utc_to_seconds_raise _ _ _ _ _ _ _ H).
  - intros H. injection H as <-. left; reflexivity.
Qed.

(** C16: Under the contract of [localtime], [datetime.now()] fails only when
    [localtime] fails or a year leaves [1..9999]: the constructor's other
    checks (month, day, time fields, microsecond, fold) always pass. *)
Theorem now_raise (ns : Z) (e : py_exc) :
  now ns = Raise e -> e = localtime_exc \/ e = year_error.
Proof.
  rewrite now_unfold. unfold from_timet_and_us.
  destruct (localtime _) as [r|] eqn:L; [|intros H; injection H as <-; auto].
  destruct (HC _ _ L) as (V & Hh & Hm & Hs). apply valid_ymd_spec in V.
  intros H.
  repeat match goal with
         | H : bind _ _ = Raise _ |- _ =>
             apply bind_eq_Raise in H as [H|(? & ? & H)]; cbv beta in H
         | H : utc_to_seconds _ _ _ _ _ _ = Raise _ |- _ =>
             right; exact (utc_to_seconds_raise _ _ _ _ _ _ _ H)
         | H : local _ = Raise _ |- _ => exact (local_raise _ _ H)
         | H : (if ?b then _ else _) = Raise _ |- _ => destruct b
         | H : Ok _ = Raise _ |- _ => discriminate H
         end.
  all: right; eapply new_datetime_raise; [..| exact H]; try lia; try zlia.
  all: eapply fold_value_range; [eassumption | lia | lia].
Qed.

End Contract.

(** ** [now] in a zone *)

(** The local wall time of a [datetime], on the scale of [utc_to_seconds]. *)
Definition wall_seconds (dt : datetime) : Z :=
  ((ymd2ord (year dt) (month dt) (day dt) * 24 + hour dt) * 60 + minute dt) * 60
  + second dt.

(** The wall-clock range of [datetime]: 0001-01-01 00:00:00 to
    9999-12-31 23:59:59. *)
Definition in_datetime_range (u : Z) : Prop := 86400 <= u < 3652060 * 86400.

(** In a zone, [localtime t] breaks down the local wall time
    [t + off t] (shifted to the ordinal scale), and [tm_seconds] gives it
    back. *)
Lemma zone_localtime_spec (off : offset) (t : Z) :
  in_datetime_range (t + off t + EPOCH) ->
  exists r, zone_localtime off t = Some r /\ tm_ok r /\ tm_sec r <= 59
            /\ tm_seconds r = Ok (t + off t + EPOCH).
Proof.
  intros Hu.
  enough (Hz : exists r, zone_localtime off t = Some r /\ tm_sec r <= 59
                         /\ tm_seconds r = Ok (t + off t + EPOCH)).
  { destruct Hz as (r & L & Hs & T). exists r.
    split; [exact L | split; [exact (zone_localtime_ok off t r L) | auto]]. }
  unfold zone_localtime. unfold in_datetime_range, EPOCH, EPOCH_ORDINAL in *.
  set (n := (t + off t) / SECS_PER_DAY + 719163).
  pose proof (ord2ymd_spec n) as S; pose proof (ord2ymd_year_range n) as R.
  destruct (ord2ymd n) as [[y m] d]. destruct S as [V E].
  assert (Hn : 1 <= n <= 3652059) by (unfold n, SECS_PER_DAY; zlia).
  apply R in Hn.
  replace ((INT_MIN <=? y - 1900) && (y - 1900 <=? INT_MAX)) with true
    by (symmetry; apply andb_true_iff; rewrite !Z.leb_le; unfold INT_MIN, INT_MAX; lia).
  eexists; split; [reflexivity|]. simpl.
  split; [unfold SECS_PER_DAY; zlia|].
  unfold tm_seconds, utc_to_seconds; simpl.
  replace (y - 1900 + 1900) with y by lia. replace (m - 1 + 1) with m by lia.
  rewrite (proj2 (in_range_spec MINYEAR y MAXYEAR)) by (unfold MINYEAR, MAXYEAR; lia).
  simpl. f_equal. rewrite E. unfold n, SECS_PER_DAY. zlia.
Qed.

Lemma zone_local (off : offset) (u : Z) :
  in_datetime_range (u - EPOCH + off (u - EPOCH) + EPOCH) ->
  @local (zone_clock off) u = Ok (u + off (u - EPOCH)).
Proof.
  intros Hu. destruct (zone_localtime_spec off (u - EPOCH) Hu) as (r & L & _ & _ & T).
  unfold local. change (@localtime (zone_clock off)) with (zone_localtime off).
  rewrite L, T. f_equal. lia.
Qed.

Lemma tm_seconds_Ok (r : tm) (u : Z) :
  tm_seconds r = Ok u ->
  in_range MINYEAR (tm_year r + 1900) MAXYEAR = true
  /\ ((ymd2ord (tm_year r + 1900) (tm_mon r + 1) (tm_mday r) * 24 + tm_hour r) * 60
      + tm_min r) * 60 + tm_sec r = u.
Proof.
  unfold tm_seconds, utc_to_seconds. case_if; [discriminate|].
  intros H; injection H as <-. apply negb_false_iff in E. auto.
Qed.

(** The microseconds [now] passes to the constructor are in range. *)
Lemma now_us_range (ns : Z) : 0 <= ns mod 10 ^ 9 / 1000 <= 999999.
Proof. zlia. Qed.

(** A broken-down time of a zone whose year is in range makes a valid
    [datetime] with any fold 0 or 1, whose wall time is the one encoded. *)
Lemma zone_new_datetime (r : tm) (us fd w : Z) :
  tm_ok r -> tm_sec r <= 59 -> in_range MINYEAR (tm_year r + 1900) MAXYEAR = true ->
  ((ymd2ord (tm_year r + 1900) (tm_mon r + 1) (tm_mday r) * 24 + tm_hour r) * 60
   + tm_min r) * 60 + tm_sec r = w ->
  0 <= us <= 999999 -> 0 <= fd <= 1 ->
  exists dt, new_datetime (tm_year r + 1900) (tm_mon r + 1) (tm_mday r) (tm_hour r)
               (tm_min r) (tm_sec r) us fd = Ok dt
    /\ datetime_ok dt /\ wall_seconds dt = w /\ microsecond dt = us /\ fold dt = fd.
Proof.
  intros (V & Hh & Hm & Hs) Hs59 Yr W Hus Hfd.
  assert (Ok_dt : datetime_ok (mk_datetime (tm_year r + 1900) (tm_mon r + 1) (tm_mday r)
                                 (tm_hour r) (tm_min r) (tm_sec r) us fd))
    by (unfold datetime_ok; simpl; rewrite !in_range_spec in *; repeat split; auto; lia).
  rewrite new_datetime_valid by exact Ok_dt. eexists; split; [reflexivity|]. auto.
Qed.

(** The steps of [now] in a zone up to the fold detection: the wall time
    and the first probe, one day back, are read from the zone. *)
Ltac now_zone_prefix off t tr H0 H1 :=
  destruct (zone_localtime_spec off t H0) as (r & L & Ok_r & Hs & T);
  rewrite now_unfold; unfold from_timet_and_us; fold t;
  change (@localtime (zone_clock off)) with (zone_localtime off); rewrite L; cbv zeta;
  rewrite (Z.min_r _ _ Hs); fold (tm_seconds r); rewrite T, bind_Ok;
  rewrite (zone_local off (EPOCH + t - max_fold_seconds))
    by (replace (EPOCH + t - max_fold_seconds - EPOCH) with (t - max_fold_seconds) by lia;
        replace (EPOCH + t - max_fold_seconds - EPOCH + off (t - max_fold_seconds) + EPOCH)
          with (t - max_fold_seconds + off (t - max_fold_seconds) + EPOCH) by lia; exact H1);
  rewrite bind_Ok;
  replace (EPOCH + t - max_fold_seconds - EPOCH) with (t - max_fold_seconds) by lia;
  replace (t + off t + EPOCH - (EPOCH + t - max_fold_seconds + off (t - max_fold_seconds))
           - max_fold_seconds) with tr by (unfold tr; lia);
  pose proof T as T'; apply tm_seconds_Ok in T' as [Yr W].

(** The second probe, [- transition] seconds back. *)
Ltac now_zone_probe2 off t tr H2 Htr :=
  rewrite (zone_local off (EPOCH + t + tr))
    by (replace (EPOCH + t + tr - EPOCH) with (t + tr) by lia;
        replace (EPOCH + t + tr - EPOCH + off (t + tr) + EPOCH)
          with (t + tr + off (t + tr) + EPOCH) by lia; exact (H2 Htr));
  replace (EPOCH + t + tr - EPOCH) with (t + tr) by lia; rewrite bind_Ok.

(** [datetime.now()] in a zone, when the instant and the probes of the
    fold detection are within the range of [datetime]: the result is a
    valid [datetime] whose wall time is [t + off t] and whose
    microseconds are those of the clock. *)
Lemma now_zone (off : offset) (ns : Z) :
  let t := system_clock ns / 10 ^ 9 in
  let tr := off t - off (t - max_fold_seconds) in
  in_datetime_range (t + off t + EPOCH) ->
  in_datetime_range (t - max_fold_seconds + off (t - max_fold_seconds) + EPOCH) ->
  (tr < 0 -> in_datetime_range (t + tr + off (t + tr) + EPOCH)) ->
  exists dt, @now (zone_clock off) ns = Ok dt /\ datetime_ok dt
    /\ wall_seconds dt = t + off t + EPOCH
    /\ microsecond dt = system_clock ns mod 10 ^ 9 / 1000.
Proof.
  intros t tr H0 H1 H2. now_zone_prefix off t tr H0 H1.
  assert (K : forall fd, 0 <= fd <= 1 -> exists dt,
             new_datetime (tm_year r + 1900) (tm_mon r + 1) (tm_mday r) (tm_hour r)
               (tm_min r) (tm_sec r) (system_clock ns mod 10 ^ 9 / 1000) fd = Ok dt
             /\ datetime_ok dt /\ wall_seconds dt = t + off t + EPOCH
             /\ microsecond dt = system_clock ns mod 10 ^ 9 / 1000).
  { intros fd Hfd.
    destruct (zone_new_datetime r (system_clock ns mod 10 ^ 9 / 1000) fd (t + off t + EPOCH))
      as (dt & ? & ? & ? & ? & _); auto using now_us_range. eauto. }
  destruct (Z.ltb_spec tr 0) as [Htr|Htr]; [now_zone_probe2 off t tr H2 Htr; case_if|];
    rewrite bind_Ok; cbv beta; apply K; lia.
Qed.

(** The fold [now] computes in a zone: 1 exactly when the offset fell
    during the last day and the same wall time was already shown
    [- transition] seconds before. *)
Lemma now_zone_fold (off : offset) (ns : Z) (dt : datetime) :
  let t := system_clock ns / 10 ^ 9 in
  let tr := off t - off (t - max_fold_seconds) in
  in_datetime_range (t + off t + EPOCH) ->
  in_datetime_range (t - max_fold_seconds + off (t - max_fold_seconds) + EPOCH) ->
  (tr < 0 -> in_datetime_range (t + tr + off (t + tr) + EPOCH)) ->
  @now (zone_clock off) ns = Ok dt ->
  fold dt = (if (tr <? 0) && (off (t + tr) =? off t - tr) then 1 else 0).
Proof.
  intros t tr H0 H1 H2. now_zone_prefix off t tr H0 H1.
  destruct (Z.ltb_spec tr 0) as [Htr|Htr]; [now_zone_probe2 off t tr H2 Htr|];
    [destruct (Z.eqb_spec (EPOCH + t + tr + off (t + tr)) (t + off t + EPOCH)),
       (Z.eqb_spec (off (t + tr)) (off t - tr)); try lia|];
    intros N; rewrite bind_Ok in N; apply new_datetime_Ok in N as [-> _]; reflexivity.
Qed.

(** Both together: [datetime.now()] in a zone, with its fold. *)
Lemma now_zone_full (off : offset) (ns : Z) :
  let t := system_clock ns / 10 ^ 9 in
  let tr := off t - off (t - max_fold_seconds) in
  in_datetime_range (t + off t + EPOCH) ->
  in_datetime_range (t - max_fold_seconds + off (t - max_fold_seconds) + EPOCH) ->
  (tr < 0 -> in_datetime_range (t + tr + off (t + tr) + EPOCH)) ->
  exists dt, @now (zone_clock off) ns = Ok dt /\ datetime_ok dt
    /\ wall_seconds dt = t + off t + EPOCH
    /\ microsecond dt = system_clock ns mod 10 ^ 9 / 1000
    /\ fold dt = (if (tr <? 0) && (off (t + tr) =? off t - tr) then 1 else 0).
Proof.
  intros t tr H0 H1 H2. destruct (now_zone off ns H0 H1 H2) as (dt & N & V & W & M).
  exists dt. do 4 (split; [assumption|]). exact (now_zone_fold off ns dt H0 H1 H2 N).
Qed.

(** Whatever its year, the broken-down time of a zone encodes [t + off t]. *)
Lemma zone_localtime_Some (off : offset) (t : Z) (r : tm) :
  zone_localtime off t = Some r ->
  ((ymd2ord (tm_year r + 1900) (tm_mon r + 1) (tm_mday r) * 24 + tm_hour r) * 60
   + tm_min r) * 60 + tm_sec r = t + off t + EPOCH /\ tm_sec r <= 59.
Proof.
  unfold zone_localtime.
  pose proof (ord2ymd_spec ((t + off t) / SECS_PER_DAY + EPOCH_ORDINAL)) as S.
  destruct (ord2ymd _) as [[y m] d]. destruct S as [_ E].
  case_if; [|discriminate]. intros H; injection H as <-; simpl.
  replace (y - 1900 + 1900) with y by lia. replace (m - 1 + 1) with m by lia.
  rewrite E. unfold EPOCH, EPOCH_ORDINAL, SECS_PER_DAY. split; zlia.
Qed.

(** ** A zone with a fixed UTC offset *)

Definition fixed_offset (o : Z) : offset := fun _ => o.

(** With a fixed offset, [datetime.now()] succeeds exactly on the instants
    whose wall time lies between 0001-01-02 00:00:00 and 9999-12-31
    23:59:59 (the fold probe looks one day back), and then returns the
    wall time [t + o]. *)
Corollary now_fixed_offset (o ns : Z) :
  let u := system_clock ns / 10 ^ 9 + o + EPOCH in
  2 * 86400 <= u < 3652060 * 86400 ->
  exists dt, @now (zone_clock (fixed_offset o)) ns = Ok dt /\ datetime_ok dt
    /\ wall_seconds dt = u /\ microsecond dt = system_clock ns mod 10 ^ 9 / 1000.
Proof.
  intros u Hu.
  destruct (now_zone (fixed_offset o) ns) as (dt & N & V & W & M);
    unfold fixed_offset, in_datetime_range, max_fold_seconds in *; try lia.
  exists dt. auto.
Qed.

(** C17: The raise branch of [datetime.now()] is unreachable with a
    fixed offset of less than a day: the saturated [PyTime_t] clock only
    reaches the years 1677 to 2262, so for every reading [ns] [now]
    returns a valid [datetime] whose wall time is the clock's second
    plus the offset, with the clock's microseconds. *)
Theorem now_fixed_offset_total (o ns : Z) :
  -86400 < o < 86400 ->
  exists dt, @now (zone_clock (fixed_offset o)) ns = Ok dt /\ datetime_ok dt
    /\ wall_seconds dt = system_clock ns / 10 ^ 9 + o + EPOCH
    /\ microsecond dt = system_clock ns mod 10 ^ 9 / 1000.
Proof.
  intros Ho. apply now_fixed_offset.
  pose proof (system_clock_bounds ns). unfold PyTime_MIN, PyTime_MAX, EPOCH, EPOCH_ORDINAL in *.
  zlia.
Qed.

(** C18: [_PyTime_GetSystemClock] stores every reading as a [PyTime_t]:
    exactly from the first whole second of [PyTime_t] (1677-09-21
    00:12:44 UTC) to [PyTime_MAX] (2262-04-11 23:47:16.854775807 UTC),
    stuck at [PyTime_MAX] after it, and before it at [PyTime_MIN] plus
    the nanoseconds of the reading ([pytime_mul] saturates the seconds,
    then [pytime_add] adds the nanoseconds). *)
Theorem system_clock_saturates (ns : Z) :
  PyTime_MIN <= system_clock ns <= PyTime_MAX
  /\ (-9223372036 * SEC_TO_NS <= ns <= PyTime_MAX -> system_clock ns = ns)
  /\ (PyTime_MAX < ns -> system_clock ns = PyTime_MAX)
  /\ (ns < -9223372036 * SEC_TO_NS -> system_clock ns = PyTime_MIN + ns mod SEC_TO_NS).
Proof.
  split; [apply system_clock_bounds|]. split; [apply system_clock_exact|].
  rewrite system_clock_cases. unfold pytime_add, PyTime_MIN, PyTime_MAX, SEC_TO_NS.
  pose proof (Z.div_mod ns (10 ^ 9) ltac:(lia)). pose proof (Z.mod_pos_bound ns (10 ^ 9) ltac:(lia)).
  split; intros Hns; zcases; zlia.
Qed.

(** ** A zone that sets its clocks back *)

(** The offset is [o + 3600] before the instant [T] and [o] from [T] on
    (the end of daylight-saving time). *)
Definition fall_back (o T : Z) : offset := fun t => if t <? T then o + 3600 else o.

Lemma fall_back_before o T t : t < T -> fall_back o T t = o + 3600.
Proof. intros H. unfold fall_back. destruct (Z.ltb_spec t T); lia. Qed.

Lemma fall_back_after o T t : T <= t -> fall_back o T t = o.
Proof. intros H. unfold fall_back. destruct (Z.ltb_spec t T); lia. Qed.

(** The wall times of the hour after [T] repeat those of the hour before:
    [now] returns the same wall time at [T - 3600 + s] and at [T + s],
    with fold 0 the first time and fold 1 the second. *)
Theorem now_fall_back_fold (o T s : Z) :
  0 <= s < 3600 -> 3 * 86400 <= T + o + EPOCH <= 3652058 * 86400 ->
  -9223372036 + 3600 <= T <= 9223372036 - 3600 ->
  exists dt1 dt2,
    @now (zone_clock (fall_back o T)) ((T - 3600 + s) * 10 ^ 9) = Ok dt1
    /\ @now (zone_clock (fall_back o T)) ((T + s) * 10 ^ 9) = Ok dt2
    /\ wall_seconds dt1 = wall_seconds dt2 /\ fold dt1 = 0 /\ fold dt2 = 1.
Proof.
  intros Hs HT HC.
  assert (D1 : system_clock ((T - 3600 + s) * 10 ^ 9) / 10 ^ 9 = T - 3600 + s)
    by (rewrite system_clock_exact_seconds by lia; apply Z.div_mul; lia).
  assert (D2 : system_clock ((T + s) * 10 ^ 9) / 10 ^ 9 = T + s)
    by (rewrite system_clock_exact_seconds by lia; apply Z.div_mul; lia).
  destruct (now_zone_full (fall_back o T) ((T - 3600 + s) * 10 ^ 9)) as (dt1 & N1 & _ & W1 & _ & F1);
    rewrite D1 in *; unfold in_datetime_range, max_fold_seconds in *;
    rewrite ?fall_back_before by lia; try lia.
  destruct (now_zone_full (fall_back o T) ((T + s) * 10 ^ 9)) as (dt2 & N2 & _ & W2 & _ & F2);
    rewrite D2 in *; unfold in_datetime_range, max_fold_seconds in *;
    rewrite ?fall_back_after, ?fall_back_before by lia; try lia.
  exists dt1, dt2. split; [exact N1|]. split; [exact N2|].
  unfold fall_back in W1, W2, F1, F2.
  repeat match goal with
         | H : context [Z.ltb ?a ?b] |- _ => destruct (Z.ltb_spec a b); try lia
         | H : context [Z.eqb ?a ?b] |- _ => destruct (Z.eqb_spec a b); try lia
         end.
  cbn [andb] in F1, F2. lia.
Qed.

(** ** Witnesses *)

(** A zone whose offset carries the wall time past 9999 makes [now] raise
    the year error. *)
Lemma now_raise_witness :
  @now (zone_clock (fixed_offset (10 ^ 12))) 0 = Raise year_error
  /\ (year_error = localtime_exc \/ year_error = year_error).
Proof.
  assert (H : @now (zone_clock (fixed_offset (10 ^ 12))) 0 = Raise year_error)
    by (vm_compute; reflexivity).
  split; [exact H | exact (@now_raise (zone_clock (fixed_offset (10 ^ 12))) (zone_localtime_ok _) _ _ H)].
Defined.

(** Seven in the morning of 2025-11-09, in a zone at UTC+1, from the
    reading of 2025-11-09 06:00:00 UTC. *)
Lemma now_fixed_offset_total_witness :
  -86400 < 3600 < 86400 /\
  exists dt, @now (zone_clock (fixed_offset 3600)) (1762668000 * 10 ^ 9) = Ok dt /\ datetime_ok dt
    /\ wall_seconds dt = system_clock (1762668000 * 10 ^ 9) / 10 ^ 9 + 3600 + EPOCH
    /\ microsecond dt = system_clock (1762668000 * 10 ^ 9) mod 10 ^ 9 / 1000.
Proof. split; [lia | apply now_fixed_offset_total; lia]. Defined.

(** The last instant of [PyTime_t], one nanosecond later, and a reading
    before 1677. *)
Lemma system_clock_saturates_witness :
  system_clock PyTime_MAX = PyTime_MAX /\ system_clock (PyTime_MAX + 1) = PyTime_MAX
  /\ system_clock (-9223372037 * SEC_TO_NS + 5) = PyTime_MIN + 5.
Proof.
  destruct (system_clock_saturates PyTime_MAX) as (_ & E & _ & _).
  destruct (system_clock_saturates (PyTime_MAX + 1)) as (_ & _ & T & _).
  destruct (system_clock_saturates (-9223372037 * SEC_TO_NS + 5)) as (_ & _ & _ & B).
  split; [apply E; vm_compute; split; discriminate|].
  split; [apply T; vm_compute; reflexivity|].
  rewrite B by (vm_compute; reflexivity). vm_compute. reflexivity.
Defined.

End LocalTime.
