(* ===== verification/Strftime.v ===== *)
(** * Strftime: [current_time = datetime.now().strftime("%Y-%m-%d %H:%M:%S")]

    Line 12 of src/app.py formats the [datetime] of [LocalTime.now] with
    [strftime].  [strftime] interprets its format string character by
    character: [%] followed by a conversion character is replaced by a
    field, any other character is copied.  The conversions the format
    uses are the decimal fields [%Y] (padded to four digits, as CPython
    does since 3.12.5 and 3.13 on every platform), [%m], [%d], [%H], [%M], [%S] (two digits)
    and [%%].

    The theorems: on a valid [datetime] the timestamp is 19 characters in
    the shape [dddd-dd-dd dd:dd:dd]; [parse_timestamp] reads the six
    fields back (a round trip), so the timestamp determines every field
    but the microsecond and the fold; and comparing two timestamps as
    strings compares their wall times. *)

From Stdlib Require Import ZArith Lia String Ascii List Bool.
From S2P Require Import Prelude Calendar LocalTime.
Import ListNotations.

Local Open Scope string_scope.
Local Open Scope Z_scope.

Module Strftime.
Import Calendar LocalTime.

(** ** Decimal fields *)

Definition digit (d : Z) : ascii := ascii_of_nat (48 + Z.to_nat d).

(** [%0<w>d] of a non-negative [n]: at least [w] digits, more when [n]
    needs them.  [fuel] bounds the number of digits. *)
Fixpoint pad_dec_aux (fuel w : nat) (n : Z) : string :=
  match fuel with
  | O => ""
  | S f =>
      let last := String (digit (n mod 10)) "" in
      if (w <=? 1)%nat && (n <? 10) then last
      else pad_dec_aux f (pred w) (n / 10) ++ last
  end.

Definition pad_dec (w : nat) (n : Z) : string :=
  pad_dec_aux (w + Pos.to_nat (Pos.size (Z.to_pos n)))%nat w n.

(** ** The format interpreter *)

(** The text one conversion character produces. *)
Definition conversion (c : ascii) (dt : datetime) : string :=
  if (c =? "Y")%char then pad_dec 4 (year dt)
  else if (c =? "m")%char then pad_dec 2 (month dt)
  else if (c =? "d")%char then pad_dec 2 (day dt)
  else if (c =? "H")%char then pad_dec 2 (hour dt)
  else if (c =? "M")%char then pad_dec 2 (minute dt)
  else if (c =? "S")%char then pad_dec 2 (second dt)
  else if (c =? "%")%char then "%"
  else String "%" (String c "").

Fixpoint strftime (fmt : string) (dt : datetime) : string :=
  match fmt with
  | EmptyString => ""
  | String c rest =>
      if (c =? "%")%char then
        match rest with
        | EmptyString => "%"
        | String c' rest' => conversion c' dt ++ strftime rest' dt
        end
      else String c (strftime rest dt)
  end.

(** The format of line 12. *)
Definition FORMAT : string := "%Y-%m-%d %H:%M:%S".

Definition current_time (dt : datetime) : string := strftime FORMAT dt.

(** ** Fixed-width decimals *)

(** The [w] low decimal digits of [n], most significant first: the
    reference the padded conversions are compared with. *)
Fixpoint fixed_digits (w : nat) (n : Z) : string :=
  match w with
  | O => ""
  | S w' => String (digit (n / 10 ^ Z.of_nat w' mod 10)) (fixed_digits w' n)
  end.

Lemma pow10_succ (w : nat) : 10 ^ Z.of_nat (S w) = 10 * 10 ^ Z.of_nat w.
Proof. rewrite Nat2Z.inj_succ, Z.pow_succ_r by lia. reflexivity. Qed.

Lemma pow10_pos (w : nat) : 0 < 10 ^ Z.of_nat w.
Proof. apply Z.pow_pos_nonneg; lia. Qed.

Lemma fixed_digits_length (w : nat) (n : Z) : String.length (fixed_digits w n) = w.
Proof. induction w; simpl; congruence. Qed.

Lemma fixed_digits_snoc (w : nat) (n : Z) :
  fixed_digits (S w) n = fixed_digits w (n / 10) ++ String (digit (n mod 10)) "".
Proof.
  induction w as [|w IH].
  - simpl. rewrite Z.div_1_r. reflexivity.
  - change (fixed_digits (S (S w)) n)
      with (String (digit ((n / 10 ^ Z.of_nat (S w)) mod 10)%Z) (fixed_digits (S w) n)).
    rewrite IH.
    change (fixed_digits (S w) (n / 10)%Z)
      with (String (digit ((n / 10 / 10 ^ Z.of_nat w) mod 10)%Z) (fixed_digits w (n / 10)%Z)).
    cbn [append]. f_equal.
    rewrite pow10_succ, Z.div_div by (pose proof (pow10_pos w); lia). reflexivity.
Qed.

Lemma pad_dec_aux_fixed (fuel w : nat) (n : Z) :
  (1 <= w)%nat -> (w <= fuel)%nat -> 0 <= n < 10 ^ Z.of_nat w ->
  pad_dec_aux fuel w n = fixed_digits w n.
Proof.
  revert fuel n; induction w as [|w IH]; intros fuel n H1 H2 Hn; [lia|].
  destruct fuel as [|f]; [lia|]. rewrite fixed_digits_snoc. simpl pad_dec_aux.
  rewrite pow10_succ in Hn.
  destruct w as [|w'].
  - replace (n <? 10)%Z with true by (symmetry; apply Z.ltb_lt; simpl in Hn; lia). reflexivity.
  - simpl (S (S w') <=? 1)%nat. cbv iota beta. rewrite andb_false_l.
    rewrite IH by (first [lia | split; [apply Z.div_pos | apply Z.div_lt_upper_bound]; lia]).
    reflexivity.
Qed.

(** In its range a padded conversion is the fixed-width decimal. *)
Lemma pad_dec_fixed (w : nat) (n : Z) :
  (1 <= w)%nat -> 0 <= n < 10 ^ Z.of_nat w -> pad_dec w n = fixed_digits w n.
Proof. intros. apply pad_dec_aux_fixed; lia. Qed.

(** ** Digits *)

Definition is_digit (c : ascii) : bool :=
  ((48 <=? nat_of_ascii c) && (nat_of_ascii c <=? 57))%nat.

Definition digit_value (c : ascii) : Z := Z.of_nat (nat_of_ascii c) - 48.

Definition comparison_eqb (c1 c2 : comparison) : bool :=
  match c1, c2 with Eq, Eq | Lt, Lt | Gt, Gt => true | _, _ => false end.

Lemma comparison_eqb_eq c1 c2 : comparison_eqb c1 c2 = true -> c1 = c2.
Proof. destruct c1, c2; simpl; congruence. Qed.

(** The ten digit characters, checked one by one. *)
Lemma digit_spec (d : Z) :
  0 <= d < 10 -> is_digit (digit d) = true /\ digit_value (digit d) = d.
Proof.
  intros Hd.
  assert (Hc : zforall 0 10 (fun d => is_digit (digit d) && (digit_value (digit d) =? d)) = true)
    by reflexivity.
  pose proof (zforall_spec _ _ _ Hc d ltac:(lia)) as H. cbv beta in H.
  apply andb_true_iff in H as [H1 H2]. split; [exact H1 | apply Z.eqb_eq, H2].
Qed.

Lemma digit_compare (a b : Z) :
  0 <= a < 10 -> 0 <= b < 10 -> Ascii.compare (digit a) (digit b) = Z.compare a b.
Proof.
  intros Ha Hb.
  assert (Hc : zforall 0 10 (fun a => zforall 0 10 (fun b =>
                 comparison_eqb (Ascii.compare (digit a) (digit b)) (Z.compare a b))) = true)
    by reflexivity.
  apply comparison_eqb_eq. exact (zforall_spec _ _ _ (zforall_spec _ _ _ Hc a Ha) b Hb).
Qed.

Lemma digit_of_mod (n : Z) : 0 <= n mod 10 < 10.
Proof. apply Z.mod_pos_bound. lia. Qed.

Lemma pow10_mod_succ (w : nat) (n : Z) :
  n mod 10 ^ Z.of_nat (S w) = n mod 10 ^ Z.of_nat w + 10 ^ Z.of_nat w * (n / 10 ^ Z.of_nat w mod 10).
Proof.
  rewrite pow10_succ, Z.mul_comm. apply Z.rem_mul_r; [pose proof (pow10_pos w)|]; lia.
Qed.

(** Comparing fixed-width decimals as strings compares the numbers. *)
Lemma fixed_digits_compare (w : nat) (a b : Z) :
  String.compare (fixed_digits w a) (fixed_digits w b)
  = Z.compare (a mod 10 ^ Z.of_nat w) (b mod 10 ^ Z.of_nat w).
Proof.
  induction w as [|w IH].
  - simpl. rewrite !Z.mod_1_r. reflexivity.
  - rewrite !pow10_mod_succ. cbn [fixed_digits String.compare].
    rewrite digit_compare by apply digit_of_mod.
    rewrite !(Z.add_comm (_ mod 10 ^ Z.of_nat w)), !(Z.mul_comm (10 ^ Z.of_nat w)).
    rewrite Z_compare_radix by apply Z.mod_pos_bound, pow10_pos.
    rewrite IH. reflexivity.
Qed.

(** ** The timestamp of line 12 *)

Definition timestamp_of (y m d hh mm ss : Z) : string :=
  fixed_digits 4 y ++ "-" ++ fixed_digits 2 m ++ "-" ++ fixed_digits 2 d ++ " "
  ++ fixed_digits 2 hh ++ ":" ++ fixed_digits 2 mm ++ ":" ++ fixed_digits 2 ss.

Lemma datetime_ok_ranges (dt : datetime) :
  datetime_ok dt ->
  0 <= year dt < 10 ^ Z.of_nat 4 /\ 0 <= month dt < 10 ^ Z.of_nat 2
  /\ 0 <= day dt < 10 ^ Z.of_nat 2 /\ 0 <= hour dt < 10 ^ Z.of_nat 2
  /\ 0 <= minute dt < 10 ^ Z.of_nat 2 /\ 0 <= second dt < 10 ^ Z.of_nat 2.
Proof.
  intros (Y & V & H & M & S & _). apply in_range_spec in Y. apply valid_ymd_spec in V.
  pose proof (days_in_month_le_31 (year dt) (month dt) (proj1 V)).
  unfold MINYEAR, MAXYEAR in Y. simpl. lia.
Qed.

(** On a valid [datetime], [strftime("%Y-%m-%d %H:%M:%S")] writes the six
    fields as fixed-width decimals between the separators. *)
Lemma current_time_spec (dt : datetime) :
  datetime_ok dt ->
  current_time dt
  = timestamp_of (year dt) (month dt) (day dt) (hour dt) (minute dt) (second dt).
Proof.
  intros Hok. destruct (datetime_ok_ranges dt Hok) as (Y & M & D & H & Mi & S).
  unfold current_time, FORMAT, timestamp_of. cbn -[pad_dec fixed_digits].
  rewrite !pad_dec_fixed by (lia || assumption). reflexivity.
Qed.

(** ** Reading a timestamp back *)

Definition expect (c : ascii) (s : string) : option string :=
  match s with
  | String c' rest => if (c' =? c)%char then Some rest else None
  | EmptyString => None
  end.

Lemma expect_cons (c : ascii) (rest : string) : expect c (String c rest) = Some rest.
Proof. simpl. rewrite Ascii.eqb_refl. reflexivity. Qed.

Fixpoint parse_digits (w : nat) (acc : Z) (s : string) : option (Z * string) :=
  match w with
  | O => Some (acc, s)
  | S w' =>
      match s with
      | String c rest =>
          if is_digit c then parse_digits w' (acc * 10 + digit_value c) rest else None
      | EmptyString => None
      end
  end.

Local Open Scope web_scope.

Definition parse_timestamp (s : string) : option (Z * Z * Z * Z * Z * Z) :=
  let? (y, s) := parse_digits 4 0 s in
  let? s := expect "-" s in
  let? (m, s) := parse_digits 2 0 s in
  let? s := expect "-" s in
  let? (d, s) := parse_digits 2 0 s in
  let? s := expect " " s in
  let? (hh, s) := parse_digits 2 0 s in
  let? s := expect ":" s in
  let? (mm, s) := parse_digits 2 0 s in
  let? s := expect ":" s in
  let? (ss, s) := parse_digits 2 0 s in
  match s with
  | EmptyString => Some (y, m, d, hh, mm, ss)
  | String _ _ => None
  end.

Lemma parse_fixed_digits (w : nat) (acc n : Z) (rest : string) :
  parse_digits w acc (fixed_digits w n ++ rest)
  = Some (acc * 10 ^ Z.of_nat w + n mod 10 ^ Z.of_nat w, rest).
Proof.
  revert acc; induction w as [|w IH]; intros acc.
  - simpl. rewrite Z.mod_1_r. f_equal. f_equal. ring.
  - cbn [fixed_digits append parse_digits].
    destruct (digit_spec (n / 10 ^ Z.of_nat w mod 10) (digit_of_mod _)) as [-> ->].
    rewrite IH, pow10_mod_succ, pow10_succ. f_equal. f_equal. ring.
Qed.

Lemma parse_timestamp_of (y m d hh mm ss : Z) :
  0 <= y < 10 ^ Z.of_nat 4 -> 0 <= m < 10 ^ Z.of_nat 2 -> 0 <= d < 10 ^ Z.of_nat 2 ->
  0 <= hh < 10 ^ Z.of_nat 2 -> 0 <= mm < 10 ^ Z.of_nat 2 -> 0 <= ss < 10 ^ Z.of_nat 2 ->
  parse_timestamp (timestamp_of y m d hh mm ss) = Some (y, m, d, hh, mm, ss).
Proof.
  intros. unfold parse_timestamp, timestamp_of.
  rewrite <- (string_app_nil_r (fixed_digits 2 ss)).
  repeat (rewrite parse_fixed_digits, Z.mod_small by assumption; cbn [append];
          try rewrite expect_cons).
  reflexivity.
Qed.

(** C30: [strftime] reads back: the timestamp of a valid [datetime] parses to
    its date and time fields. *)
Theorem parse_current_time (dt : datetime) :
  datetime_ok dt ->
  parse_timestamp (current_time dt)
  = Some (year dt, month dt, day dt, hour dt, minute dt, second dt).
Proof.
  intros Hok. rewrite current_time_spec by exact Hok.
  destruct (datetime_ok_ranges dt Hok) as (? & ? & ? & ? & ? & ?).
  apply parse_timestamp_of; assumption.
Qed.

Lemma timestamp_of_compare (y1 m1 d1 h1 mi1 s1 y2 m2 d2 h2 mi2 s2 : Z) :
  0 <= y1 < 10 ^ Z.of_nat 4 -> 0 <= m1 < 10 ^ Z.of_nat 2 -> 0 <= d1 < 10 ^ Z.of_nat 2 ->
  0 <= h1 < 10 ^ Z.of_nat 2 -> 0 <= mi1 < 10 ^ Z.of_nat 2 -> 0 <= s1 < 10 ^ Z.of_nat 2 ->
  0 <= y2 < 10 ^ Z.of_nat 4 -> 0 <= m2 < 10 ^ Z.of_nat 2 -> 0 <= d2 < 10 ^ Z.of_nat 2 ->
  0 <= h2 < 10 ^ Z.of_nat 2 -> 0 <= mi2 < 10 ^ Z.of_nat 2 -> 0 <= s2 < 10 ^ Z.of_nat 2 ->
  String.compare (timestamp_of y1 m1 d1 h1 mi1 s1) (timestamp_of y2 m2 d2 h2 mi2 s2)
  = lex (Z.compare y1 y2) (lex (Z.compare m1 m2) (lex (Z.compare d1 d2)
      (lex (Z.compare h1 h2) (lex (Z.compare mi1 mi2) (Z.compare s1 s2))))).
Proof.
  intros. unfold timestamp_of.
  repeat (rewrite string_compare_app by (rewrite !fixed_digits_length; reflexivity);
          rewrite fixed_digits_compare, !Z.mod_small by assumption;
          try rewrite string_compare_app_l).
  rewrite fixed_digits_compare, !Z.mod_small by assumption. reflexivity.
Qed.

(** Comparing two timestamps as strings compares the wall times of the
    [datetime]s they format. *)
Lemma current_time_order (dt1 dt2 : datetime) :
  datetime_ok dt1 -> datetime_ok dt2 ->
  String.compare (current_time dt1) (current_time dt2)
  = Z.compare (wall_seconds dt1) (wall_seconds dt2).
Proof.
  intros H1 H2. rewrite !current_time_spec by assumption.
  pose proof (datetime_ok_ranges dt1 H1) as R1; pose proof (datetime_ok_ranges dt2 H2) as R2.
  rewrite timestamp_of_compare by tauto.
  destruct H1 as (_ & V1 & ?), H2 as (_ & V2 & ?).
  unfold wall_seconds. rewrite !Z_compare_radix by lia.
  rewrite ymd2ord_compare by assumption. rewrite !lex_assoc. reflexivity.
Qed.

(** ** The shape [\d{4}-\d{2}-\d{2} \d{2}:\d{2}:\d{2}] *)

Inductive pat_item : Type := PDigit | PLit (c : ascii).

Fixpoint matches (p : list pat_item) (s : string) : bool :=
  match p, s with
  | [], EmptyString => true
  | PDigit :: p', String c s' => is_digit c && matches p' s'
  | PLit l :: p', String c s' => (c =? l)%char && matches p' s'
  | _, _ => false
  end.

Definition TIMESTAMP_PATTERN : list pat_item :=
  repeat PDigit 4 ++ [PLit "-"] ++ repeat PDigit 2 ++ [PLit "-"] ++ repeat PDigit 2
  ++ [PLit " "] ++ repeat PDigit 2 ++ [PLit ":"] ++ repeat PDigit 2 ++ [PLit ":"]
  ++ repeat PDigit 2.

Lemma matches_fixed_digits (w : nat) (n : Z) (p : list pat_item) (s : string) :
  matches (repeat PDigit w ++ p) (fixed_digits w n ++ s) = matches p s.
Proof.
  induction w as [|w IH]; [reflexivity|]. cbn [repeat app fixed_digits append matches].
  rewrite (proj1 (digit_spec _ (digit_of_mod _))), IH. reflexivity.
Qed.

Lemma matches_fixed_digits_end (w : nat) (n : Z) :
  matches (repeat PDigit w) (fixed_digits w n) = true.
Proof.
  induction w as [|w IH]; [reflexivity|]. cbn [repeat fixed_digits matches].
  rewrite (proj1 (digit_spec _ (digit_of_mod _))), IH. reflexivity.
Qed.

Lemma matches_lit (c : ascii) (p : list pat_item) (s : string) :
  matches (PLit c :: p) (String c s) = matches p s.
Proof. simpl. rewrite Ascii.eqb_refl. reflexivity. Qed.

Lemma timestamp_of_matches (y m d hh mm ss : Z) :
  matches TIMESTAMP_PATTERN (timestamp_of y m d hh mm ss) = true.
Proof.
  unfold TIMESTAMP_PATTERN, timestamp_of.
  repeat (rewrite matches_fixed_digits; cbn [app append]; try rewrite matches_lit).
  apply matches_fixed_digits_end.
Qed.

(** Two valid [datetime]s format to the same timestamp exactly when their
    wall times are equal: the microsecond and the fold are not written. *)
Theorem current_time_inj (dt1 dt2 : datetime) :
  datetime_ok dt1 -> datetime_ok dt2 ->
  current_time dt1 = current_time dt2 <-> wall_seconds dt1 = wall_seconds dt2.
Proof.
  intros H1 H2. rewrite <- Z.compare_eq_iff, <- current_time_order by assumption.
  split; [intros ->; apply string_compare_refl | apply String.compare_eq_iff].
Qed.

(** ** Witnesses *)

Definition sample_datetime : datetime := mk_datetime 2025 11 9 3 7 5 123456 0.

Lemma sample_datetime_ok : datetime_ok sample_datetime.
Proof. unfold datetime_ok; simpl. repeat split; try reflexivity; lia. Qed.

Lemma parse_current_time_witness :
  parse_timestamp (current_time sample_datetime) = Some (2025, 11, 9, 3, 7, 5).
Proof. exact (parse_current_time sample_datetime sample_datetime_ok). Defined.

(** The same wall time with another microsecond and fold formats alike. *)
Lemma current_time_inj_witness :
  current_time sample_datetime = current_time (mk_datetime 2025 11 9 3 7 5 0 1).
Proof.
  apply (current_time_inj sample_datetime (mk_datetime 2025 11 9 3 7 5 0 1)
           sample_datetime_ok).
  - unfold datetime_ok; simpl. repeat split; try reflexivity; lia.
  - reflexivity.
Defined.

End Strftime.
