(* ===== verification/Json.v ===== *)
(** * Json: the body [jsonify] writes

    Lines 13-16 of src/app.py answer [jsonify({...})].  Flask's
    [jsonify] serializes with [json.dumps(obj, ensure_ascii=True,
    sort_keys=True, separators=(",", ":"))] when the application is not in
    debug mode (line 19 runs it with [debug=False]), appends a newline and
    sets the mimetype [application/json].

    - [json] are the values Python's encoder handles here ([None], [bool],
      [str], [list], [dict]); a [dict] is its list of items in insertion
      order.  Characters are those of Stdlib [ascii] (code points below
      256).  Numbers are not modelled: the application serializes none.
    - [dumps] is the encoder: [ensure_ascii] escaping of strings
      ([py_encode_basestring_ascii]), items sorted by key, compact
      separators. *)

From Stdlib Require Import ZArith Lia String Ascii List Bool Permutation.
From S2P Require Import Prelude.
Import ListNotations.

Local Open Scope string_scope.

Module Json.

Inductive json : Type :=
| JNull
| JBool (b : bool)
| JStr (s : string)
| JArr (items : list json)
| JObj (items : list (string * json)).

(** ** Strings: [py_encode_basestring_ascii] *)

(** The double quote and the backslash. *)
Definition DQ : ascii := ascii_of_nat 34.
Definition BS : ascii := ascii_of_nat 92.

(** [ESCAPE_ASCII]: the characters written as they are lie between space
    and tilde, backslash and double quote apart. *)
Definition plain (c : ascii) : bool :=
  let n := nat_of_ascii c in
  ((32 <=? n) && (n <=? 126))%nat && negb (c =? BS)%char && negb (c =? DQ)%char.

Definition hex_digit (n : nat) : ascii :=
  if (n <? 10)%nat then ascii_of_nat (48 + n) else ascii_of_nat (87 + n).

(** The [\u{0:04x}] format of [ESCAPE_DCT] for a code point below 256. *)
Definition unicode_escape (c : ascii) : string :=
  let n := nat_of_ascii c in
  String BS (String "u" (String "0" (String "0"
    (String (hex_digit (n / 16)) (String (hex_digit (n mod 16)) ""))))).

(** [ESCAPE_DCT]: the two-character escapes, then the [\u] form. *)
Definition escape_char (c : ascii) : string :=
  if plain c then String c ""
  else if (c =? BS)%char then String BS (String BS "")
  else if (c =? DQ)%char then String BS (String DQ "")
  else if (c =? ascii_of_nat 8)%char then String BS "b"
  else if (c =? ascii_of_nat 12)%char then String BS "f"
  else if (c =? ascii_of_nat 10)%char then String BS "n"
  else if (c =? ascii_of_nat 13)%char then String BS "r"
  else if (c =? ascii_of_nat 9)%char then String BS "t"
  else unicode_escape c.

Fixpoint escape (s : string) : string :=
  match s with
  | EmptyString => ""
  | String c rest => escape_char c ++ escape rest
  end.

Definition encode_string (s : string) : string := String DQ (escape s ++ String DQ "").

(** ** [sort_keys=True]: [sorted(dct.items())]

    The keys of a [dict] are distinct, so sorting the items sorts them by
    key; [sort_items] is an insertion sort on the keys. *)

Section Sort.
Context {A : Type}.

Definition key_le (a b : string * A) : bool :=
  match String.compare (fst a) (fst b) with Gt => false | _ => true end.

Fixpoint insert_item (kv : string * A) (l : list (string * A)) : list (string * A) :=
  match l with
  | [] => [kv]
  | kv' :: rest => if key_le kv kv' then kv :: kv' :: rest else kv' :: insert_item kv rest
  end.

Fixpoint sort_items (l : list (string * A)) : list (string * A) :=
  match l with
  | [] => []
  | kv :: rest => insert_item kv (sort_items rest)
  end.

End Sort.

(** ** The encoder *)

(** [sep.join(parts)] *)
Fixpoint join (sep : string) (parts : list string) : string :=
  match parts with
  | [] => ""
  | [p] => p
  | p :: rest => p ++ sep ++ join sep rest
  end.

(** The items are encoded, then sorted by key: the order [sorted] gives
    them, since the sort looks at the keys only. *)
Fixpoint dumps (v : json) : string :=
  match v with
  | JNull => "null"
  | JBool true => "true"
  | JBool false => "false"
  | JStr s => encode_string s
  | JArr items => "[" ++ join "," (map dumps items) ++ "]"
  | JObj items =>
      "{" ++ join "," (map (fun kv => encode_string (fst kv) ++ ":" ++ snd kv)
                           (sort_items (map (fun kv => (fst kv, dumps (snd kv))) items)))
      ++ "}"
  end.

(** The characters of printable ASCII, space to tilde. *)
Definition printable (c : ascii) : bool :=
  let n := nat_of_ascii c in ((32 <=? n) && (n <=? 126))%nat.

Fixpoint all_printable (s : string) : bool :=
  match s with
  | EmptyString => true
  | String c rest => printable c && all_printable rest
  end.

(** Induction on values, with the hypothesis for every item. *)
Definition json_ind' (P : json -> Prop)
    (Hnull : P JNull) (Hbool : forall b, P (JBool b)) (Hstr : forall s, P (JStr s))
    (Harr : forall items, Forall P items -> P (JArr items))
    (Hobj : forall items, Forall (fun kv => P (snd kv)) items -> P (JObj items)) :
    forall v, P v :=
  fix F v :=
    match v with
    | JNull => Hnull
    | JBool b => Hbool b
    | JStr s => Hstr s
    | JArr items =>
        Harr items ((fix G l := match l return Forall P l with
                                | [] => Forall_nil _
                                | x :: r => Forall_cons _ (F x) (G r)
                                end) items)
    | JObj items =>
        Hobj items ((fix G l := match l return Forall (fun kv => P (snd kv)) l with
                                | [] => Forall_nil _
                                | x :: r => Forall_cons _ (F (snd x)) (G r)
                                end) items)
    end.

(** ** Lemmas *)

(** *** Sorting the items *)

Section SortLemmas.
Context {A B : Type}.

Lemma insert_item_perm (kv : string * A) (l : list (string * A)) :
  Permutation (insert_item kv l) (kv :: l).
Proof.
  induction l as [|kv' l IH]; simpl; [reflexivity|].
  destruct (key_le kv kv'); [reflexivity|].
  rewrite IH. apply perm_swap.
Qed.

Lemma sort_items_perm (l : list (string * A)) : Permutation (sort_items l) l.
Proof.
  induction l as [|kv l IH]; simpl; [reflexivity|].
  rewrite insert_item_perm, IH. reflexivity.
Qed.

(** Sorting looks at the keys only: it commutes with a map on the values. *)
Lemma sort_items_map_snd (g : A -> B) (l : list (string * A)) :
  sort_items (map (fun kv => (fst kv, g (snd kv))) l)
  = map (fun kv => (fst kv, g (snd kv))) (sort_items l).
Proof.
  induction l as [|kv l IH]; simpl; [reflexivity|]. rewrite IH.
  generalize (sort_items l). intros l'.
  induction l' as [|kv' l' IH']; simpl; [reflexivity|].
  unfold key_le; simpl. destruct (String.compare (fst kv) (fst kv')); simpl; congruence.
Qed.

End SortLemmas.

Lemma list_sum_perm (l l' : list nat) : Permutation l l' -> list_sum l = list_sum l'.
Proof. induction 1; simpl; lia. Qed.

Lemma encode_string_app (k t : string) :
  encode_string k ++ t = String DQ (escape k ++ String DQ t).
Proof. unfold encode_string. simpl. rewrite string_app_assoc. reflexivity. Qed.

(** The items of an object as [dumps] writes them: encoded, then sorted. *)
Lemma dumps_obj (items : list (string * json)) :
  dumps (JObj items)
  = "{" ++ join "," (map (fun kv => encode_string (fst kv) ++ String ":" (dumps (snd kv)))
                         (sort_items items)) ++ "}".
Proof.
  cbn [dumps]. rewrite (sort_items_map_snd dumps), map_map. reflexivity.
Qed.

(** *** [ensure_ascii=True]: the output is printable ASCII *)

Lemma all_printable_app (a b : string) :
  all_printable (a ++ b) = all_printable a && all_printable b.
Proof. induction a as [|c a IH]; simpl; [reflexivity|]. rewrite IH, andb_assoc. reflexivity. Qed.

#[local] Hint Rewrite all_printable_app : web_rw.

(** Each of the 256 characters escapes to printable ASCII. *)
Lemma escape_char_printable (c : ascii) : all_printable (escape_char c) = true.
Proof. destruct c as [[] [] [] [] [] [] [] []]; vm_compute; reflexivity. Qed.

Lemma escape_printable (s : string) : all_printable (escape s) = true.
Proof.
  induction s as [|c s IH]; [reflexivity|]. simpl escape.
  autorewrite with web_rw. rewrite escape_char_printable, IH. reflexivity.
Qed.

Lemma encode_string_printable (s : string) : all_printable (encode_string s) = true.
Proof. unfold encode_string. simpl. autorewrite with web_rw. rewrite escape_printable. reflexivity. Qed.

Lemma join_printable (parts : list string) :
  Forall (fun p => all_printable p = true) parts -> all_printable (join "," parts) = true.
Proof.
  induction 1 as [|p [|q l] Hp HF IH]; [reflexivity | simpl join; exact Hp |].
  change (join "," (p :: q :: l)) with (p ++ "," ++ join "," (q :: l)).
  autorewrite with web_rw. rewrite Hp, IH. reflexivity.
Qed.

(** With [ensure_ascii=True], [json.dumps] writes printable ASCII
    only: every character of the document lies between space and tilde,
    whatever the strings it holds (control characters, quotes, backslashes
    and characters above 126 are escaped). *)
Theorem dumps_printable (v : json) : all_printable (dumps v) = true.
Proof.
  induction v as [| [] | s | items HF | items HF] using json_ind'; try reflexivity.
  - apply encode_string_printable.
  - cbn [dumps]. autorewrite with web_rw. rewrite join_printable; [reflexivity|].
    apply Forall_map, HF.
  - rewrite dumps_obj. autorewrite with web_rw. rewrite join_printable; [reflexivity|].
    apply Forall_map. apply (Permutation_Forall (Permutation_sym (sort_items_perm items))) in HF.
    eapply Forall_impl; [|exact HF]. intros [k x] Hx. cbn [fst snd] in *.
    autorewrite with web_rw. cbn [all_printable]. rewrite encode_string_printable, Hx. reflexivity.
Qed.

End Json.
