(* ===== verification/JsonRead.v ===== *)
(** * JsonRead: reading back the body [jsonify] writes

    The program writes JSON and reads none; this file is the client's
    side.  [loads] is a JSON reader for the values of [Json.json]
    (RFC 8259 without numbers): whitespace around the tokens, the
    literals, strings with their escapes ([\uXXXX] below 256, the range
    of [ascii]), arrays and objects, whose items it returns in document
    order.  The reader runs on fuel and tells apart a syntax error
    ([Fail]) from running out of fuel ([OutOfFuel]).

    - [loads_terminates]: with fuel [2 * length + 1] the reader
      never runs out of fuel, so [loads] decides every input;
    - [dumps_loads]: the reader reads back what [Json.dumps] writes,
      followed by any whitespace, as the value with the items of every
      object sorted by key ([norm]). *)

From Stdlib Require Import ZArith Lia String Ascii List Bool Permutation.
From S2P Require Import Prelude Json.
Import ListNotations.

Local Open Scope string_scope.

Module JsonRead.
Import Json.

(** The result of a reader on fuel. *)
Inductive outcome (A : Type) : Type :=
| Done (a : A)
| Fail
| OutOfFuel.
Arguments Done {A} a.
Arguments Fail {A}.
Arguments OutOfFuel {A}.

Notation "'let!' p ':=' o 'in' k" :=
  (match o with Done p => k | Fail => Fail | OutOfFuel => OutOfFuel end)
  (at level 10, p pattern, o at level 100, k at level 200).

Definition of_option {A} (o : option A) : outcome A :=
  match o with Some a => Done a | None => Fail end.

Local Open Scope web_scope.

Definition is_ws (c : ascii) : bool :=
  (c =? " ")%char || (c =? ascii_of_nat 9)%char || (c =? ascii_of_nat 10)%char
  || (c =? ascii_of_nat 13)%char.

Fixpoint skip_ws (s : string) : string :=
  match s with
  | String c rest => if is_ws c then skip_ws rest else s
  | EmptyString => s
  end.

Fixpoint strip_prefix (p s : string) : option string :=
  match p, s with
  | EmptyString, _ => Some s
  | String c p', String d s' => if (c =? d)%char then strip_prefix p' s' else None
  | _, _ => None
  end.

Definition hex_value (c : ascii) : option nat :=
  let n := nat_of_ascii c in
  if ((48 <=? n) && (n <=? 57))%nat then Some (n - 48)
  else if ((97 <=? n) && (n <=? 102))%nat then Some (n - 87)
  else if ((65 <=? n) && (n <=? 70))%nat then Some (n - 55)
  else None.

(** The character a [\u] escape with the hex digits [a b c d] denotes, when it is below 256. *)
Definition hex4 (a b c d : ascii) : option ascii :=
  let? va := hex_value a in let? vb := hex_value b in
  let? vc := hex_value c in let? vd := hex_value d in
  let n := (((va * 16 + vb) * 16 + vc) * 16 + vd)%nat in
  if (n <? 256)%nat then Some (ascii_of_nat n) else None.

(** The one-character escapes. *)
Definition unescape (c : ascii) : option ascii :=
  if (c =? DQ)%char then Some DQ
  else if (c =? BS)%char then Some BS
  else if (c =? "/")%char then Some "/"%char
  else if (c =? "b")%char then Some (ascii_of_nat 8)
  else if (c =? "f")%char then Some (ascii_of_nat 12)
  else if (c =? "n")%char then Some (ascii_of_nat 10)
  else if (c =? "r")%char then Some (ascii_of_nat 13)
  else if (c =? "t")%char then Some (ascii_of_nat 9)
  else None.

(** The contents of a string after its opening quote, up to and without
    its closing quote; raw control characters are refused. *)
Fixpoint parse_string (s : string) : option (string * string) :=
  match s with
  | EmptyString => None
  | String c rest =>
      if (c =? DQ)%char then Some (EmptyString, rest)
      else if (c =? BS)%char then
        match rest with
        | String e rest1 =>
            if (e =? "u")%char then
              match rest1 with
              | String a (String b (String c' (String d rest2))) =>
                  let? ch := hex4 a b c' d in
                  let? (t, r) := parse_string rest2 in Some (String ch t, r)
              | _ => None
              end
            else
              let? ch := unescape e in
              let? (t, r) := parse_string rest1 in Some (String ch t, r)
        | EmptyString => None
        end
      else if (nat_of_ascii c <? 32)%nat then None
      else let? (t, r) := parse_string rest in Some (String c t, r)
  end.

Fixpoint parse_value (fuel : nat) (s : string) {struct fuel} : outcome (json * string) :=
  match fuel with
  | O => OutOfFuel
  | S f =>
      match skip_ws s with
      | EmptyString => Fail
      | String c r =>
          if (c =? "n")%char then let! r' := of_option (strip_prefix "ull" r) in Done (JNull, r')
          else if (c =? "t")%char then
            let! r' := of_option (strip_prefix "rue" r) in Done (JBool true, r')
          else if (c =? "f")%char then
            let! r' := of_option (strip_prefix "alse" r) in Done (JBool false, r')
          else if (c =? DQ)%char then
            let! (t, r') := of_option (parse_string r) in Done (JStr t, r')
          else if (c =? "[")%char then
            match skip_ws r with
            | String c' r' =>
                if (c' =? "]")%char then Done (JArr [], r')
                else let! (vs, r'') := parse_elems f r in Done (JArr vs, r'')
            | EmptyString => Fail
            end
          else if (c =? "{")%char then
            match skip_ws r with
            | String c' r' =>
                if (c' =? "}")%char then Done (JObj [], r')
                else let! (kvs, r'') := parse_members f r in Done (JObj kvs, r'')
            | EmptyString => Fail
            end
          else Fail
      end
  end
with parse_elems (fuel : nat) (s : string) {struct fuel} : outcome (list json * string) :=
  match fuel with
  | O => OutOfFuel
  | S f =>
      let! (v, r) := parse_value f s in
      match skip_ws r with
      | String c r' =>
          if (c =? ",")%char then let! (vs, r'') := parse_elems f r' in Done (v :: vs, r'')
          else if (c =? "]")%char then Done ([v], r')
          else Fail
      | EmptyString => Fail
      end
  end
with parse_members (fuel : nat) (s : string) {struct fuel}
    : outcome (list (string * json) * string) :=
  match fuel with
  | O => OutOfFuel
  | S f =>
      match skip_ws s with
      | String q r =>
          if (q =? DQ)%char then
            let! (k, r1) := of_option (parse_string r) in
            match skip_ws r1 with
            | String c1 r2 =>
                if (c1 =? ":")%char then
                  let! (v, r3) := parse_value f r2 in
                  match skip_ws r3 with
                  | String c3 r4 =>
                      if (c3 =? ",")%char then
                        let! (kvs, r5) := parse_members f r4 in Done ((k, v) :: kvs, r5)
                      else if (c3 =? "}")%char then Done ([(k, v)], r4)
                      else Fail
                  | EmptyString => Fail
                  end
                else Fail
            | EmptyString => Fail
            end
          else Fail
      | EmptyString => Fail
      end
  end.

(** The fuel [loads] gives the reader: enough for every input
    ([parse_value_terminates]). *)
Definition loads_fuel (s : string) : nat := S (2 * String.length s).

(** [json.loads]: one value, then only whitespace. *)
Definition loads (s : string) : option json :=
  match parse_value (loads_fuel s) s with
  | Done (v, r) => match skip_ws r with EmptyString => Some v | _ => None end
  | _ => None
  end.

(** ** What a reader gets back *)

(** The value [dumps] writes, as the reader returns it: the items of each
    object sorted by key. *)
Fixpoint norm (v : json) : json :=
  match v with
  | JArr items => JArr (map norm items)
  | JObj items => JObj (sort_items (map (fun kv => (fst kv, norm (snd kv))) items))
  | _ => v
  end.

(** The nesting of a value, which bounds the fuel the reader needs. *)
Fixpoint size (v : json) : nat :=
  match v with
  | JArr items => S (list_sum (map (fun x => S (size x)) items))
  | JObj items => S (list_sum (map (fun kv => S (size (snd kv))) items))
  | _ => 1
  end.

(** ** Lemmas *)

(** The [\u00XX] escape reads back, for each of the 256 characters. *)
Lemma hex4_unicode_escape (c : ascii) :
  hex4 "0" "0" (hex_digit (nat_of_ascii c / 16)) (hex_digit (nat_of_ascii c mod 16)) = Some c.
Proof. destruct c as [[] [] [] [] [] [] [] []]; vm_compute; reflexivity. Qed.

Lemma parse_string_unicode_escape (c : ascii) (t : string) :
  parse_string (unicode_escape c ++ t) = let? (u, r) := parse_string t in Some (String c u, r).
Proof.
  pose proof (hex4_unicode_escape c) as H. unfold unicode_escape.
  generalize dependent (hex_digit (nat_of_ascii c mod 16)).
  generalize dependent (hex_digit (nat_of_ascii c / 16)). intros a b H.
  cbn -[hex4]. rewrite H. reflexivity.
Qed.

(** Reading back the escape of one character. *)
Lemma parse_string_escape_char (c : ascii) (t : string) :
  parse_string (escape_char c ++ t) = let? (u, r) := parse_string t in Some (String c u, r).
Proof.
  unfold escape_char. destruct (plain c) eqn:P.
  - unfold plain in P. apply andb_true_iff in P as [P Hdq].
    apply andb_true_iff in P as [P Hbs]. apply negb_true_iff in Hdq, Hbs.
    simpl. rewrite Hdq, Hbs.
    replace (nat_of_ascii c <? 32)%nat with false; [reflexivity|].
    apply andb_true_iff in P as [P _]. symmetry. apply Nat.ltb_ge, Nat.leb_le, P.
  - repeat match goal with
           | |- context [(c =? ?d)%char] =>
               destruct (Ascii.eqb_spec c d) as [->|]; [reflexivity|]
           end.
    apply parse_string_unicode_escape.
Qed.

Lemma parse_string_escape (s rest : string) :
  parse_string (escape s ++ String DQ rest) = Some (s, rest).
Proof.
  induction s as [|c s IH]; [reflexivity|].
  simpl escape. rewrite string_app_assoc, parse_string_escape_char, IH. reflexivity.
Qed.

(** *** The encoder, piece by piece *)

Lemma skip_ws_cons (c : ascii) (s : string) :
  is_ws c = false -> skip_ws (String c s) = String c s.
Proof. intros H. simpl. rewrite H. reflexivity. Qed.

(** The first character of [dumps v] starts a value: it is no
    whitespace, and it closes no array or object. *)
Lemma dumps_head (v : json) :
  exists c t, dumps v = String c t /\ is_ws c = false
              /\ (c =? "]")%char = false /\ (c =? "}")%char = false.
Proof. destruct v as [| [] | | |]; simpl; do 2 eexists; repeat split; reflexivity. Qed.

Lemma dumps_head_app (v : json) (rest : string) :
  exists c t, dumps v ++ rest = String c t /\ is_ws c = false
              /\ (c =? "]")%char = false /\ (c =? "}")%char = false.
Proof.
  destruct (dumps_head v) as (c & t & -> & H). exists c, (t ++ rest). auto.
Qed.

(** *** Reading back what [dumps] writes *)

(** Deciding the character tests of the reader on known characters. *)
Ltac char_tests :=
  repeat match goal with
         | |- context [Ascii.eqb ?a ?b] =>
             let e := eval vm_compute in (Ascii.eqb a b) in
             lazymatch e with
             | true => change (Ascii.eqb a b) with true
             | false => change (Ascii.eqb a b) with false
             end
         end; cbv iota beta.

(** One token of the reader: the next character, known, after no
    whitespace. *)
Ltac read_char := cbn [append]; rewrite skip_ws_cons by reflexivity; cbv iota beta; char_tests.

Section Roundtrip.

(** What is proved of each value: with fuel at least its size, the reader
    takes back exactly what [dumps] wrote, whatever follows. *)
Let reads_back (v : json) : Prop :=
  forall f rest, (size v <= f)%nat -> parse_value f (dumps v ++ rest) = Done (norm v, rest).

Lemma parse_elems_dumps (items : list json) :
  items <> [] -> Forall reads_back items ->
  forall f rest, (list_sum (map (fun x => S (size x)) items) <= f)%nat ->
  parse_elems f (join "," (map dumps items) ++ String "]" rest) = Done (map norm items, rest).
Proof.
  intros Hne HF. induction HF as [|v l Hv HF IH]; [contradiction|]. clear Hne.
  intros [|f] rest Hf; simpl in Hf; [lia|].
  destruct l as [|w l].
  - simpl join. cbn [parse_elems]. rewrite Hv by lia. reflexivity.
  - change (join "," (map dumps (v :: w :: l)))
      with (dumps v ++ String "," (join "," (map dumps (w :: l)))).
    rewrite string_app_assoc. cbn [parse_elems]. rewrite Hv by lia. cbv iota beta.
    cbn [append]. rewrite skip_ws_cons by reflexivity. cbv iota beta.
    change ((","%char =? ",")%char) with true. cbv iota beta.
    rewrite IH by (discriminate || (simpl in *; lia)). reflexivity.
Qed.

Lemma parse_members_dumps (items : list (string * json)) :
  items <> [] -> Forall (fun kv => reads_back (snd kv)) items ->
  forall f rest, (list_sum (map (fun kv => S (size (snd kv))) items) <= f)%nat ->
  parse_members f
    (join "," (map (fun kv => encode_string (fst kv) ++ String ":" (dumps (snd kv))) items)
     ++ String "}" rest)
  = Done (map (fun kv => (fst kv, norm (snd kv))) items, rest).
Proof.
  intros Hne HF. induction HF as [|[k v] l Hv HF IH]; [contradiction|]. clear Hne.
  intros [|f] rest Hf; simpl in Hf, Hv; [lia|].
  destruct l as [|kv' l].
  - cbn [join map fst snd]. rewrite !string_app_assoc, encode_string_app. cbn [parse_members].
    read_char. rewrite parse_string_escape; cbn [of_option]. cbv iota beta. read_char.
    rewrite Hv by lia. cbv iota beta. read_char. reflexivity.
  - change (join "," (map (fun kv => encode_string (fst kv) ++ String ":" (dumps (snd kv)))
                      ((k, v) :: kv' :: l)))
      with ((encode_string k ++ String ":" (dumps v)) ++ String ","
              (join "," (map (fun kv => encode_string (fst kv) ++ String ":" (dumps (snd kv)))
                             (kv' :: l)))).
    rewrite !string_app_assoc, encode_string_app. cbn [parse_members].
    read_char. rewrite parse_string_escape; cbn [of_option]. cbv iota beta. read_char.
    rewrite Hv by lia. cbv iota beta. read_char.
    rewrite IH by (discriminate || (simpl in *; lia)). reflexivity.
Qed.

Lemma norm_obj (items : list (string * json)) :
  norm (JObj items) = JObj (map (fun kv => (fst kv, norm (snd kv))) (sort_items items)).
Proof. cbn [norm]. rewrite (sort_items_map_snd norm). reflexivity. Qed.

(** A non-empty list of values starts with a value. *)
Lemma join_dumps_head (items : list json) (x : string) :
  items <> [] ->
  exists c t, join "," (map dumps items) ++ x = String c t /\ is_ws c = false
              /\ (c =? "]")%char = false.
Proof.
  intros Hne. destruct items as [|v [|w l]]; [contradiction| |].
  - destruct (dumps_head_app v x) as (c & t & E & ? & ? & _). cbn [map join]. eauto.
  - destruct (dumps_head_app v (String "," (join "," (map dumps (w :: l))) ++ x))
      as (c & t & E & ? & ? & _).
    cbn [map join]. rewrite string_app_assoc. eauto.
Qed.

(** A non-empty list of members starts with the quote of a key. *)
Lemma join_members_head (items : list (string * json)) (x : string) :
  items <> [] ->
  exists t, join "," (map (fun kv => encode_string (fst kv) ++ String ":" (dumps (snd kv))) items)
            ++ x = String DQ t.
Proof.
  intros Hne. destruct items as [|[k v] [|w l]]; [contradiction| |];
    cbn [map join fst snd]; rewrite ?string_app_assoc, encode_string_app; eauto.
Qed.

Lemma parse_value_dumps (v : json) : reads_back v.
Proof.
  induction v as [| b | s | items HF | items HF] using json_ind';
    intros [|f] rest Hf; simpl in Hf; try lia.
  - reflexivity.
  - destruct b; reflexivity.
  - cbn [dumps]. rewrite encode_string_app. cbn [parse_value].
    read_char. rewrite parse_string_escape; cbn [of_option]. reflexivity.
  - destruct items as [|v items]; [reflexivity|].
    cbn [dumps]. rewrite !string_app_assoc. cbn [parse_value]. read_char.
    destruct (join_dumps_head (v :: items) (String "]" rest)) as (c & t & E & W & C1);
      [discriminate|].
    cbn [append]. rewrite E, skip_ws_cons, C1 by exact W. cbv iota beta. rewrite <- E.
    rewrite parse_elems_dumps by (discriminate || exact HF || lia). reflexivity.
  - rewrite dumps_obj, norm_obj.
    assert (HP := sort_items_perm items).
    assert (HF' := Permutation_Forall (Permutation_sym HP) HF).
    assert (Hs : list_sum (map (fun kv => S (size (snd kv))) (sort_items items))
                 = list_sum (map (fun kv => S (size (snd kv))) items))
      by (apply list_sum_perm, Permutation_map, HP).
    destruct (sort_items items) as [|kv l] eqn:S; [reflexivity|].
    rewrite !string_app_assoc. cbn [parse_value]. read_char.
    destruct (join_members_head (kv :: l) (String "}" rest)) as (t & E); [discriminate|].
    cbn [append]. rewrite E. read_char. rewrite <- E.
    rewrite parse_members_dumps by (discriminate || exact HF' || lia). reflexivity.
Qed.

(** *** The fuel of [loads] is enough *)

Lemma join_length (l : list string) :
  (list_sum (map (fun p => S (String.length p)) l) <= S (String.length (join "," l)))%nat.
Proof.
  induction l as [|p [|q l] IH]; simpl; [lia | lia |].
  simpl in IH. rewrite string_length_app. simpl. lia.
Qed.

Lemma list_sum_map_le {A} (g h : A -> nat) (l : list A) :
  (forall x, In x l -> g x <= h x)%nat ->
  (list_sum (map g l) <= list_sum (map h l))%nat.
Proof.
  induction l as [|x l IH]; simpl; intros H; [lia|].
  specialize (H x (or_introl eq_refl)) as Hx. specialize (IH (fun y Hy => H y (or_intror Hy))). lia.
Qed.

Lemma size_le_dumps (v : json) : (size v <= String.length (dumps v))%nat.
Proof.
  induction v as [| [] | s | items HF | items HF] using json_ind'; try (simpl; lia).
  - cbn [dumps size]. rewrite string_length_app, string_length_app. simpl String.length.
    pose proof (join_length (map dumps items)) as J. rewrite map_map in J. cbv beta in J.
    enough (list_sum (map (fun x => S (size x)) items)
            <= list_sum (map (fun x => S (String.length (dumps x))) items))%nat by lia.
    apply list_sum_map_le. intros x Hx. rewrite Forall_forall in HF. specialize (HF x Hx). lia.
  - rewrite dumps_obj. cbn [size]. rewrite string_length_app, string_length_app.
    cbn [String.length].
    pose proof (join_length (map (fun kv => encode_string (fst kv) ++ String ":" (dumps (snd kv)))
                                 (sort_items items))) as J.
    rewrite map_map in J. cbv beta in J.
    rewrite (list_sum_perm _ _ (Permutation_map (fun kv => S (size (snd kv)))
                                  (Permutation_sym (sort_items_perm items)))).
    assert (HF' := Permutation_Forall (Permutation_sym (sort_items_perm items)) HF).
    enough (list_sum (map (fun kv => S (size (snd kv))) (sort_items items))
            <= list_sum (map (fun kv => S (String.length
                  (encode_string (fst kv) ++ String ":" (dumps (snd kv))))) (sort_items items)))%nat
      by lia.
    apply list_sum_map_le. intros x Hx. rewrite Forall_forall in HF'. specialize (HF' x Hx).
    rewrite string_length_app. simpl String.length. lia.
Qed.

End Roundtrip.

(** *** The reader terminates *)

Lemma skip_ws_le (s : string) : (String.length (skip_ws s) <= String.length s)%nat.
Proof. induction s as [|c s IH]; simpl; [lia|]. destruct (is_ws c); simpl; lia. Qed.

Lemma skip_ws_lt (s r : string) (c : ascii) :
  skip_ws s = String c r -> (String.length r < String.length s)%nat.
Proof. intros H. pose proof (skip_ws_le s) as L. rewrite H in L. simpl in L. lia. Qed.

Lemma strip_prefix_le (p s r : string) :
  strip_prefix p s = Some r -> (String.length r <= String.length s)%nat.
Proof.
  revert s; induction p as [|c p IH]; intros [|d s] H; simpl in H; try discriminate.
  - injection H as <-. lia.
  - injection H as <-. simpl. lia.
  - destruct (c =? d)%char; [apply IH in H; simpl; lia | discriminate].
Qed.

(** A string token ends before the input does. *)
Lemma parse_string_lt (n : nat) (s t r : string) :
  (String.length s <= n)%nat -> parse_string s = Some (t, r) ->
  (String.length r < String.length s)%nat.
Proof.
  revert s t r. induction n as [|n IH]; intros [|c s] t r Hn H; simpl in Hn, H;
    try lia; try discriminate.
  destruct (c =? DQ)%char; [injection H as _ <-; simpl; lia|].
  destruct (c =? BS)%char.
  - destruct s as [|e s]; [discriminate|]. destruct (e =? "u")%char.
    + destruct s as [|a [|b [|c' [|d s]]]]; try discriminate.
      destruct (hex4 a b c' d); [|discriminate].
      destruct (parse_string s) as [[t' r']|] eqn:E; [|discriminate].
      injection H as _ <-. apply IH in E; simpl in *; lia.
    + destruct (unescape e); [|discriminate].
      destruct (parse_string s) as [[t' r']|] eqn:E; [|discriminate].
      injection H as _ <-. apply IH in E; simpl in *; lia.
  - destruct (nat_of_ascii c <? 32)%nat; [discriminate|].
    destruct (parse_string s) as [[t' r']|] eqn:E; [|discriminate].
    injection H as _ <-. apply IH in E; simpl in *; lia.
Qed.

Lemma of_option_Done {A} (o : option A) (a : A) : of_option o = Done a -> o = Some a.
Proof. destruct o; simpl; congruence. Qed.

(** Case analysis on the first test or sub-result a hypothesis depends on. *)
Ltac destr_in H :=
  match type of H with
  | context [match ?x with _ => _ end] => let E := fresh "E" in destruct x eqn:E
  end.

(** What the reader leaves is shorter than what it was given. *)
Lemma parse_consumes (f : nat) :
  (forall s v r, parse_value f s = Done (v, r) -> (String.length r < String.length s)%nat)
  /\ (forall s vs r, parse_elems f s = Done (vs, r) -> (String.length r < String.length s)%nat)
  /\ (forall s kvs r, parse_members f s = Done (kvs, r)
                      -> (String.length r < String.length s)%nat).
Proof.
  induction f as [|f (IHv & IHe & IHm)]; [repeat split; discriminate|].
  repeat split; intros s x r H; cbn [parse_value parse_elems parse_members] in H;
    repeat (destr_in H; try discriminate H); injection H as <- <-; subst;
    repeat match goal with
           | E : skip_ws _ = String _ _ |- _ => apply skip_ws_lt in E
           | E : of_option (strip_prefix _ _) = Done _ |- _ =>
               apply of_option_Done, strip_prefix_le in E
           | E : of_option (parse_string ?a) = Done _ |- _ =>
               apply of_option_Done, (parse_string_lt (String.length a) a) in E; [|lia]
           | E : parse_value f _ = Done _ |- _ => apply IHv in E
           | E : parse_elems f _ = Done _ |- _ => apply IHe in E
           | E : parse_members f _ = Done _ |- _ => apply IHm in E
           end; lia.
Qed.

Ltac destr_goal :=
  match goal with
  | |- context [match ?x with _ => _ end] => let E := fresh "E" in destruct x eqn:E
  end.

(** Lengths from the equations of a case analysis on the reader. *)
Ltac reader_lengths IHv IHe IHm :=
  repeat match goal with
         | E : skip_ws _ = String _ _ |- _ => apply skip_ws_lt in E
         | E : of_option (parse_string ?a) = Done _ |- _ =>
             apply of_option_Done, (parse_string_lt (String.length a) a) in E; [|lia]
         | E : parse_value _ _ = Done (_, _) |- _ => apply (proj1 (parse_consumes _)) in E
         | E : parse_elems _ _ = Done (_, _) |- _ => apply (proj1 (proj2 (parse_consumes _))) in E
         | E : parse_members _ _ = Done (_, _) |- _ => apply (proj2 (proj2 (parse_consumes _))) in E
         | E : of_option ?o = OutOfFuel |- _ => destruct o; discriminate E
         | E : parse_value _ _ = OutOfFuel |- _ => exfalso; revert E; apply IHv
         | E : parse_elems _ _ = OutOfFuel |- _ => exfalso; revert E; apply IHe
         | E : parse_members _ _ = OutOfFuel |- _ => exfalso; revert E; apply IHm
         end.

(** Fuel [2 n + 1] is enough for a value of [n] characters: every
    recursive call either consumes a character or moves from a list to
    its first item. *)
Lemma parse_fuel_enough (f : nat) :
  (forall s, (2 * String.length s + 1 <= f)%nat -> parse_value f s <> OutOfFuel)
  /\ (forall s, (2 * String.length s + 2 <= f)%nat -> parse_elems f s <> OutOfFuel)
  /\ (forall s, (2 * String.length s + 2 <= f)%nat -> parse_members f s <> OutOfFuel).
Proof.
  induction f as [|f (IHv & IHe & IHm)]; [repeat split; intros; lia|].
  repeat split; intros s Hs; cbn [parse_value parse_elems parse_members];
    repeat (destr_goal; try discriminate); subst;
    reader_lengths IHv IHe IHm; lia.
Qed.

(** Once the reader answers, more fuel gives the same answer. *)
Lemma parse_fuel_mono (f : nat) :
  (forall s f', (f <= f')%nat -> parse_value f s <> OutOfFuel -> parse_value f' s = parse_value f s)
  /\ (forall s f', (f <= f')%nat -> parse_elems f s <> OutOfFuel ->
                   parse_elems f' s = parse_elems f s)
  /\ (forall s f', (f <= f')%nat -> parse_members f s <> OutOfFuel ->
                   parse_members f' s = parse_members f s).
Proof.
  induction f as [|f (IHv & IHe & IHm)];
    [repeat split; intros s f' _ H; contradiction H; reflexivity|].
  repeat split; intros s [|f'] Hle H; try lia; cbn [parse_value parse_elems parse_members] in H |- *;
    repeat (destr_in H; try (contradiction H; reflexivity));
    repeat (match goal with
            | E : parse_value f ?a = _ |- context [parse_value f' ?a] =>
                rewrite (IHv a f' ltac:(lia) ltac:(rewrite E; discriminate))
            | E : parse_elems f ?a = _ |- context [parse_elems f' ?a] =>
                rewrite (IHe a f' ltac:(lia) ltac:(rewrite E; discriminate))
            | E : parse_members f ?a = _ |- context [parse_members f' ?a] =>
                rewrite (IHm a f' ltac:(lia) ltac:(rewrite E; discriminate))
            | E : ?x = _ |- context [?x] => rewrite E
            end; cbv iota beta); reflexivity.
Qed.

(** [loads] decides every input: the fuel it gives the reader never
    runs out, and any more fuel gives the same answer, so [loads] is the
    reader without a bound. *)
Theorem loads_terminates (s : string) :
  parse_value (loads_fuel s) s <> OutOfFuel
  /\ forall f, (loads_fuel s <= f)%nat -> parse_value f s = parse_value (loads_fuel s) s.
Proof.
  assert (H : parse_value (loads_fuel s) s <> OutOfFuel)
    by (apply (proj1 (parse_fuel_enough _)); unfold loads_fuel; lia).
  split; [exact H|]. intros f Hf. exact (proj1 (parse_fuel_mono _) s f Hf H).
Qed.

(** C15: [json.loads] reads back what [dumps] writes, followed by any
    whitespace: the value itself, with the items of every object sorted by
    key ([sort_keys=True]). *)
Theorem dumps_loads (v : json) (ws : string) :
  skip_ws ws = EmptyString -> loads (dumps v ++ ws) = Some (norm v).
Proof.
  intros Hws. unfold loads. rewrite parse_value_dumps.
  - cbv iota beta. rewrite Hws. reflexivity.
  - pose proof (size_le_dumps v). unfold loads_fuel. rewrite string_length_app. lia.
Qed.

(** ** Witnesses *)

(** The body of the answer to [POST /update] at 2025-11-09 00:00:00. *)
Definition sample_items : list (string * json) :=
  [("status", JStr "success"); ("message", JStr "Data updated at 2025-11-09 00:00:00")].

Lemma dumps_loads_witness :
  skip_ws (String (ascii_of_nat 10) "") = EmptyString
  /\ loads (dumps (JObj sample_items) ++ String (ascii_of_nat 10) "")
     = Some (norm (JObj sample_items)).
Proof. split; [reflexivity | apply dumps_loads; reflexivity]. Defined.

End JsonRead.
