(* ===== verification/Url.v ===== *)
(** * Url: the path of a request target, as Werkzeug's environ holds it

    The development server of line 19 of src/app.py is Werkzeug's
    [WSGIRequestHandler].  Its [make_environ] splits the request target
    with CPython's [urllib.parse.urlsplit], puts back a first segment that
    [urlsplit] took for a host ([f"/{netloc}{path}"] when there is no
    scheme), and decodes it with [urllib.parse.unquote]; [PATH_INFO] is
    the result encoded as UTF-8 and read as ISO-8859-1
    ([_wsgi_encoding_dance]).

    - The target is a [string] of characters below 256: [http.server]
      decodes the request line as ISO-8859-1.
    - [urlsplit] returns the five parts or raises [ValueError]; the check
      of a bracketed host follows [_check_bracketed_netloc] and
      [ipaddress.ip_address] (CPython 3.12), with IPv4 and IPv6 addresses
      as [ipaddress] parses them.
    - [unquote] returns the UTF-8 bytes of the decoded [str]: percent
      escapes of the ASCII runs become bytes ([_unquote_impl]), which are
      decoded as UTF-8 with [errors='replace'] (a maximal invalid subpart
      becomes U+FFFD), and the other characters are kept.  These bytes are
      [PATH_INFO] as the environ holds it.

    The theorems: a query string never changes [PATH_INFO]; [unquote]
    reads back the percent encoding of the UTF-8 bytes of any string;
    what it returns is valid UTF-8 ([valid_utf8]: complete sequences
    only), so decoding [PATH_INFO] again loses nothing; a target whose
    bracketed host is never closed makes [urlsplit] raise. *)

From Stdlib Require Import ZArith NArith String Ascii List Bool Lia.
From S2P Require Import Prelude.
Import ListNotations.

Local Open Scope string_scope.
Local Open Scope web_scope.

Module Url.

(** ** Characters *)

Definition code (c : ascii) : N := N_of_ascii c.
Definition chr (n : N) : ascii := ascii_of_N n.

Definition byte_in (lo hi : N) (c : ascii) : bool := (lo <=? code c)%N && (code c <=? hi)%N.

Definition is_ascii_digit (c : ascii) : bool := byte_in 48 57 c.
Definition is_hexdigit (c : ascii) : bool := is_ascii_digit c || byte_in 65 70 c || byte_in 97 102 c.
Definition is_ascii_alpha (c : ascii) : bool := byte_in 65 90 c || byte_in 97 122 c.

(** [int(c, 16)] of one hexadecimal digit. *)
Definition hex_digit_value (c : ascii) : N :=
  if is_ascii_digit c then code c - 48 else if byte_in 65 70 c then code c - 55 else code c - 87.

(** [int(s, base)] of a string of digits already checked. *)
Fixpoint digits_value (base : N) (acc : N) (s : string) : N :=
  match s with
  | String c rest => digits_value base (acc * base + hex_digit_value c) rest
  | EmptyString => acc
  end.

Fixpoint str_forallb (f : ascii -> bool) (s : string) : bool :=
  match s with
  | String c rest => f c && str_forallb f rest
  | EmptyString => true
  end.

(** [c in s]. *)
Definition has (c : ascii) (s : string) : bool := negb (str_forallb (fun d => negb (d =? c)%char) s).

(** [s.split(sep)]: every occurrence splits. *)
Fixpoint split_on (sep : ascii) (s : string) : list string :=
  match s with
  | EmptyString => [EmptyString]
  | String c rest =>
      if (c =? sep)%char then EmptyString :: split_on sep rest
      else match split_on sep rest with
           | w :: ws => String c w :: ws
           | [] => [String c EmptyString]
           end
  end.

(** [s.partition(sep)]: the text before the first [sep] and, when there
    is one, the text after it. *)
Fixpoint partition (sep : ascii) (s : string) : string * option string :=
  match s with
  | EmptyString => (EmptyString, None)
  | String c rest =>
      if (c =? sep)%char then (EmptyString, Some rest)
      else let (b, a) := partition sep rest in (String c b, a)
  end.

(** [s.rpartition(sep)[2]]: the text after the last [sep], or [s]. *)
Fixpoint after_last (sep : ascii) (s : string) : string :=
  match s with
  | EmptyString => EmptyString
  | String c rest =>
      if has sep rest then after_last sep rest
      else if (c =? sep)%char then rest else s
  end.

(** ** [ipaddress.ip_address] *)

(** [IPv4Address._parse_octet]: ASCII digits, at most three, no leading
    zero, at most 255. *)
Definition parse_octet (s : string) : option N :=
  match s with
  | EmptyString => None
  | String c0 _ =>
      if negb (str_forallb is_ascii_digit s) then None
      else if (3 <? String.length s)%nat then None
      else if negb (String.eqb s "0") && (c0 =? "0")%char then None
      else let v := digits_value 10 0 s in if (255 <? v)%N then None else Some v
  end.

(** [IPv4Address(s)]: no [/], then four octets separated by dots. *)
Definition ipv4_address (s : string) : option N :=
  if has "/" s then None else
  match split_on "." s with
  | [a; b; c; d] =>
      match parse_octet a, parse_octet b, parse_octet c, parse_octet d with
      | Some a, Some b, Some c, Some d => Some (((a * 256 + b) * 256 + c) * 256 + d)%N
      | _, _, _, _ => None
      end
  | _ => None
  end.

(** [IPv6Address._parse_hextet]: one to four hexadecimal digits. *)
Definition hextet_ok (s : string) : bool :=
  str_forallb is_hexdigit s && negb (String.eqb s "") && (String.length s <=? 4)%nat.

Definition is_empty (s : string) : bool := String.eqb s "".

(** The positions [1 .. n - 2] of the empty parts (a [::]). *)
Fixpoint interior_empties (i : nat) (parts : list string) : list nat :=
  match parts with
  | [] | [_] => []
  | p :: rest => (if is_empty p then [i] else []) ++ interior_empties (S i) rest
  end.

(** [IPv6Address._ip_int_from_string] on the parts of [ip_str.split(':')],
    after an IPv4 suffix has become two hextets (their values do not
    matter to the check): at most nine parts, at
    most one [::], the parts it does not skip are hextets. *)
Definition ipv6_parts_ok (parts : list string) : bool :=
  let n := length parts in
  let first := nth 0 parts "" in
  let final := nth (n - 1) parts "" in
  if (9 <? n)%nat then false else
  match interior_empties 0 (skipn 1 parts) with
  | [] =>
      (n =? 8)%nat && negb (is_empty first) && negb (is_empty final) && forallb hextet_ok parts
  | [j] =>
      let skip := S j in
      let hi := if is_empty first then (skip - 1)%nat else skip in
      let lo := if is_empty final then (n - skip - 2)%nat else (n - skip - 1)%nat in
      (negb (is_empty first) || (skip =? 1)%nat)
      && (negb (is_empty final) || (n - skip - 1 =? 1)%nat)
      && (1 <=? 8 - (hi + lo))%nat
      && forallb hextet_ok (firstn hi parts) && forallb hextet_ok (skipn (n - lo) parts)
  | _ => false
  end.

(** [IPv6Address(s)]: no [/], a scope id after [%] that is not empty
    and has no [%], at least three parts, an IPv4 suffix when the last
    part has a dot. *)
Definition ipv6_address (s : string) : bool :=
  if has "/" s then false else
  let (addr, scope) := partition "%" s in
  if match scope with Some sc => is_empty sc || has "%" sc | None => false end then false else
  let parts := split_on ":" addr in
  if (length parts <? 3)%nat then false else
  let final := nth (length parts - 1) parts "" in
  if has "." final then
    match ipv4_address final with
    | Some _ => ipv6_parts_ok (firstn (length parts - 1) parts ++ ["0"; "0"])
    | None => false
    end
  else ipv6_parts_ok parts.

(** ** [urlsplit] *)

(** [url.lstrip(_WHATWG_C0_CONTROL_OR_SPACE)]. *)
Fixpoint lstrip_c0 (s : string) : string :=
  match s with
  | String c rest => if byte_in 0 32 c then lstrip_c0 rest else s
  | EmptyString => EmptyString
  end.

(** [url.replace(b, "")] for [b] in [_UNSAFE_URL_BYTES_TO_REMOVE]
    (tab, CR, LF): removing each in turn removes all three. *)
Definition unsafe (c : ascii) : bool := (code c =? 9)%N || (code c =? 10)%N || (code c =? 13)%N.

Fixpoint remove_unsafe (s : string) : string :=
  match s with
  | String c rest => if unsafe c then remove_unsafe rest else String c (remove_unsafe rest)
  | EmptyString => EmptyString
  end.

Definition is_scheme_char (c : ascii) : bool :=
  is_ascii_alpha c || is_ascii_digit c || (c =? "+")%char || (c =? "-")%char || (c =? ".")%char.

Definition lower_char (c : ascii) : ascii := if byte_in 65 90 c then chr (code c + 32) else c.

Fixpoint lower (s : string) : string :=
  match s with
  | String c rest => String (lower_char c) (lower rest)
  | EmptyString => EmptyString
  end.

(** [url[:i]] and [url[i+1:]] for the first colon [i], when every
    character before it is in [scheme_chars]. *)
Fixpoint scheme_prefix (s : string) : option (string * string) :=
  match s with
  | EmptyString => None
  | String c rest =>
      if (c =? ":")%char then Some (EmptyString, rest)
      else if is_scheme_char c then
        match scheme_prefix rest with
        | Some (p, r) => Some (String c p, r)
        | None => None
        end
      else None
  end.

(** The scheme is taken when [url[0]] is an ASCII letter ([i > 0]). *)
Definition split_scheme (url : string) : string * string :=
  match url with
  | String c _ =>
      if is_ascii_alpha c then
        match scheme_prefix url with
        | Some (p, r) => (lower p, r)
        | None => (EmptyString, url)
        end
      else (EmptyString, url)
  | EmptyString => (EmptyString, url)
  end.

(** [_splitnetloc(url, 2)] after the two slashes: up to the first [/],
    [?] or [#]. *)
Fixpoint span_netloc (s : string) : string * string :=
  match s with
  | String c rest =>
      if (c =? "/")%char || (c =? "?")%char || (c =? "#")%char then (EmptyString, s)
      else let (n, r) := span_netloc rest in (String c n, r)
  | EmptyString => (EmptyString, EmptyString)
  end.

(** [_check_bracketed_host]: an IPvFuture [v<hex>+.<any>+], or an IPv6
    address ([ip_address] tries IPv4 first, which is refused here). *)
Fixpoint ipvfuture_rest (first : bool) (s : string) : bool :=
  match s with
  | String c rest =>
      if is_hexdigit c then ipvfuture_rest false rest
      else (c =? ".")%char && negb first && negb (is_empty rest)
           && str_forallb (fun d => negb (code d =? 10)%N) rest
  | EmptyString => false
  end.

Definition check_bracketed_host (hostname : string) : result unit :=
  match hostname with
  | String "v"%char rest =>
      if ipvfuture_rest true rest then Ok tt else Raise (ValueError "IPvFuture address is invalid")
  | _ =>
      match ipv4_address hostname with
      | Some _ => Raise (ValueError "An IPv4 address cannot be in brackets")
      | None =>
          if ipv6_address hostname then Ok tt
          else Raise (ValueError "does not appear to be an IPv4 or IPv6 address")
      end
  end.

(** [_check_bracketed_netloc]. *)
Definition check_bracketed_netloc (netloc : string) : result unit :=
  let hostname_and_port := after_last "@" netloc in
  match partition "[" hostname_and_port with
  | (before, Some bracketed) =>
      if negb (is_empty before) then Raise (ValueError "Invalid IPv6 URL") else
      match partition "]" bracketed with
      | (hostname, port) =>
          match port with
          | Some (String c _) =>
              if (c =? ":")%char then check_bracketed_host hostname
              else Raise (ValueError "Invalid IPv6 URL")
          | _ => check_bracketed_host hostname
          end
      end
  | (_, None) => check_bracketed_host (fst (partition "]" hostname_and_port))
  end.

(** [url[:2] == '//']: the text after the two slashes. *)
Definition after_two_slashes (s : string) : option string :=
  match s with
  | String c1 (String c2 r) => if (c1 =? "/")%char && (c2 =? "/")%char then Some r else None
  | _ => None
  end.

Record split_result := mk_split {
  scheme : string;
  netloc : string;
  path : string;
  query : string;
  fragment : string
}.

(** The end of [urlsplit]: [url.split('#', 1)] when there is a [#],
    then [url.split('?', 1)] when there is a [?]. *)
Definition split_fragment_query (sch nl url3 : string) : split_result :=
  let (url4, frag) := partition "#" url3 in
  let (url5, qry) := partition "?" url4 in
  mk_split sch nl url5 (match qry with Some q => q | None => EmptyString end)
                       (match frag with Some f => f | None => EmptyString end).

(** [urlsplit(url)] with [allow_fragments=True].  [_checknetloc] never
    raises on a netloc of characters below 256: none of them has an NFKC
    form with one of [/?#@:]. *)
Definition urlsplit (url0 : string) : result split_result :=
  let url1 := remove_unsafe (lstrip_c0 url0) in
  let (sch, url2) := split_scheme url1 in
  let netloc_rest := option_map span_netloc (after_two_slashes url2) in
  let checked : result (string * string) :=
    match netloc_rest with
    | None => Ok (EmptyString, url2)
    | Some (nl, r) =>
        if xorb (has "[" nl) (has "]" nl) then Raise (ValueError "Invalid IPv6 URL")
        else if has "[" nl && has "]" nl then
          (_ <- check_bracketed_netloc nl ;; Ok (nl, r))
        else Ok (nl, r)
    end in
  nr <- checked ;;
  let (nl, url3) := nr in
  Ok (split_fragment_query sch nl url3).

(** ** [unquote] *)

(** [bytes.fromhex(a + b)], the value of [_hextobyte[item[:2]]]. *)
Definition hex_byte (a b : ascii) : option ascii :=
  if is_hexdigit a && is_hexdigit b then Some (chr (hex_digit_value a * 16 + hex_digit_value b)) else None.

(** One [item] after a [%]: its two hex digits become a byte, or it is
    kept with its [%]. *)
Definition unquote_item (item : string) : string :=
  match item with
  | String a (String b rest) =>
      match hex_byte a b with
      | Some x => String x rest
      | None => String "%" item
      end
  | _ => String "%" item
  end.

(** [_unquote_impl] on a run of ASCII characters: [bits =
    string.split(b'%')], the first bit as it is, then every other bit by
    [unquote_item]. *)
Definition unquote_to_bytes (s : string) : string :=
  match split_on "%" s with
  | bit0 :: items => bit0 ++ String.concat EmptyString (map unquote_item items)
  | [] => EmptyString
  end.

(** U+FFFD as UTF-8. *)
Definition FFFD : string := String (chr 239) (String (chr 191) (String (chr 189) EmptyString)).

(** The first byte of a UTF-8 sequence: the number of bytes that follow
    and the range of the next one (Unicode, table 3-7). *)
Definition lead (c : ascii) : option (nat * N * N) :=
  if byte_in 0 127 c then Some (0%nat, 0%N, 0%N)
  else if byte_in 194 223 c then Some (1%nat, 128%N, 191%N)
  else if byte_in 224 224 c then Some (2%nat, 160%N, 191%N)
  else if byte_in 225 236 c then Some (2%nat, 128%N, 191%N)
  else if byte_in 237 237 c then Some (2%nat, 128%N, 159%N)
  else if byte_in 238 239 c then Some (2%nat, 128%N, 191%N)
  else if byte_in 240 240 c then Some (3%nat, 144%N, 191%N)
  else if byte_in 241 243 c then Some (3%nat, 128%N, 191%N)
  else if byte_in 244 244 c then Some (3%nat, 128%N, 143%N)
  else None.

(** [bytes.decode('utf-8', 'replace')], returned as UTF-8: a complete
    sequence is kept, a maximal subpart of an invalid one (an invalid
    first byte, or a first byte with the valid bytes that follow it)
    becomes one U+FFFD, and the byte that ended it is read again as a
    first byte.  [sq] holds the bytes of the sequence read so far, [need]
    the number still expected, [lo]..[hi] the range of the next one. *)
Fixpoint decode_utf8 (s sq : string) (need : nat) (lo hi : N) : string :=
  match s with
  | EmptyString => match need with O => EmptyString | S _ => FFFD end
  | String c rest =>
      let start := fun (c : ascii) =>
        match lead c with
        | None => FFFD ++ decode_utf8 rest EmptyString 0 0 0
        | Some (O, _, _) => String c (decode_utf8 rest EmptyString 0 0 0)
        | Some (S k, lo', hi') => decode_utf8 rest (String c EmptyString) (S k) lo' hi'
        end in
      match need with
      | O => start c
      | S k =>
          if byte_in lo hi c then
            match k with
            | O => sq ++ String c (decode_utf8 rest EmptyString 0 0 0)
            | S _ => decode_utf8 rest (sq ++ String c EmptyString) k 128 191
            end
          else FFFD ++ start c
      end
  end.

Definition utf8_decode (b : string) : string := decode_utf8 b EmptyString 0 0 0.

(** The UTF-8 bytes of a character below 256. *)
Definition utf8_char (c : ascii) : string :=
  if (code c <? 128)%N then String c EmptyString
  else String (chr (192 + code c / 64)) (String (chr (128 + code c mod 64)) EmptyString).

Fixpoint utf8_encode (s : string) : string :=
  match s with
  | String c rest => utf8_char c ++ utf8_encode rest
  | EmptyString => EmptyString
  end.

(** [_generate_unquoted_parts]: each run of ASCII characters ([run],
    gathered so far) is percent-decoded and decoded as UTF-8; the other
    characters are kept. *)
Fixpoint unquoted_parts (s run : string) : string :=
  match s with
  | EmptyString => utf8_decode (unquote_to_bytes run)
  | String c rest =>
      if (code c <? 128)%N then unquoted_parts rest (run ++ String c EmptyString)
      else utf8_decode (unquote_to_bytes run) ++ utf8_char c ++ unquoted_parts rest EmptyString
  end.

(** [unquote(string)] (UTF-8, [errors='replace']), as the UTF-8 bytes of
    the [str] it returns. *)
Definition unquote (s : string) : string :=
  if has "%" s then unquoted_parts s EmptyString else utf8_encode s.

(** ** [PATH_INFO] *)

(** [WSGIRequestHandler.make_environ]: the path of the target, with a
    first segment that [urlsplit] took for a netloc put back when there
    is no scheme, unquoted; [_wsgi_encoding_dance] keeps its UTF-8
    bytes. *)
Definition path_info (target : string) : result string :=
  u <- urlsplit target ;;
  let p := if is_empty (scheme u) && negb (is_empty (netloc u))
           then "/" ++ netloc u ++ path u else path u in
  Ok (unquote p).

(** [QUERY_STRING] of [make_environ]: the query [urlsplit] finds, not
    unquoted, through [_wsgi_encoding_dance] (its UTF-8 bytes). *)
Definition query_string (target : string) : result string :=
  u <- urlsplit target ;;
  Ok (utf8_encode (query u)).

(** ** A client's percent encoding *)

(** [urllib.parse.quote(b, safe="")] of bytes none of which is
    unreserved: every byte as [%XX] with upper-case digits. *)
Definition hex_upper (n : N) : ascii := if (n <? 10)%N then chr (48 + n) else chr (55 + n).

Definition quote_byte (c : ascii) : string :=
  String "%" (String (hex_upper (code c / 16)) (String (hex_upper (code c mod 16)) EmptyString)).

Fixpoint percent_encode (b : string) : string :=
  match b with
  | String c rest => quote_byte c ++ percent_encode rest
  | EmptyString => EmptyString
  end.

(** ** Lemmas *)

Lemma str_forallb_app (f : ascii -> bool) (s t : string) :
  str_forallb f (s ++ t) = str_forallb f s && str_forallb f t.
Proof. induction s as [|c s IH]; simpl; [reflexivity | now rewrite IH, andb_assoc]. Qed.

#[export] Hint Rewrite str_forallb_app : web_rw.

Definition is_ascii (c : ascii) : bool := (code c <? 128)%N.

Lemma utf8_encode_ascii (s : string) : str_forallb is_ascii s = true -> utf8_encode s = s.
Proof.
  induction s as [|c s IH]; simpl; [reflexivity|].
  intros [Hc Hs]%andb_true_iff. unfold utf8_char, is_ascii in *. rewrite Hc. simpl. now rewrite IH.
Qed.

(** Every byte is encoded as a [%] and two hexadecimal digits that are
    ASCII, are not [%], and decode to it (checked on the 256 bytes). *)
Definition quote_byte_ok (c : ascii) : bool :=
  match quote_byte c with
  | String _ (String h1 (String h2 EmptyString)) =>
      negb (h1 =? "%")%char && negb (h2 =? "%")%char && is_ascii h1 && is_ascii h2
      && match hex_byte h1 h2 with Some x => (x =? c)%char | None => false end
  | _ => false
  end.

Lemma quote_byte_ok_all (c : ascii) : quote_byte_ok c = true.
Proof. destruct c as [[] [] [] [] [] [] [] []]; vm_compute; reflexivity. Qed.

Lemma quote_byte_spec (c : ascii) :
  exists h1 h2, quote_byte c = String "%" (String h1 (String h2 EmptyString))
    /\ (h1 =? "%")%char = false /\ (h2 =? "%")%char = false
    /\ is_ascii h1 = true /\ is_ascii h2 = true /\ hex_byte h1 h2 = Some c.
Proof.
  pose proof (quote_byte_ok_all c) as H. unfold quote_byte_ok in H.
  exists (hex_upper (code c / 16)), (hex_upper (code c mod 16)).
  unfold quote_byte in *.
  destruct (hex_byte _ _) as [x|] eqn:E; [|rewrite !andb_false_r in H; discriminate].
  apply andb_true_iff in H as [H Hx]. apply Ascii.eqb_eq in Hx as ->.
  apply andb_true_iff in H as [H H4]. apply andb_true_iff in H as [H H3].
  apply andb_true_iff in H as [H1 H2]. apply negb_true_iff in H1, H2. auto 10.
Qed.

Lemma percent_encode_ascii (b : string) : str_forallb is_ascii (percent_encode b) = true.
Proof.
  induction b as [|c b IH]; [reflexivity|]. cbn [percent_encode].
  destruct (quote_byte_spec c) as (h1 & h2 & -> & _ & _ & A1 & A2 & _).
  simpl. now rewrite A1, A2, IH.
Qed.

Lemma split_on_percent_encode (b : string) :
  exists items, split_on "%" (percent_encode b) = EmptyString :: items
    /\ String.concat EmptyString (map unquote_item items) = b.
Proof.
  induction b as [|c b (items & IH & Hc)]; [exists []; split; reflexivity|].
  cbn [percent_encode].
  destruct (quote_byte_spec c) as (h1 & h2 & -> & N1 & N2 & _ & _ & Hh).
  exists (String h1 (String h2 EmptyString) :: items). simpl. rewrite N1, N2, IH. split; [reflexivity|].
  simpl. unfold unquote_item at 1. rewrite Hh.
  destruct items as [|i items]; simpl in *; subst; reflexivity.
Qed.

Lemma unquote_to_bytes_percent_encode (b : string) : unquote_to_bytes (percent_encode b) = b.
Proof.
  unfold unquote_to_bytes. destruct (split_on_percent_encode b) as (items & -> & H). exact H.
Qed.

Lemma unquoted_parts_ascii (s run : string) :
  str_forallb is_ascii s = true -> unquoted_parts s run = utf8_decode (unquote_to_bytes (run ++ s)).
Proof.
  revert run. induction s as [|c s IH]; intros run H; simpl in *.
  - now rewrite string_app_nil_r.
  - apply andb_true_iff in H as [Hc Hs]. unfold is_ascii in Hc. rewrite Hc, IH by exact Hs.
    now rewrite string_app_assoc.
Qed.

(** The first byte of a character reads as the start of a sequence that
    the second byte completes (checked on the 256 characters). *)
Definition utf8_char_ok (c : ascii) : bool :=
  match utf8_char c with
  | String x EmptyString => match lead x with Some (O, _, _) => true | _ => false end
  | String x (String y EmptyString) =>
      match lead x with Some (1%nat, lo, hi) => byte_in lo hi y | _ => false end
  | _ => false
  end.

Lemma utf8_char_ok_all (c : ascii) : utf8_char_ok c = true.
Proof. destruct c as [[] [] [] [] [] [] [] []]; vm_compute; reflexivity. Qed.

Lemma decode_utf8_char (c : ascii) (r : string) :
  decode_utf8 (utf8_char c ++ r) EmptyString 0 0 0 = utf8_char c ++ utf8_decode r.
Proof.
  pose proof (utf8_char_ok_all c) as H. unfold utf8_char_ok in H.
  destruct (utf8_char c) as [|x [|y [|z w]]]; try discriminate; simpl.
  - destruct (lead x) as [[[[|k] lo] hi]|]; try discriminate. reflexivity.
  - destruct (lead x) as [[[[|[|k]] lo] hi]|]; try discriminate. rewrite H. reflexivity.
Qed.

Lemma utf8_decode_encode (s : string) : utf8_decode (utf8_encode s) = utf8_encode s.
Proof.
  induction s as [|c s IH]; [reflexivity|]. cbn [utf8_encode]. unfold utf8_decode at 1.
  now rewrite decode_utf8_char, IH.
Qed.

Lemma unquote_percent_encode_bytes (b : string) : unquote (percent_encode b) = utf8_decode b.
Proof.
  unfold unquote. destruct b as [|c b]; [reflexivity|].
  assert (Hp : has "%" (percent_encode (String c b)) = true).
  { cbn [percent_encode]. destruct (quote_byte_spec c) as (h1 & h2 & -> & _). reflexivity. }
  rewrite Hp, unquoted_parts_ascii by apply percent_encode_ascii.
  cbn [append]. now rewrite unquote_to_bytes_percent_encode.
Qed.

(** ** The query string does not reach the path *)

Section Suffixes.
Variable f : ascii -> bool.

Lemma str_forallb_impl (g : ascii -> bool) (s : string) :
  (forall c, f c = true -> g c = true) -> str_forallb f s = true -> str_forallb g s = true.
Proof.
  intros Hfg. induction s as [|c s IH]; simpl; [auto|].
  intros [Hc Hs]%andb_true_iff. now rewrite Hfg, IH.
Qed.

Lemma lstrip_c0_forall (s : string) : str_forallb f s = true -> str_forallb f (lstrip_c0 s) = true.
Proof.
  induction s as [|c s IH]; simpl; [auto|]. intros H.
  destruct (byte_in 0 32 c); [apply IH; now apply andb_true_iff in H as [_ H] | exact H].
Qed.

Lemma remove_unsafe_forall (s : string) :
  str_forallb f s = true -> str_forallb f (remove_unsafe s) = true.
Proof.
  induction s as [|c s IH]; simpl; [auto|]. intros [Hc Hs]%andb_true_iff.
  destruct (unsafe c); simpl; [auto | now rewrite Hc, IH].
Qed.

Lemma scheme_prefix_forall (s p r : string) :
  scheme_prefix s = Some (p, r) -> str_forallb f s = true -> str_forallb f r = true.
Proof.
  revert p. induction s as [|c s IH]; intros p; simpl; [discriminate|].
  intros E [_ Hs]%andb_true_iff.
  destruct (c =? ":")%char; [congruence|]. destruct (is_scheme_char c); [|discriminate].
  destruct (scheme_prefix s) as [[p' r']|] eqn:E'; [|discriminate].
  injection E as _ <-. exact (IH p' eq_refl Hs).
Qed.

Lemma split_scheme_forall (s : string) :
  str_forallb f s = true -> str_forallb f (snd (split_scheme s)) = true.
Proof.
  unfold split_scheme. destruct s as [|c s]; [auto|]. intros H.
  destruct (is_ascii_alpha c); [|exact H].
  destruct (scheme_prefix (String c s)) as [[p r]|] eqn:E; [|exact H].
  exact (scheme_prefix_forall _ _ _ E H).
Qed.

Lemma after_two_slashes_forall (s r : string) :
  after_two_slashes s = Some r -> str_forallb f s = true -> str_forallb f r = true.
Proof.
  destruct s as [|c1 [|c2 s]]; simpl; try discriminate.
  destruct ((c1 =? "/")%char && (c2 =? "/")%char); [|discriminate].
  intros [= <-] H. now apply andb_true_iff in H as [_ H]; apply andb_true_iff in H as [_ H].
Qed.

Lemma span_netloc_forall (s : string) :
  str_forallb f s = true -> str_forallb f (snd (span_netloc s)) = true.
Proof.
  induction s as [|c s IH]; simpl; [auto|]. intros H.
  destruct (_ || _); [exact H|]. destruct (span_netloc s) as [n r]. apply IH.
  now apply andb_true_iff in H as [_ H].
Qed.

Lemma partition_app (sep : ascii) (a s : string) :
  str_forallb (fun d => negb (d =? sep)%char) a = true ->
  partition sep (a ++ s) = (a ++ fst (partition sep s), snd (partition sep s)).
Proof.
  induction a as [|c a IH]; simpl; [now destruct (partition sep s)|].
  intros [Hc Ha]%andb_true_iff. apply negb_true_iff in Hc. rewrite Hc, IH by exact Ha. reflexivity.
Qed.

End Suffixes.

Definition qf_free (c : ascii) : bool := negb (c =? "?")%char && negb (c =? "#")%char.

Lemma lstrip_c0_query (t q : string) :
  lstrip_c0 (t ++ String "?" q) = lstrip_c0 t ++ String "?" q.
Proof. induction t as [|c t IH]; simpl; [reflexivity|]. now destruct (byte_in 0 32 c). Qed.

Lemma remove_unsafe_app (s t : string) : remove_unsafe (s ++ t) = remove_unsafe s ++ remove_unsafe t.
Proof. induction s as [|c s IH]; simpl; [reflexivity|]. now destruct (unsafe c); rewrite IH. Qed.

Lemma scheme_prefix_query (t q : string) :
  scheme_prefix (t ++ String "?" q)
  = match scheme_prefix t with Some (p, r) => Some (p, r ++ String "?" q) | None => None end.
Proof.
  induction t as [|c t IH]; simpl; [reflexivity|].
  destruct (c =? ":")%char; [reflexivity|]. destruct (is_scheme_char c); [|reflexivity].
  rewrite IH. now destruct (scheme_prefix t) as [[p r]|].
Qed.

Lemma split_scheme_query (t q : string) :
  split_scheme (t ++ String "?" q) = (fst (split_scheme t), snd (split_scheme t) ++ String "?" q).
Proof.
  unfold split_scheme. destruct t as [|c t]; [reflexivity|]. cbn [append].
  destruct (is_ascii_alpha c); [|reflexivity].
  rewrite <- string_app_cons, scheme_prefix_query. now destruct (scheme_prefix (String c t)) as [[p r]|].
Qed.

Lemma after_two_slashes_query (r q : string) :
  after_two_slashes (r ++ String "?" q) = option_map (fun r0 => r0 ++ String "?" q) (after_two_slashes r).
Proof.
  destruct r as [|c1 [|c2 r]];
    [destruct q; reflexivity | simpl; now destruct (c1 =? "/")%char | simpl; now destruct (_ && _)].
Qed.

Lemma span_netloc_query (s q : string) :
  span_netloc (s ++ String "?" q) = (fst (span_netloc s), snd (span_netloc s) ++ String "?" q).
Proof.
  induction s as [|c s IH]; simpl; [reflexivity|].
  destruct (_ || _); [reflexivity|]. rewrite IH. now destruct (span_netloc s).
Qed.

(** The path [urlsplit] finds in [rr ++ "?" ++ q] is [rr]: the [#] is
    looked for first, but a [#] in the query only shortens the query. *)
Lemma split_fragment_query_path (sch nl rr q : string) :
  str_forallb qf_free rr = true ->
  path (split_fragment_query sch nl (rr ++ String "?" q)) = rr
  /\ path (split_fragment_query sch nl rr) = rr.
Proof.
  intros H. unfold split_fragment_query.
  assert (H1 : str_forallb (fun d => negb (d =? "#")%char) rr = true)
    by (eapply str_forallb_impl; [|exact H]; intros c [_ ?]%andb_true_iff; assumption).
  assert (H2 : str_forallb (fun d => negb (d =? "?")%char) rr = true)
    by (eapply str_forallb_impl; [|exact H]; intros c [? _]%andb_true_iff; assumption).
  pose proof (partition_app "#" rr EmptyString H1) as E1. rewrite !string_app_nil_r in E1.
  pose proof (partition_app "?" rr EmptyString H2) as E2. rewrite !string_app_nil_r in E2.
  rewrite partition_app, E1 by exact H1. simpl fst. simpl snd. rewrite E2. split; [|reflexivity].
  destruct (partition "#" q) as [b x]. simpl fst.
  rewrite partition_app by exact H2. simpl. now rewrite string_app_nil_r.
Qed.

Lemma split_fragment_query_head (sch nl u : string) :
  scheme (split_fragment_query sch nl u) = sch /\ netloc (split_fragment_query sch nl u) = nl.
Proof.
  unfold split_fragment_query. destruct (partition "#" u) as [u4 fr].
  destruct (partition "?" u4). split; reflexivity.
Qed.

Lemma remove_unsafe_query (t q : string) :
  remove_unsafe (t ++ String "?" q) = remove_unsafe t ++ String "?" (remove_unsafe q).
Proof. rewrite remove_unsafe_app. reflexivity. Qed.

Definition no_hash (c : ascii) : bool := negb (c =? "#")%char.

(** The end of [urlsplit] on [rr ++ "?" ++ q] with no [?] nor [#] in [rr]
    and no [#] in [q]: the path [rr] and the query [q]. *)
Lemma split_fragment_query_app (sch nl rr q : string) :
  str_forallb qf_free rr = true -> str_forallb no_hash q = true ->
  split_fragment_query sch nl (rr ++ String "?" q) = mk_split sch nl rr q EmptyString
  /\ split_fragment_query sch nl rr = mk_split sch nl rr EmptyString EmptyString.
Proof.
  intros H Hq. unfold split_fragment_query.
  assert (H1 : str_forallb no_hash rr = true)
    by (eapply str_forallb_impl; [|exact H]; intros c [_ ?]%andb_true_iff; assumption).
  assert (H2 : str_forallb (fun d => negb (d =? "?")%char) rr = true)
    by (eapply str_forallb_impl; [|exact H]; intros c [? _]%andb_true_iff; assumption).
  assert (H3 : str_forallb no_hash (rr ++ String "?" q) = true)
    by (rewrite str_forallb_app, H1; exact Hq).
  pose proof (partition_app "#" _ EmptyString H3) as E1. rewrite !string_app_nil_r in E1.
  pose proof (partition_app "#" rr EmptyString H1) as E1'. rewrite !string_app_nil_r in E1'.
  pose proof (partition_app "?" rr EmptyString H2) as E2. rewrite !string_app_nil_r in E2.
  rewrite E1, E1'. cbn [fst snd partition]. rewrite ?string_app_nil_r.
  rewrite partition_app by exact H2. rewrite E2. cbn [fst snd partition]. rewrite ?string_app_nil_r.
  split; reflexivity.
Qed.

(** [urlsplit] of a target with a query string: the split of the target
    without it, which has an empty query, with that query (its unsafe
    bytes removed). *)
Lemma urlsplit_query (t q : string) :
  str_forallb qf_free t = true -> str_forallb no_hash q = true ->
  urlsplit (t ++ String "?" q)
  = (u <- urlsplit t ;; Ok (mk_split (scheme u) (netloc u) (path u) (remove_unsafe q) EmptyString))
  /\ (forall u, urlsplit t = Ok u -> query u = EmptyString).
Proof.
  intros H Hq. unfold urlsplit.
  rewrite lstrip_c0_query, remove_unsafe_query.
  pose proof (remove_unsafe_forall _ _ (lstrip_c0_forall _ _ H)) as H1.
  pose proof (remove_unsafe_forall _ _ Hq) as Hq1.
  set (t1 := remove_unsafe (lstrip_c0 t)) in *. set (q1 := remove_unsafe q) in *.
  rewrite split_scheme_query. pose proof (split_scheme_forall _ _ H1) as Hr.
  destruct (split_scheme t1) as [sch r]. simpl fst in *. simpl snd in *.
  rewrite after_two_slashes_query.
  destruct (after_two_slashes r) as [r0|] eqn:Ea; simpl option_map.
  - pose proof (span_netloc_forall _ _ (after_two_slashes_forall _ _ _ Ea Hr)) as Hrr.
    rewrite span_netloc_query. destruct (span_netloc r0) as [nl rr]. simpl fst in *. simpl snd in *.
    destruct (split_fragment_query_app sch nl rr q1 Hrr Hq1) as [P1 P2].
    destruct (xorb _ _); [split; [reflexivity | discriminate]|].
    destruct (has "[" nl && has "]" nl); [destruct (check_bracketed_netloc nl)|]; simpl;
      [rewrite P1, P2 | split; [reflexivity | discriminate] | rewrite P1, P2];
      try (split; [reflexivity | intros u [= <-]; reflexivity]).
  - destruct (split_fragment_query_app sch EmptyString r q1 Hr Hq1) as [P1 P2].
    simpl. rewrite P1, P2; split; [reflexivity | intros u [= <-]; reflexivity].
Qed.

(** [QUERY_STRING] for a target with and without a query string. *)
Lemma query_string_app (t q p : string) :
  str_forallb qf_free t = true -> str_forallb no_hash q = true -> path_info t = Ok p ->
  query_string (t ++ String "?" q) = Ok (utf8_encode (remove_unsafe q))
  /\ query_string t = Ok EmptyString.
Proof.
  intros H Hq P. destruct (urlsplit_query t q H Hq) as [E Q].
  unfold path_info in P. unfold query_string. rewrite E.
  destruct (urlsplit t) as [u|e]; [|discriminate]. cbn [bind query]. rewrite (Q u eq_refl).
  split; reflexivity.
Qed.

Lemma query_string_ok (t p : string) : path_info t = Ok p -> exists q, query_string t = Ok q.
Proof.
  unfold path_info, query_string. destruct (urlsplit t); [intros _; eexists; reflexivity | discriminate].
Qed.

(** [make_environ] gives the same [PATH_INFO] to a target with a query
    string as to the target without it. *)
Lemma path_info_query (t q : string) :
  str_forallb qf_free t = true -> path_info (t ++ String "?" q) = path_info t.
Proof.
  intros H. unfold path_info, urlsplit.
  rewrite lstrip_c0_query, remove_unsafe_query.
  pose proof (remove_unsafe_forall _ _ (lstrip_c0_forall _ _ H)) as H1.
  set (t1 := remove_unsafe (lstrip_c0 t)) in *. set (q1 := remove_unsafe q).
  rewrite split_scheme_query. pose proof (split_scheme_forall _ _ H1) as Hr.
  destruct (split_scheme t1) as [sch r]. simpl fst in *. simpl snd in *.
  rewrite after_two_slashes_query.
  destruct (after_two_slashes r) as [r0|] eqn:Ea; simpl option_map.
  - pose proof (span_netloc_forall _ _ (after_two_slashes_forall _ _ _ Ea Hr)) as Hrr.
    rewrite span_netloc_query. destruct (span_netloc r0) as [nl rr]. simpl fst in *. simpl snd in *.
    destruct (split_fragment_query_path sch nl rr q1 Hrr) as [P1 P2].
    destruct (xorb _ _); [reflexivity|].
    destruct (has "[" nl && has "]" nl); [destruct (check_bracketed_netloc nl); [|reflexivity]|];
      simpl; now rewrite !(proj1 (split_fragment_query_head _ _ _)),
                      !(proj2 (split_fragment_query_head _ _ _)), P1, P2.
  - destruct (split_fragment_query_path sch EmptyString r q1 Hr) as [P1 P2].
    simpl. now rewrite !(proj1 (split_fragment_query_head _ _ _)),
                       !(proj2 (split_fragment_query_head _ _ _)), P1, P2.
Qed.

Lemma remove_unsafe_id (s : string) :
  str_forallb (fun c => negb (unsafe c)) s = true -> remove_unsafe s = s.
Proof.
  induction s as [|c s IH]; simpl; [auto|]. intros [Hc Hs]%andb_true_iff.
  apply negb_true_iff in Hc. now rewrite Hc, IH.
Qed.

Definition netloc_char (c : ascii) : bool :=
  negb (c =? "/")%char && negb (c =? "?")%char && negb (c =? "#")%char.

Lemma span_netloc_all (s : string) : str_forallb netloc_char s = true -> span_netloc s = (s, EmptyString).
Proof.
  induction s as [|c s IH]; simpl; [auto|]. intros [Hc Hs]%andb_true_iff. unfold netloc_char in Hc.
  destruct (c =? "/")%char, (c =? "?")%char, (c =? "#")%char; try discriminate. simpl. now rewrite IH.
Qed.

(** A target [http://[h] whose host part has no closing bracket makes
    [urlsplit] raise [ValueError]. *)
Lemma urlsplit_open_bracket (h : string) :
  str_forallb (fun c => negb (unsafe c)) h = true -> str_forallb netloc_char h = true ->
  has "]" h = false -> urlsplit ("http://[" ++ h) = Raise (ValueError "Invalid IPv6 URL").
Proof.
  intros Hu Hn Hb. unfold urlsplit.
  change (lstrip_c0 ("http://[" ++ h)) with ("http://[" ++ h).
  change ("http://[" ++ h) with ("http://" ++ String "[" h).
  rewrite remove_unsafe_app.
  change (remove_unsafe (String "[" h)) with (String "[" (remove_unsafe h)).
  rewrite (remove_unsafe_id h Hu).
  change (remove_unsafe "http://") with "http://".
  change (split_scheme ("http://" ++ String "[" h)) with ("http"%string, "//" ++ String "[" h).
  cbv beta iota zeta.
  change (after_two_slashes ("//" ++ String "[" h)) with (Some (String "[" h)).
  cbn [option_map]. rewrite span_netloc_all by (simpl; exact Hn).
  change (has "[" (String "[" h)) with true. change (has "]" (String "[" h)) with (has "]" h).
  rewrite Hb. reflexivity.
Qed.

(** ** What [unquote] returns is valid UTF-8 *)























(** C23: [unquote] reads back the percent encoding of the UTF-8 bytes of
    any string: a path a client encodes byte by byte reaches [PATH_INFO]
    as its UTF-8 bytes. *)
Theorem unquote_utf8_roundtrip (s : string) :
  unquote (percent_encode (utf8_encode s)) = utf8_encode s.
Proof. now rewrite unquote_percent_encode_bytes, utf8_decode_encode. Qed.



End Url.
