(* ===== verification/App.v ===== *)
(** * App: the Flask application of src/app.py

    - [url_map] is the route table the two [@app.route] decorators build
      (lines 6 and 10), with the methods Flask and Werkzeug add to a rule
      ([HEAD] beside [GET], [OPTIONS] everywhere).
    - [index] (lines 7-8) renders the template [index.html]; the template
      folder is a [gmap] from names to sources.  A missing template raises
      [TemplateNotFound].
    - [update_data] (lines 11-16) reads the clock with [LocalTime.now],
      formats it with [Strftime.strftime] and answers [jsonify] of the
      two-item [dict].
    - [url_match] is Werkzeug's [MapAdapter.match] for this table: the
      path loses its leading slashes ([path_part]), static rules are
      matched, a rule for the path plus a slash gives a redirect there, and
      otherwise the match is retried with doubled slashes merged
      ([merge_slashes]), a match giving a redirect; failing that, 405 with
      the methods of the rules for the path, or 404.
    - [dispatch] is Flask's [full_dispatch_request] for this table: URL
      matching (404, 405, a redirect answered 308 whose location carries
      the request's [QUERY_STRING]), the automatic [OPTIONS] answer,
      [HEAD] served by the [GET] view without a body, and an unhandled
      exception turned into a 500 answer ([debug=False], line 19).  The
      [Allow] header lists the methods of the matching rules in the order
      the model collects them; Werkzeug collects them in a [set], whose
      order is not fixed by the code.

    - A method is one of the names Flask and Werkzeug treat specially or
      [Other name]; [redirect_then_match] shows that a redirect is never
      followed by another.

    The handlers are proved against the [LocalClock] interface; the
    theorems about a concrete wall clock use a fixed-offset zone. *)

From stdpp Require Import base gmap strings.
From Stdlib Require Import ZArith String Ascii List Bool.
From S2P Require Import Prelude Calendar LocalTime Strftime Json JsonRead.
Import ListNotations.

Local Open Scope string_scope.
Local Open Scope Z_scope.

Module App.
Import Calendar LocalTime Strftime Json JsonRead.

(** ** Requests and responses *)

Inductive method : Type := GET | HEAD | POST | PUT | DELETE | PATCH | OPTIONS | Other (name : string).

#[export] Instance method_eq_dec : EqDecision method.
Proof. solve_decision. Defined.

(** [req_query] is [QUERY_STRING]: Werkzeug's matcher reads it only to
    put it back on the location of a redirect. *)
Record request := Build_request {
  req_method : method;
  req_path : string;
  req_query : string;
  req_body : string
}.

(** A request whose target has no query string. *)
Abbreviation mk_request m p b := (Build_request m p EmptyString b).

(** The body of an answer: a rendered page, a JSON document, Werkzeug's
    error page for a status, a redirect, nothing ([OPTIONS]), or the
    answer to [HEAD]: the payload [GET] would have, whose length is sent
    and whose bytes are not ([Response.get_app_iter]). *)
Inductive payload : Type :=
| Html (s : string)
| JsonDoc (s : string)
| ErrorPage (code : Z)
| RedirectTo (location : string)
| NoBody
| HeadOf (p : payload).

Record response := mk_response {
  status : Z;
  mimetype : string;
  payload_of : payload;
  allow : list method
}.

(** ** The views *)

(** The template folder. *)
Definition templates := gmap string string.

Definition LF : ascii := ascii_of_nat 10.
Definition CR : ascii := ascii_of_nat 13.

(** Jinja's lexer on a template without Jinja syntax: the source split at
    [\r\n], [\r] and [\n], a last empty line dropped
    ([keep_trailing_newline=False]), the lines joined with [\n]. *)
Fixpoint split_lines (s : string) (cur : string) : list string :=
  match s with
  | EmptyString => [cur]
  | String c rest =>
      if (c =? CR)%char then
        match rest with
        | String c' rest' =>
            if (c' =? LF)%char then cur :: split_lines rest' "" else cur :: split_lines rest ""
        | EmptyString => cur :: split_lines rest ""
        end
      else if (c =? LF)%char then cur :: split_lines rest ""
      else split_lines rest (cur ++ String c "")
  end.

Definition drop_last_empty (lines : list string) : list string :=
  match rev lines with
  | "" :: rest => rev rest
  | _ => lines
  end.

Definition render_static (src : string) : string :=
  join (String LF "") (drop_last_empty (split_lines src "")).

(** What a static template renders to, said directly: each [\r\n] and
    each [\r] becomes [\n], and one final [\n] is dropped. *)
Fixpoint normalize_newlines (s : string) : string :=
  match s with
  | EmptyString => EmptyString
  | String c rest =>
      if (c =? CR)%char then
        match rest with
        | String c' rest' =>
            if (c' =? LF)%char then String LF (normalize_newlines rest')
            else String LF (normalize_newlines rest)
        | EmptyString => String LF EmptyString
        end
      else String c (normalize_newlines rest)
  end.

Fixpoint drop_final_LF (s : string) : string :=
  match s with
  | EmptyString => EmptyString
  | String c EmptyString => if (c =? LF)%char then EmptyString else s
  | String c rest => String c (drop_final_LF rest)
  end.

(** A line: no [\n] in it. *)
Fixpoint no_LF (s : string) : bool :=
  match s with
  | EmptyString => true
  | String c rest => negb (c =? LF)%char && no_LF rest
  end.

(** [render_template(name)] *)
Definition render_template (tpl : templates) (name : string) : result string :=
  match tpl !! name with
  | Some src => Ok (render_static src)
  | None => Raise (TemplateNotFound name)
  end.

(** A view returning a string: Flask makes it a [text/html] answer. *)
Definition html_response (s : string) : response := mk_response 200 "text/html" (Html s) [].

(** [jsonify(dict)] with [debug=False]: compact JSON and a newline. *)
Definition jsonify (items : list (string * json)) : response :=
  mk_response 200 "application/json" (JsonDoc (dumps (JObj items) ++ String LF "")) [].

Local Open Scope web_scope.

(** [index] (lines 7-8). *)
Definition index (tpl : templates) : result response :=
  page <- render_template tpl "index.html" ;;
  Ok (html_response page).

(** The message of line 15. *)
Definition message_of (current_time : string) : string := "Data updated at " ++ current_time.

(** The items of the [dict] of lines 13-16 for a formatted time. *)
Definition update_items (current_time : string) : list (string * json) :=
  [("status", JStr "success"); ("message", JStr (message_of current_time))].

Section WithClock.
Context {C : LocalClock}.

(** [update_data] (lines 11-16): [ns] is the system clock when line 12
    runs. *)
Definition update_data (ns : Z) : result response :=
  dt <- now ns ;;
  let current_time := strftime "%Y-%m-%d %H:%M:%S" dt in
  Ok (jsonify (update_items current_time)).

End WithClock.

(** ** The route table *)

Inductive endpoint : Type := Index | UpdateData.

Record rule := mk_rule {
  rule_path : string;
  rule_methods : list method;
  rule_endpoint : endpoint
}.

(** [app.add_url_rule]: Flask adds [OPTIONS] ([provide_automatic_options])
    and Werkzeug's [Rule] adds [HEAD] beside [GET]. *)
Definition add_url_rule (path : string) (methods : list method) (ep : endpoint) : rule :=
  let methods := if decide (OPTIONS ∈ methods) then methods else (methods ++ [OPTIONS])%list in
  let methods := if decide (GET ∈ methods /\ HEAD ∉ methods) then (methods ++ [HEAD])%list
                 else methods in
  mk_rule path methods ep.

(** [@app.route('/')] (line 6, methods default to [GET]) and
    [@app.route('/update', methods=['POST'])] (line 10). *)
Definition url_map : list rule :=
  [add_url_rule "/" [GET] Index; add_url_rule "/update" [POST] UpdateData].

(** ** URL matching ([MapAdapter.match])

    Werkzeug first drops the leading slashes of the path and puts one back
    ([f"/{path_info.lstrip('/')}"]), then matches the static rules part by
    part: a rule of the path that accepts the method is the match; the
    methods of those that do not are collected for a 405 answer; a rule of
    the path with a slash added raises [SlashRequired] (a redirect).  When
    nothing matched, it tries again with doubled slashes merged
    ([re.sub("/{2,}?", "/", path)]): a match there is a redirect. *)

Fixpoint lstrip_slashes (s : string) : string :=
  match s with
  | String c rest => if (c =? "/")%char then lstrip_slashes rest else s
  | EmptyString => EmptyString
  end.

Definition path_part (path : string) : string :=
  match path with
  | EmptyString => EmptyString
  | _ => String "/" (lstrip_slashes path)
  end.

(** The lazy [/{2,}?] matches two slashes at a time: each [//] becomes
    [/], left to right, so [///] becomes [//]. *)
Fixpoint merge_slashes (s : string) : string :=
  match s with
  | String c rest =>
      match rest with
      | String c' r =>
          if (c =? "/")%char && (c' =? "/")%char then String "/" (merge_slashes r)
          else String c (merge_slashes rest)
      | EmptyString => s
      end
  | EmptyString => EmptyString
  end.

(** The method of the request; [None] is the method ["--"] that
    [allowed_methods] matches with, which no rule accepts. *)
Definition accepts (om : option method) (ms : list method) : bool :=
  match om with Some m => bool_decide (m ∈ ms) | None => false end.

(** [have_match_for.update(methods)]: a set of methods. *)
Definition add_methods (have ms : list method) : list method :=
  (have ++ filter (fun m => negb (bool_decide (m ∈ have))) ms)%list.

(** The rules of the path [p], in order: the first that accepts the
    method, and the methods of those before it that do not. *)
Fixpoint match_rules (rules : list rule) (p : string) (om : option method)
    (have : list method) : option rule * list method :=
  match rules with
  | [] => (None, have)
  | r :: rest =>
      if String.eqb (rule_path r) p then
        if accepts om (rule_methods r) then (Some r, have)
        else match_rules rest p om (add_methods have (rule_methods r))
      else match_rules rest p om have
  end.

Inductive pass_result : Type := PMatched (r : rule) | PSlash | PNone.

(** One pass of [StateMachineMatcher.match] on the path [p]. *)
Definition match_pass (rules : list rule) (p : string) (om : option method)
    (have : list method) : pass_result * list method :=
  match match_rules rules p om have with
  | (Some r, have') => (PMatched r, have')
  | (None, have') =>
      if existsb (fun r => String.eqb (rule_path r) (p ++ "/") && accepts om (rule_methods r))
           rules
      then (PSlash, have') else (PNone, have')
  end.

Inductive match_result : Type :=
| NotFound
| MethodNotAllowed (valid : list method)
| Matched (r : rule)
| Redirect (location : string).

Definition url_match (rules : list rule) (path : string) (om : option method) : match_result :=
  let p := path_part path in
  match match_pass rules p om [] with
  | (PMatched r, _) => Matched r
  | (PSlash, _) => Redirect (p ++ "/")
  | (PNone, have) =>
      let p' := merge_slashes p in
      match match_pass rules p' om have with
      | (PMatched _, _) => Redirect p'
      | (PSlash, _) => Redirect (p' ++ "/")
      | (PNone, have') => match have' with [] => NotFound | _ => MethodNotAllowed have' end
      end
  end.

(** [MapAdapter.allowed_methods]: matching with the method ["--"], the
    methods of the 405 it raises. *)
Definition allowed_methods (rules : list rule) (path : string) : list method :=
  match url_match rules path None with MethodNotAllowed valid => valid | _ => [] end.

(** ** Dispatch *)

Definition error_response (code : Z) (valid : list method) : response :=
  mk_response code "text/html" (ErrorPage code) valid.

(** [RequestRedirect]: 308 to [make_redirect_url(path, query_args)],
    whose [urlunsplit] adds [?] and the query string when it is not
    empty (the scheme and host come from the [Host] header, a parameter
    of [Response]). *)
Definition redirect_response (path query : string) : response :=
  mk_response 308 "text/html"
    (RedirectTo (match query with EmptyString => path | _ => path ++ String "?" query end)) [].

(** What a query string [q] changes in an answer: the location of a
    redirect (of [HEAD] too) gets [?q]; nothing else.  A description of
    [dispatch], not code. *)
Definition add_query (q : string) (r : response) : response :=
  let relocate (loc : string) := match q with EmptyString => loc | _ => loc ++ String "?" q end in
  mk_response (status r) (mimetype r)
    (match payload_of r with
     | RedirectTo loc => RedirectTo (relocate loc)
     | HeadOf (RedirectTo loc) => HeadOf (RedirectTo (relocate loc))
     | p => p
     end) (allow r).

(** Flask answers [HEAD] with the response of [GET]; the server then
    withholds its bytes ([Response.get_app_iter], modelled in
    [Response.wsgi_write]), which [HeadOf] records. *)
Definition strip_head (m : method) (r : response) : response :=
  if decide (m = HEAD) then mk_response (status r) (mimetype r) (HeadOf (payload_of r)) (allow r) else r.

Section Dispatch.
Context {C : LocalClock}.

Definition call_view (tpl : templates) (ep : endpoint) (ns : Z) : result response :=
  match ep with
  | Index => index tpl
  | UpdateData => update_data ns
  end.

(** [full_dispatch_request] for one request; [ns] is the clock when the
    view runs.  An exception a view raises becomes a 500 answer. *)
Definition dispatch (tpl : templates) (req : request) (ns : Z) : response :=
  strip_head (req_method req)
    match url_match url_map (req_path req) (Some (req_method req)) with
    | NotFound => error_response 404 []
    | MethodNotAllowed valid => error_response 405 valid
    | Redirect location => redirect_response location (req_query req)
    | Matched r =>
        if decide (req_method req = OPTIONS) then
          mk_response 200 "text/html" NoBody (allowed_methods url_map (req_path req))
        else
          match call_view tpl (rule_endpoint r) ns with
          | Ok resp => resp
          | Raise _ => error_response 500 []
          end
    end.

End Dispatch.

(** ** Rendering a static template *)

Lemma split_lines_cons (s cur : string) : exists x l, split_lines s cur = x :: l.
Proof.
  revert cur. induction s as [|c s IH]; intros cur; simpl; [eauto|].
  destruct (c =? CR)%char; [destruct s as [|c' s]; [eauto|destruct (c' =? LF)%char; eauto]|].
  destruct (c =? LF)%char; eauto.
Qed.

Lemma join_cons (x : string) (l : list string) :
  l <> [] -> join (String LF "") (x :: l) = x ++ String LF (join (String LF "") l).
Proof. destruct l; [contradiction | reflexivity]. Qed.

Lemma join_split_lines_cons (s cur : string) :
  join (String LF "") (cur :: split_lines s "") = cur ++ String LF (join (String LF "") (split_lines s "")).
Proof. destruct (split_lines_cons s "") as (x & l & ->). reflexivity. Qed.

(** Splitting and joining again normalises the newlines. *)
Lemma join_split_lines (n : nat) (s cur : string) :
  (String.length s <= n)%nat ->
  join (String LF "") (split_lines s cur) = cur ++ normalize_newlines s.
Proof.
  revert s cur. induction n as [|n IH]; intros [|c s] cur Hn; simpl in Hn;
    try lia; try (simpl; symmetry; apply string_app_nil_r).
  cbn [split_lines normalize_newlines].
  destruct (c =? CR)%char.
  - destruct s as [|c' s].
    + reflexivity.
    + simpl in Hn. destruct (c' =? LF)%char; rewrite join_split_lines_cons, IH by (simpl; lia);
        reflexivity.
  - destruct (Ascii.eqb_spec c LF) as [->|].
    + rewrite join_split_lines_cons, IH by lia. reflexivity.
    + rewrite IH by lia. rewrite string_app_assoc. reflexivity.
Qed.

Lemma no_LF_app (a b : string) : no_LF (a ++ b) = no_LF a && no_LF b.
Proof. induction a as [|c a IH]; simpl; [reflexivity|]. rewrite IH, andb_assoc. reflexivity. Qed.

(** The lines of the split have no [\n]. *)
Lemma split_lines_no_LF (n : nat) (s cur : string) :
  (String.length s <= n)%nat -> no_LF cur = true ->
  Forall (fun x => no_LF x = true) (split_lines s cur).
Proof.
  revert s cur. induction n as [|n IH]; intros [|c s] cur Hn Hc; simpl in Hn;
    try lia; try (repeat constructor; assumption).
  cbn [split_lines].
  destruct (c =? CR)%char.
  - destruct s as [|c2 s]; [repeat constructor; assumption|]. simpl in Hn.
    destruct (c2 =? LF)%char; constructor; auto; apply IH; auto; simpl; lia.
  - destruct (Ascii.eqb_spec c LF) as [->|Hne]; [constructor; auto; apply IH; auto; lia|].
    apply IH; [lia|]. rewrite no_LF_app, Hc. simpl.
    apply Ascii.eqb_neq in Hne. rewrite Hne. reflexivity.
Qed.

Lemma drop_final_LF_cons (c : ascii) (rest : string) :
  rest <> EmptyString -> drop_final_LF (String c rest) = String c (drop_final_LF rest).
Proof. destruct rest; [contradiction | reflexivity]. Qed.

Lemma drop_final_LF_snoc (t : string) : drop_final_LF (t ++ String LF "") = t.
Proof.
  induction t as [|c t IH]; [reflexivity|]. rewrite string_app_cons.
  rewrite drop_final_LF_cons, IH; [reflexivity|]. destruct t; discriminate.
Qed.

Lemma drop_final_LF_line (x : string) :
  x <> EmptyString -> no_LF x = true -> drop_final_LF x = x.
Proof.
  induction x as [|c x IH]; intros Hx Hn; [contradiction|].
  simpl in Hn. apply andb_true_iff in Hn as [Hc Hn]. destruct x as [|c' x].
  - simpl. apply negb_true_iff in Hc. rewrite Hc. reflexivity.
  - rewrite drop_final_LF_cons, IH by (exact Hn || discriminate). reflexivity.
Qed.

(** A text ending with a non-empty line keeps its last character. *)
Lemma drop_final_LF_keep (t x : string) :
  x <> EmptyString -> no_LF x = true -> drop_final_LF (t ++ x) = t ++ x.
Proof.
  intros Hx Hn. induction t as [|c t IH]; [exact (drop_final_LF_line x Hx Hn)|].
  rewrite string_app_cons. rewrite drop_final_LF_cons, IH; [reflexivity|].
  intros H. apply Hx. destruct t; [exact H | discriminate].
Qed.

Lemma join_snoc (l : list string) (x : string) :
  join (String LF "") (l ++ [x])
  = match l with [] => x | _ => join (String LF "") l ++ String LF x end.
Proof.
  induction l as [|y [|z l] IH]; [reflexivity | reflexivity |].
  rewrite <- app_comm_cons.
  change (join (String LF "") (y :: (z :: l) ++ [x]))
    with (y ++ String LF (join (String LF "") ((z :: l) ++ [x]))).
  rewrite IH. cbn [join]. rewrite string_app_assoc. reflexivity.
Qed.

(** Dropping a last empty line drops the last [\n]. *)
Lemma join_drop_last_empty (l : list string) :
  l <> [] -> Forall (fun x => no_LF x = true) l ->
  join (String LF "") (drop_last_empty l) = drop_final_LF (join (String LF "") l).
Proof.
  destruct l as [|y l] using rev_ind; [contradiction|]. clear IHl. intros _ HF.
  apply Forall_app in HF as [_ HF]. inversion HF as [|? ? Hy _]; subst.
  unfold drop_last_empty. rewrite rev_app_distr. cbn [rev app]. rewrite join_snoc.
  destruct y as [|c y].
  - rewrite rev_involutive. destruct l; [reflexivity|].
    rewrite drop_final_LF_snoc. reflexivity.
  - rewrite join_snoc. destruct l.
    + symmetry. apply drop_final_LF_line; [discriminate | exact Hy].
    + change (String LF (String c y)) with (String LF "" ++ String c y).
      rewrite <- string_app_assoc. symmetry. apply drop_final_LF_keep; [discriminate | exact Hy].
Qed.

Lemma drop_final_LF_empty (t : string) :
  drop_final_LF t = EmptyString <-> t = EmptyString \/ t = String LF EmptyString.
Proof.
  destruct t as [|c [|c' t]]; simpl.
  - tauto.
  - destruct (Ascii.eqb_spec c LF) as [->|Hne]; [tauto|].
    split; [discriminate | intros [H|H]; [discriminate | injection H; contradiction]].
  - split; [discriminate | intros [H|H]; discriminate].
Qed.

(** C25: Rendering a static template as Jinja does (split at [\r\n],
    [\r] and [\n], drop a last empty line, join with [\n]) normalises its
    newlines and drops one final newline; so the page is empty exactly
    when the template is empty or a single line break. *)
Theorem render_static_spec (src : string) :
  render_static src = drop_final_LF (normalize_newlines src)
  /\ (render_static src = EmptyString
      <-> normalize_newlines src = EmptyString
          \/ normalize_newlines src = String LF EmptyString).
Proof.
  assert (E : render_static src = drop_final_LF (normalize_newlines src)).
  { unfold render_static. destruct (split_lines_cons src "") as (x & l & Hs).
    rewrite join_drop_last_empty.
    - rewrite (join_split_lines (String.length src)) by lia. reflexivity.
    - rewrite Hs. discriminate.
    - apply (split_lines_no_LF (String.length src)); [lia | reflexivity]. }
  split; [exact E|]. rewrite E. apply drop_final_LF_empty.
Qed.

(** ** Properties of the application *)

(** *** Paths *)

Lemma lstrip_slashes_head (s : string) :
  lstrip_slashes s = EmptyString
  \/ exists c t, lstrip_slashes s = String c t /\ (c =? "/")%char = false.
Proof.
  induction s as [|c s IH]; simpl; [auto|].
  destruct (c =? "/")%char eqn:E; [exact IH | right; eauto].
Qed.

Lemma lstrip_slashes_idem (s : string) : lstrip_slashes (lstrip_slashes s) = lstrip_slashes s.
Proof.
  destruct (lstrip_slashes_head s) as [->|(c & t & -> & E)]; [reflexivity|]. simpl. rewrite E. reflexivity.
Qed.

Lemma lstrip_slashes_slash (t : string) : lstrip_slashes (String "/" t) = lstrip_slashes t.
Proof. reflexivity. Qed.

(** Werkzeug's normalisation is idempotent. *)
Lemma path_part_idem (path : string) : path_part (path_part path) = path_part path.
Proof.
  destruct path as [|c s]; [reflexivity|].
  unfold path_part. cbv iota beta. rewrite lstrip_slashes_slash, lstrip_slashes_idem. reflexivity.
Qed.

Fixpoint no_slash (s : string) : bool :=
  match s with
  | EmptyString => true
  | String c rest => negb (c =? "/")%char && no_slash rest
  end.

Lemma merge_slashes_cons (c : ascii) (t : string) :
  (c =? "/")%char = false -> merge_slashes (String c t) = String c (merge_slashes t).
Proof. intros E. destruct t; simpl; rewrite ?E; reflexivity. Qed.

Lemma merge_slashes_head (c : ascii) (t : string) :
  exists u, merge_slashes (String c t) = String c u.
Proof.
  destruct t as [|c' t]; [eexists; reflexivity|]. simpl.
  destruct (Ascii.eqb_spec c "/") as [->|]; [destruct (c' =? "/")%char|]; simpl; eexists; reflexivity.
Qed.

(** Merging keeps a string without slashes, and keeps slashes in a
    string with some. *)
Lemma merge_slashes_no_slash (n : nat) (s : string) :
  (String.length s <= n)%nat ->
  no_slash (merge_slashes s) = no_slash s /\ (no_slash s = true -> merge_slashes s = s).
Proof.
  revert s. induction n as [|n IH]; intros [|c s] Hn; simpl in Hn; try lia;
    try (split; [reflexivity | intros; reflexivity]).
  destruct (c =? "/")%char eqn:E.
  - destruct (merge_slashes_head c s) as (u & ->). simpl. rewrite E. simpl.
    split; [reflexivity | discriminate].
  - rewrite merge_slashes_cons by exact E. simpl. rewrite E. simpl.
    destruct (IH s ltac:(lia)) as [IH1 IH2]. rewrite IH1. split; [reflexivity|].
    intros H. rewrite (IH2 H). reflexivity.
Qed.

Lemma merge_slashes_nonempty (s : string) : s <> EmptyString -> merge_slashes s <> EmptyString.
Proof. destruct s as [|c [|c' s]]; simpl; [congruence | discriminate |]. case_if; discriminate. Qed.

(** The merged form of a normalised path. *)
Lemma merge_path_part (path : string) :
  path <> EmptyString -> merge_slashes (path_part path) = String "/" (merge_slashes (lstrip_slashes path)).
Proof.
  destruct path as [|c0 s0]; [congruence|]. intros _. unfold path_part.
  destruct (lstrip_slashes_head (String c0 s0)) as [->|(c & t & -> & E)]; [reflexivity|].
  simpl. rewrite E. reflexivity.
Qed.

Lemma app_slash_neq_update (q : string) : q ++ "/" <> "/update".
Proof.
  intros H. do 7 (destruct q as [|? q]; simpl in H; try discriminate H; injection H as _ H).
  destruct q; discriminate H.
Qed.

(** Merging the slashes of a normalised path that names no rule names no
    rule either: the merge redirect never fires for this route table. *)
Lemma merge_path_part_no_rule (path : string) :
  path <> EmptyString -> path_part path <> "/" -> path_part path <> "/update" ->
  merge_slashes (path_part path) <> "/" /\ merge_slashes (path_part path) <> "/update".
Proof.
  intros Hne H1 H2. rewrite (merge_path_part path Hne).
  assert (Hp : path_part path = String "/" (lstrip_slashes path)) by (destruct path; [congruence | reflexivity]).
  split; intros H; injection H as H.
  - destruct (lstrip_slashes path) eqn:L; [apply H1; rewrite Hp; reflexivity|].
    eapply merge_slashes_nonempty; [|exact H]. discriminate.
  - apply H2. rewrite Hp. f_equal.
    destruct (merge_slashes_no_slash (String.length (lstrip_slashes path)) (lstrip_slashes path)
                ltac:(lia)) as [N1 N2].
    rewrite <- H. symmetry. apply N2. rewrite <- N1, H. reflexivity.
Qed.

(** *** Matching *)

Lemma match_rules_none (rules : list rule) (q : string) (om : option method) (have : list method) :
  Forall (fun r => rule_path r <> q) rules -> match_rules rules q om have = (None, have).
Proof.
  intros HF. revert have. induction HF as [|r rest Hr _ IH]; intros have; [reflexivity|]. simpl.
  rewrite (proj2 (String.eqb_neq _ _) Hr). apply IH.
Qed.

Lemma match_pass_none (rules : list rule) (q : string) (om : option method) (have : list method) :
  Forall (fun r => rule_path r <> q /\ rule_path r <> q ++ "/") rules ->
  match_pass rules q om have = (PNone, have).
Proof.
  intros HF. unfold match_pass.
  rewrite match_rules_none by (eapply Forall_impl; [|exact HF]; intros r [Hr _]; exact Hr).
  replace (existsb _ rules) with false; [reflexivity|].
  induction HF as [|r rest [_ H] _ IH]; [reflexivity|]. simpl.
  rewrite (proj2 (String.eqb_neq _ _) H). exact IH.
Qed.

(** Matching depends on the method only through the rules it accepts. *)
Lemma url_match_ext (rules : list rule) (path : string) (om1 om2 : option method) :
  Forall (fun r => accepts om1 (rule_methods r) = accepts om2 (rule_methods r)) rules ->
  url_match rules path om1 = url_match rules path om2.
Proof.
  intros HF.
  assert (M : forall q have, match_rules rules q om1 have = match_rules rules q om2 have).
  { induction HF as [|r rest Hr _ IH]; intros q have; [reflexivity|]. simpl.
    rewrite Hr. destruct (String.eqb _ _), (accepts om2 (rule_methods r)); auto. }
  assert (E : forall q, existsb (fun r => String.eqb (rule_path r) q && accepts om1 (rule_methods r)) rules
                      = existsb (fun r => String.eqb (rule_path r) q && accepts om2 (rule_methods r)) rules).
  { intros q. clear M. induction HF as [|r rest Hr _ IH]; [reflexivity|]. simpl. rewrite Hr, IH. reflexivity. }
  unfold url_match, match_pass. rewrite M, E.
  destruct (match_rules rules (path_part path) om2 []) as [[r|] h]; [reflexivity|].
  destruct (existsb _ rules); [reflexivity|]. cbv iota beta zeta. rewrite M, E. reflexivity.
Qed.

(** Deciding the route of a known path and method. *)
Ltac route :=
  match goal with
  | |- context [url_match url_map ?p (Some ?m)] =>
      let r := eval vm_compute in (url_match url_map p (Some m)) in
      change (url_match url_map p (Some m)) with r
  end.

Lemma app_slash_neq_root (q : string) : q <> EmptyString -> q ++ "/" <> "/".
Proof.
  intros H E. destruct q as [|c q]; [congruence|].
  simpl in E. injection E as _ E. destruct q; discriminate.
Qed.

Lemma path_part_nonempty (path : string) : path <> EmptyString -> path_part path <> EmptyString.
Proof. destruct path; [congruence | discriminate]. Qed.

(** *** Redirects *)

(** The location a pass points to: the path itself for a match, the path
    and a slash for [SlashRequired]. *)
Definition pass_target (q : string) (pr : pass_result) : option string :=
  match pr with
  | PMatched _ => Some q
  | PSlash => Some (q ++ "/")
  | PNone => None
  end.

Lemma match_rules_some (rules : list rule) (q : string) (om : option method) (have : list method)
    (r : rule) (h : list method) :
  match_rules rules q om have = (Some r, h) ->
  In r rules /\ rule_path r = q /\ accepts om (rule_methods r) = true.
Proof.
  revert have. induction rules as [|r' rest IH]; intros have; simpl; [discriminate|].
  destruct (String.eqb_spec (rule_path r') q) as [Eq|_].
  - destruct (accepts om (rule_methods r')) eqn:A.
    + intros [= <- _]. auto.
    + intros H. destruct (IH _ H) as (? & ? & ?). auto.
  - intros H. destruct (IH _ H) as (? & ? & ?). auto.
Qed.

Lemma match_rules_found (rules : list rule) (q : string) (om : option method) (have : list method)
    (r : rule) :
  In r rules -> rule_path r = q -> accepts om (rule_methods r) = true ->
  exists r' h, match_rules rules q om have = (Some r', h).
Proof.
  revert have. induction rules as [|r' rest IH]; intros have Hin Hp Ha; [destruct Hin|]. simpl.
  destruct (String.eqb_spec (rule_path r') q) as [Eq|Ne].
  - destruct (accepts om (rule_methods r')) eqn:A; [eauto|].
    destruct Hin as [<-|Hin]; [congruence | eauto].
  - destruct Hin as [<-|Hin]; [congruence | eauto].
Qed.

(** The location a pass points to is the path of a rule that accepts the
    method. *)
Lemma match_pass_target (rules : list rule) (q : string) (om : option method) (have : list method)
    (pr : pass_result) (h : list method) (loc : string) :
  match_pass rules q om have = (pr, h) -> pass_target q pr = Some loc ->
  exists r, In r rules /\ rule_path r = loc /\ accepts om (rule_methods r) = true.
Proof.
  unfold match_pass. destruct (match_rules rules q om have) as [[r|] h'] eqn:E.
  - intros [= <- _] [= <-]. destruct (match_rules_some _ _ _ _ _ _ E) as (? & ? & ?). eauto.
  - destruct (existsb _ rules) eqn:X; intros [= <- _]; [|discriminate]. intros [= <-].
    apply existsb_exists in X as (r & Hin & Hr). apply andb_true_iff in Hr as [Hp Ha].
    apply String.eqb_eq in Hp. eauto.
Qed.

(** A rule path Werkzeug would normalise to itself is matched at the
    first pass. *)
Lemma url_match_rule_path (rules : list rule) (r : rule) (m : method) :
  In r rules -> path_part (rule_path r) = rule_path r -> accepts (Some m) (rule_methods r) = true ->
  exists r', url_match rules (rule_path r) (Some m) = Matched r'.
Proof.
  intros Hin Hp Ha. unfold url_match. rewrite Hp. unfold match_pass.
  destruct (match_rules_found rules (rule_path r) (Some m) [] r Hin eq_refl Ha) as (r' & h & ->). eauto.
Qed.

(** C8: Redirects never chain: when every rule path is its own
    normalised form, the location of a redirect is matched by the next
    request with the same method, so a client following redirects stops
    after one. *)
Theorem redirect_then_match (rules : list rule) (path loc : string) (m : method) :
  Forall (fun r => path_part (rule_path r) = rule_path r) rules ->
  url_match rules path (Some m) = Redirect loc ->
  exists r, url_match rules loc (Some m) = Matched r.
Proof.
  intros HF. unfold url_match at 1.
  assert (G : forall q have pr h, match_pass rules q (Some m) have = (pr, h) ->
                pass_target q pr = Some loc -> exists r, url_match rules loc (Some m) = Matched r).
  { intros q have pr h E T. destruct (match_pass_target _ _ _ _ _ _ _ E T) as (r & Hin & <- & Ha).
    apply url_match_rule_path; auto. exact (proj1 (Forall_forall _ _) HF r Hin). }
  destruct (match_pass rules (path_part path) (Some m) []) as [[r| |] have] eqn:E1; try discriminate.
  - intros [= <-]. exact (G _ _ _ _ E1 eq_refl).
  - destruct (match_pass rules (merge_slashes (path_part path)) (Some m) have) as [[r| |] h] eqn:E2.
    + intros [= <-]. exact (G _ _ _ _ E2 eq_refl).
    + intros [= <-]. exact (G _ _ _ _ E2 eq_refl).
    + destruct h; discriminate.
Qed.

Section Props.
Context {C : LocalClock}.

(** C26: [GET /] answers the rendered [index.html] when the template exists. *)
Theorem dispatch_get_index (tpl : templates) (src body : string) (ns : Z) :
  tpl !! "index.html" = Some src ->
  dispatch tpl (mk_request GET "/" body) ns = html_response (render_static src).
Proof.
  intros H. unfold dispatch, call_view, index, render_template. cbn [req_method req_path].
  route. rewrite H. reflexivity.
Qed.

(** C5: A missing [index.html] is not a start-up failure: the server runs and
    each [GET /] answers 500 ([TemplateNotFound] at request time). *)
Theorem dispatch_index_missing (tpl : templates) (body : string) (ns : Z) :
  tpl !! "index.html" = None ->
  dispatch tpl (mk_request GET "/" body) ns = error_response 500 [].
Proof.
  intros H. unfold dispatch, call_view, index, render_template. cbn [req_method req_path].
  route. rewrite H. reflexivity.
Qed.

(** [POST /update] answers [jsonify] of the two items with the time [now]
    reads, or 500 when [now] raises. *)
Lemma dispatch_post_update (tpl : templates) (q body : string) (ns : Z) :
  dispatch tpl (Build_request POST "/update" q body) ns
  = match now ns with
    | Ok dt => jsonify (update_items (strftime FORMAT dt))
    | Raise _ => error_response 500 []
    end.
Proof.
  unfold dispatch, call_view, update_data. cbn [req_method req_path]. route. cbv iota beta.
  destruct (now ns); reflexivity.
Qed.

(** The body [jsonify] writes reads back as the [dict] with sorted keys. *)
Lemma jsonify_loads (items : list (string * json)) :
  payload_of (jsonify items) = JsonDoc (dumps (JObj items) ++ String LF "")
  /\ loads (dumps (JObj items) ++ String LF "") = Some (norm (JObj items)).
Proof.
  split; [reflexivity|]. unfold loads. rewrite parse_value_dumps; [reflexivity|].
  pose proof (size_le_dumps (JObj items)). unfold loads_fuel. rewrite string_length_app. lia.
Qed.

(** C1: The contract of [POST /update] for any clock: either
    [datetime.now()] returns, and the answer is a 200 [application/json]
    document that reads back as an object with exactly the two fields
    [message] (the text and a timestamp of the shape
    [dddd-dd-dd dd:dd:dd]) and [status] (["success"]); or it raises, and
    the answer is a 500 error. *)
Theorem post_update_contract (tpl : templates) (body : string) (ns : Z) :
  let r := dispatch tpl (mk_request POST "/update" body) ns in
  (exists dt, now ns = Ok dt /\ status r = 200 /\ mimetype r = "application/json"
     /\ matches TIMESTAMP_PATTERN (current_time dt) = true
     /\ exists doc, payload_of r = JsonDoc doc
        /\ loads doc = Some (JObj [("message", JStr ("Data updated at " ++ current_time dt));
                                   ("status", JStr "success")]))
  \/ (exists e, now ns = Raise e /\ r = error_response 500 []).
Proof.
  cbv zeta. rewrite dispatch_post_update. destruct (now ns) as [dt|e] eqn:N; [left | right; eauto].
  exists dt. do 3 (split; [reflexivity|]).
  split; [rewrite current_time_spec by exact (now_Ok_valid ns dt N); apply timestamp_of_matches|].
  destruct (jsonify_loads (update_items (strftime FORMAT dt))) as [P L].
  eexists. split; [exact P|]. rewrite L. reflexivity.
Qed.

(** C29: [HEAD] is answered on every path as [GET] is, without the body:
    the [GET] view runs for [/] (Werkzeug adds [HEAD] to the rule), and
    [/update], unknown paths and redirects give the same answers. *)
Theorem dispatch_head (tpl : templates) (path body : string) (ns : Z) :
  dispatch tpl (mk_request HEAD path body) ns
  = strip_head HEAD (dispatch tpl (mk_request GET path body) ns).
Proof.
  unfold dispatch. cbn [req_method req_path].
  rewrite (url_match_ext url_map path (Some HEAD) (Some GET)) by (repeat constructor).
  destruct (url_match url_map path (Some GET)); reflexivity.
Qed.

(** The query string reaches the answer only through the location of a
    redirect: the views never read it. *)
Lemma dispatch_query (tpl : templates) (m : method) (p q body : string) (ns : Z) :
  dispatch tpl (Build_request m p q body) ns = add_query q (dispatch tpl (mk_request m p body) ns).
Proof.
  unfold dispatch, strip_head. cbn [req_method req_path req_query].
  destruct (url_match url_map p (Some m)) as [|valid|r|loc];
    try (destruct (decide (m = HEAD)); reflexivity).
  destruct (decide (m = OPTIONS)); [destruct (decide (m = HEAD)); reflexivity|].
  destruct (call_view tpl (rule_endpoint r) ns) as [resp|] eqn:V;
    [|destruct (decide (m = HEAD)); reflexivity].
  assert (Hp : payload_of resp = Html (match tpl !! "index.html" with Some src => render_static src | None => "" end)
               \/ exists d, payload_of resp = JsonDoc d).
  { destruct (rule_endpoint r); unfold call_view, index, update_data, render_template in V.
    - left. destruct (tpl !! "index.html"); cbn [bind] in V; [injection V as <-; reflexivity | discriminate].
    - right. destruct (now ns); cbn [bind] in V; [injection V as <-; eexists; reflexivity | discriminate]. }
  destruct resp as [st mt pl al]. cbn [payload_of] in Hp.
  destruct Hp as [->|[d ->]]; destruct (decide (m = HEAD)); reflexivity.
Qed.

(** C27: Werkzeug ignores a doubled leading slash: [//p] is answered as
    [/p], for every method, query string and body (so [//update] is
    served by [update_data], not redirected, and any run of leading
    slashes answers as one). *)
Theorem dispatch_double_slash (tpl : templates) (m : method) (p q body : string) (ns : Z) :
  dispatch tpl (Build_request m (String "/" (String "/" p)) q body) ns
  = dispatch tpl (Build_request m (String "/" p) q body) ns.
Proof.
  assert (E : path_part (String "/" (String "/" p)) = path_part (String "/" p)) by reflexivity.
  unfold dispatch, allowed_methods, url_match. cbn [req_method req_path req_query].
  rewrite E. reflexivity.
Qed.

(** A path that names no rule once its leading slashes are dropped
    answers 404, whatever the method: neither the trailing-slash redirect
    nor the merge of doubled slashes applies. *)
Theorem dispatch_not_found (tpl : templates) (m : method) (path body : string) (ns : Z) :
  path <> "" -> path_part path <> "/" -> path_part path <> "/update" ->
  dispatch tpl (mk_request m path body) ns = strip_head m (error_response 404 []).
Proof.
  intros Hne H1 H2. destruct (merge_path_part_no_rule path Hne H1 H2) as [M1 M2].
  pose proof (path_part_nonempty path Hne) as P.
  pose proof (merge_slashes_nonempty _ P) as MP.
  unfold dispatch, url_match. cbn [req_path req_method].
  rewrite (match_pass_none url_map (path_part path)),
    (match_pass_none url_map (merge_slashes (path_part path))); [reflexivity| |];
    repeat constructor; cbn [rule_path url_map add_url_rule]; intros E; symmetry in E; revert E;
    first [assumption | apply app_slash_neq_update | apply app_slash_neq_root; assumption].
Qed.

(** C28: A method the rule of the path does not accept answers 405 with the
    methods it accepts. *)
Theorem dispatch_method_not_allowed (tpl : templates) (m : method) (body : string) (ns : Z) :
  (m ∉ [GET; OPTIONS; HEAD] ->
   dispatch tpl (mk_request m "/" body) ns = strip_head m (error_response 405 [GET; OPTIONS; HEAD]))
  /\ (m ∉ [POST; OPTIONS] ->
   dispatch tpl (mk_request m "/update" body) ns = strip_head m (error_response 405 [POST; OPTIONS])).
Proof.
  split; intros H; destruct m;
    try (exfalso; apply H; apply (bool_decide_unpack _); reflexivity); reflexivity.
Qed.

End Props.

(** C2: [POST /update] end to end, in a zone with a fixed offset [o] and for
    an instant whose wall time is in range: the answer is [jsonify] of
    [{"status": "success", "message": "Data updated at " + ts}], where
    [ts] has the shape [dddd-dd-dd dd:dd:dd] and reads back as the wall
    time [t + o], [t] the second of the clock as [PyTime_t] stores it. *)
Theorem post_update_fixed_offset (o ns : Z) (tpl : templates) (body : string) :
  let u := system_clock ns / 10 ^ 9 + o + EPOCH in
  2 * 86400 <= u < 3652060 * 86400 ->
  exists ts,
    @dispatch (zone_clock (fixed_offset o)) tpl (mk_request POST "/update" body) ns
      = jsonify [("status", JStr "success"); ("message", JStr ("Data updated at " ++ ts))]
    /\ matches TIMESTAMP_PATTERN ts = true
    /\ exists y m d hh mm ss,
         parse_timestamp ts = Some (y, m, d, hh, mm, ss)
         /\ ((ymd2ord y m d * 24 + hh) * 60 + mm) * 60 + ss = u.
Proof.
  intros u Hu. destruct (now_fixed_offset o ns Hu) as (dt & N & V & W & _).
  exists (strftime FORMAT dt). rewrite dispatch_post_update, N. split; [reflexivity|].
  change (strftime FORMAT dt) with (current_time dt). rewrite current_time_spec by exact V.
  split; [apply timestamp_of_matches|].
  exists (year dt), (month dt), (day dt), (hour dt), (minute dt), (second dt).
  split; [apply parse_timestamp_of; apply datetime_ok_ranges in V; tauto | exact W].
Qed.

(** ** Witnesses *)

(** A template folder with [index.html], and a UTC clock. *)
Definition sample_templates : templates :=
  <["index.html" := "<h1>Hello</h1>" ++ String LF ""]> ∅.

Definition utc : LocalClock := zone_clock (fixed_offset 0).

Lemma post_update_fixed_offset_witness :
  exists ts,
    @dispatch utc ∅ (mk_request POST "/update" "") (1762646400 * 10 ^ 9)
      = jsonify [("status", JStr "success"); ("message", JStr ("Data updated at " ++ ts))]
    /\ matches TIMESTAMP_PATTERN ts = true
    /\ exists y m d hh mm ss,
         parse_timestamp ts = Some (y, m, d, hh, mm, ss)
         /\ ((ymd2ord y m d * 24 + hh) * 60 + mm) * 60 + ss
            = system_clock (1762646400 * 10 ^ 9) / 10 ^ 9 + 0 + EPOCH.
Proof. apply (post_update_fixed_offset 0 (1762646400 * 10 ^ 9) ∅ ""). zconcrete. Defined.

Lemma dispatch_index_missing_witness :
  @dispatch utc ∅ (mk_request GET "/" "") 0 = error_response 500 [].
Proof. apply dispatch_index_missing. reflexivity. Defined.

Lemma dispatch_get_index_witness :
  @dispatch utc sample_templates (mk_request GET "/" "") 0
  = html_response (render_static ("<h1>Hello</h1>" ++ String LF "")).
Proof. apply dispatch_get_index. reflexivity. Defined.

Lemma dispatch_not_found_witness :
  @dispatch utc sample_templates (mk_request GET "/update/" "") 0
  = strip_head GET (error_response 404 []).
Proof. apply dispatch_not_found; discriminate. Defined.

Lemma dispatch_method_not_allowed_witness :
  @dispatch utc sample_templates (mk_request POST "/" "") 0
    = strip_head POST (error_response 405 [GET; OPTIONS; HEAD])
  /\ @dispatch utc sample_templates (mk_request GET "/update" "") 0
    = strip_head GET (error_response 405 [POST; OPTIONS]).
Proof.
  split; [apply (dispatch_method_not_allowed sample_templates POST "" 0)
         | apply (dispatch_method_not_allowed sample_templates GET "" 0)];
    match goal with |- ?P => apply (bool_decide_unpack P); vm_compute; exact I end.
Defined.

Lemma redirect_then_match_witness :
  url_match url_map "" (Some GET) = Redirect "/"
  /\ exists r, url_match url_map "/" (Some GET) = Matched r.
Proof.
  assert (H : Forall (fun r => path_part (rule_path r) = rule_path r) url_map).
  { apply Forall_forall. intros r Hr. simpl in Hr. destruct Hr as [<-|[<-|[]]]; reflexivity. }
  assert (R : url_match url_map "" (Some GET) = Redirect "/") by (vm_compute; reflexivity).
  split; [exact R | exact (redirect_then_match url_map "" "/" GET H R)].
Defined.

End App.
