(* ===== verification/Http.v ===== *)
(** * Http: from the bytes of a connection to [App.dispatch]

    [app.run] (line 19 of src/app.py) serves with Werkzeug's
    [WSGIRequestHandler], a [http.server.BaseHTTPRequestHandler].  For
    each connection Werkzeug's [handle_one_request] reads the request
    line; an empty read closes the connection; otherwise CPython's
    [parse_request] splits it into the command, the target and the
    version, answering a malformed line with [send_error] (400, or 505 for
    a version from 2.0 on), and a blank line with nothing; it then reads
    the headers with [http.client]'s [_read_headers], answering 431 when a
    line is longer than [_MAXLINE] or the lines are too many.  [run_wsgi]
    then builds the environ ([make_environ], [Url.path_info]), outside
    the handler of exceptions of the application: an exception there
    reaches [socketserver]'s [handle_error] and the connection closes
    without an answer.  Flask then dispatches on [request.method], the
    command in upper case, and the path.

    - An error is an [http_error]: what [send_error] is called with (the
      code, the message with [repr] of the offending word or line, the
      explanation) and the handler's [request_version] and [command] at
      that moment, which decide what [Response.send_error] writes.
    - [readline] is [rfile.readline(limit)]; [read_headers] is
      [_read_headers]; [parse_request] is CPython's [parse_request];
      [handle_one_request] is Werkzeug's, with [make_environ] and
      [App.dispatch] composed as [run_wsgi] composes them; [make_environ]
      gives [PATH_INFO] ([Url.path_info]) and [QUERY_STRING]
      ([Url.query_string]).  The header lines are read, counted and
      checked, not interpreted.  Werkzeug and [http.server] do interpret
      some: [Host] (a [400 BadHost] when its IDNA encoding fails),
      [Expect: 100-continue] (an interim [100 Continue] in HTTP/1.1),
      [Connection: Upgrade] with [Upgrade: websocket] (a [400] on these
      HTTP rules).  The theorems about answers therefore assume headers
      of none of these names ([inert_header]).
    - The theorems: [POST /update] with any query string, version 0.x or
      1.x, fewer than 100 inert headers and any body is answered with the
      JSON of [update_data]; a query string changes nothing but the
      location of a redirect, which carries it; a request line built from a
      command, a target and a version reads back as those three; a bad
      version is refused with 400 and one from 2.0 on with 505; a target
      with an unclosed bracket closes the connection with no answer; the
      path Werkzeug receives never starts with two slashes; 100 header
      lines or more, or one longer than 65534 characters, are refused
      with 431; the header loop stops after at most 101 lines on every
      stream. *)

From stdpp Require Import base strings pretty.
From Stdlib Require Import ZArith NArith String Ascii List Bool Lia.
From S2P Require Import Prelude LocalTime Strftime App Url.
Import ListNotations.

Local Open Scope string_scope.
Local Open Scope web_scope.

Module Http.
Import LocalTime Strftime App Url.

(** ** The request line *)

(** [str.isspace] on a character below 256: tab to carriage return, the
    separators [\x1c]-[\x1f], space, [\x85] and [\xa0]. *)
Definition is_space (c : ascii) : bool :=
  byte_in 9 13 c || byte_in 28 32 c || byte_in 133 133 c || byte_in 160 160 c.

(** [str.split()]: the runs of non-space characters; [cur] is the word
    read so far. *)
Fixpoint words_from (s cur : string) : list string :=
  match s with
  | EmptyString => if is_empty cur then [] else [cur]
  | String c rest =>
      if is_space c then
        if is_empty cur then words_from rest EmptyString
        else cur :: words_from rest EmptyString
      else words_from rest (cur ++ String c EmptyString)
  end.

Definition words (s : string) : list string := words_from s EmptyString.

Definition is_crlf (c : ascii) : bool := (code c =? 10)%N || (code c =? 13)%N.

(** [requestline.rstrip('\r\n')]. *)
Fixpoint rstrip_crlf (s : string) : string :=
  match s with
  | EmptyString => EmptyString
  | String c rest =>
      match rstrip_crlf rest with
      | EmptyString => if is_crlf c then EmptyString else String c EmptyString
      | r => String c r
      end
  end.

(** [str.isdigit] on a character below 256: the ASCII digits and the
    superscripts two, three and one. *)
Definition py_isdigit (c : ascii) : bool := is_ascii_digit c || byte_in 178 179 c || byte_in 185 185 c.

(** The version check of [parse_request]: [HTTP/], then
    [base_version_number.split(".")] must give two components of
    [isdigit] characters, at most ten each, and [int] of each (which
    refuses a superscript); any failure is a [ValueError] or an
    [IndexError]. *)
Definition parse_version (version : string) : option (N * N) :=
  if negb (String.prefix "HTTP/" version) then None else
  match split_on "." (substring 5 (String.length version - 5) version) with
  | [a; b] =>
      if negb (str_forallb py_isdigit a && negb (is_empty a)
               && str_forallb py_isdigit b && negb (is_empty b)) then None
      else if (10 <? String.length a)%nat || (10 <? String.length b)%nat then None
      else if str_forallb is_ascii_digit a && str_forallb is_ascii_digit b
      then Some (digits_value 10 0 a, digits_value 10 0 b)
      else None
  | _ => None
  end.

(** ** The messages of [send_error] *)

(** The quotes and the backslash, by their codes. *)
Definition DQUOTE : ascii := chr 34.
Definition SQUOTE : ascii := chr 39.
Definition BACKSLASH : ascii := chr 92.

(** [Py_hexdigits]: lower-case hexadecimal digits. *)
Definition hexdigit_lower (n : N) : ascii := if (n <? 10)%N then chr (48 + n) else chr (87 + n).

(** [Py_UNICODE_ISPRINTABLE] on a character below 256: not a control
    character ([Cc]), not the no-break space ([Zs]) and not the soft
    hyphen ([Cf]). *)
Definition py_printable (c : ascii) : bool :=
  negb (byte_in 0 31 c || byte_in 127 160 c || byte_in 173 173 c).

(** One character of [unicode_repr]: the quote and the backslash after a
    backslash, [\t], [\n], [\r], [\xhh] for the other characters that are
    not printable, and the character itself otherwise. *)
Definition repr_char (quote c : ascii) : string :=
  if (code c =? code quote)%N || (code c =? 92)%N then String BACKSLASH (String c EmptyString)
  else if (code c =? 9)%N then String BACKSLASH "t"
  else if (code c =? 10)%N then String BACKSLASH "n"
  else if (code c =? 13)%N then String BACKSLASH "r"
  else if negb (py_printable c) then
    String BACKSLASH (String "x" (String (hexdigit_lower (code c / 16))
                                   (String (hexdigit_lower (code c mod 16)) EmptyString)))
  else String c EmptyString.

Fixpoint repr_chars (quote : ascii) (s : string) : string :=
  match s with
  | EmptyString => EmptyString
  | String c rest => repr_char quote c ++ repr_chars quote rest
  end.

(** [repr(s)] ([%r]): in double quotes when [s] has a single quote and no
    double quote, in single quotes otherwise. *)
Definition py_repr (s : string) : string :=
  let quote := if has SQUOTE s && negb (has DQUOTE s)
               then DQUOTE else SQUOTE in
  String quote (repr_chars quote s ++ String quote EmptyString).

(** What [send_error] is called with, and the state of the handler when
    it runs: the code, the message, the explanation when one is given,
    [self.request_version] and [self.command]. *)
Record http_error := mk_error {
  err_code : Z;
  err_message : string;
  err_explain : option string;
  err_version : string;
  err_command : option string
}.

(** The version [parse_request] starts with, [default_request_version]. *)
Definition HTTP09 : string := "HTTP/0.9".

(** With three words or more, the last is the version: a bad one is
    answered 400, one from 2.0 on 505, each with its message.  With
    fewer, the version stays [HTTP/0.9]. *)
Definition check_version (ws : list string) : (Z * string) + string :=
  if (3 <=? length ws)%nat then
    let version := last ws EmptyString in
    match parse_version version with
    | None => inl (400%Z, "Bad request version (" ++ py_repr version ++ ")")
    | Some (major, _) =>
        if (2 <=? major)%N then
          inl (505%Z, "Invalid HTTP version (" ++ substring 5 (String.length version - 5) version ++ ")")
        else inr version
    end
  else inr HTTP09.

(** gh-87389: a path starting with [//] is reduced to one slash
    ([self.path = '/' + self.path.lstrip('/')]). *)
Definition reduce_slashes (path : string) : string :=
  if String.prefix "//" path then String "/" (lstrip_slashes path) else path.

(** What the request line leaves: nothing sent and [False] for a blank
    line, [send_error] and [False], or the command, the path and the
    version. *)
Inductive parse_result : Type :=
| NoWords
| SendError (e : http_error)
| Parsed (command path version : string).

(** [parse_request] after [words = requestline.split()]: an error found
    on the request line is sent before [self.command] is set, and with
    [self.request_version] still [HTTP/0.9] unless the version was
    valid. *)
Definition parse_words (requestline : string) (ws : list string) : parse_result :=
  match ws with
  | [] => NoWords
  | _ =>
      match check_version ws with
      | inl (code, msg) => SendError (mk_error code msg None HTTP09 None)
      | inr version =>
          match ws with
          | [command; path] =>
              if String.eqb command "GET" then Parsed command (reduce_slashes path) version
              else SendError (mk_error 400 ("Bad HTTP/0.9 request type (" ++ py_repr command ++ ")")
                                None version None)
          | [command; path; _] => Parsed command (reduce_slashes path) version
          | _ => SendError (mk_error 400 ("Bad request syntax (" ++ py_repr requestline ++ ")")
                              None version None)
          end
      end
  end.

(** ** The headers *)

Definition is_LF (c : ascii) : bool := (code c =? 10)%N.

(** [rfile.readline(limit)]: the characters up to and including the
    first LF, at most [limit] of them ([None]: no limit), and what
    remains of the stream. *)
Fixpoint readline (limit : option nat) (s : string) : string * string :=
  match s with
  | EmptyString => (EmptyString, EmptyString)
  | String c rest =>
      match limit with
      | Some O => (EmptyString, s)
      | _ =>
          if is_LF c then (String c EmptyString, rest)
          else let (l, r) := readline (option_map pred limit) rest in (String c l, r)
      end
  end.

(** [_MAXLINE] and [_MAXHEADERS] of [http.client]. *)
Definition MAXLINE : nat := 65536.
Definition MAXHEADERS : nat := 100.

Definition CRLF : string := String (chr 13) (String (chr 10) EmptyString).

(** [line in (b'\r\n', b'\n', b'')]. *)
Definition is_terminator (line : string) : bool :=
  String.eqb line CRLF || String.eqb line (String (chr 10) EmptyString) || is_empty line.

Inductive header_error : Type := LineTooLong | TooManyHeaders.

(** [http.client._read_headers]: each line is read with
    [readline(_MAXLINE + 1)]; a line longer than [_MAXLINE] raises
    [LineTooLong]; the line is kept, and more than [_MAXHEADERS] lines
    kept raise [HTTPException]; a blank line ends the headers, and what
    follows it is the body.  [k] is the number of lines that may still be
    kept, this one included: [_MAXHEADERS] for the first line. *)
Fixpoint read_headers_go (k : nat) (s : string) : header_error + string :=
  let (line, rest) := readline (Some (S MAXLINE)) s in
  if (MAXLINE <? String.length line)%nat then inl LineTooLong
  else match k with
       | O => inl TooManyHeaders
       | S k' => if is_terminator line then inr rest else read_headers_go k' rest
       end.

Definition read_headers (s : string) : header_error + string := read_headers_go MAXHEADERS s.

(** The loop of [_read_headers] as it is written: [while True] on fuel,
    [n] the length of the list [headers] before this line is appended;
    [None] when the fuel runs out. *)
Fixpoint read_headers_loop (fuel n : nat) (s : string) : option (header_error + string) :=
  match fuel with
  | O => None
  | S fuel' =>
      let (line, rest) := readline (Some (S MAXLINE)) s in
      if (MAXLINE <? String.length line)%nat then Some (inl LineTooLong)
      else if (MAXHEADERS <? S n)%nat then Some (inl TooManyHeaders)
      else if is_terminator line then Some (inr rest)
      else read_headers_loop fuel' (S n) rest
  end.

(** The message and the explanation ([str(err)]) of the 431 answer to
    [LineTooLong("header line")] and to [HTTPException("got more than
    %d headers")]. *)
Definition header_exc (e : header_error) : string * string :=
  match e with
  | LineTooLong =>
      ("Line too long", "got more than " ++ pretty (N.of_nat MAXLINE) ++ " bytes when reading header line")
  | TooManyHeaders => ("Too many headers", "got more than " ++ pretty (N.of_nat MAXHEADERS) ++ " headers")
  end.

(** [BaseHTTPRequestHandler.parse_request]: the request line, then the
    headers ([http.client.parse_headers]), whose errors are answered 431
    ([REQUEST_HEADER_FIELDS_TOO_LARGE]); with the stream after the
    headers. *)
Definition parse_request (raw rest : string) : parse_result * string :=
  let requestline := rstrip_crlf raw in
  match parse_words requestline (words requestline) with
  | Parsed c p v =>
      match read_headers rest with
      | inl e => let (msg, explain) := header_exc e in
                 (SendError (mk_error 431 msg (Some explain) v (Some c)), rest)
      | inr body => (Parsed c p v, body)
      end
  | r => (r, rest)
  end.

(** ** The method *)

Definition upper_char (c : ascii) : ascii := if byte_in 97 122 c then chr (code c - 32) else c.

Fixpoint upper (s : string) : string :=
  match s with
  | String c rest => String (upper_char c) (upper rest)
  | EmptyString => EmptyString
  end.

(** [request.method], [environ["REQUEST_METHOD"].upper()], as a
    [method].  Of the characters below 256 only the ASCII letters and
    the sharp s (as [SS]) upper-case to ASCII letters, and no method name has
    [SS], so [upper] on ASCII letters decides which name it is; [Other]
    keeps the command with its ASCII letters upper-cased. *)
Definition method_of_string (s : string) : method :=
  let u := upper s in
  if String.eqb u "GET" then GET
  else if String.eqb u "HEAD" then HEAD
  else if String.eqb u "POST" then POST
  else if String.eqb u "PUT" then PUT
  else if String.eqb u "DELETE" then DELETE
  else if String.eqb u "PATCH" then PATCH
  else if String.eqb u "OPTIONS" then OPTIONS
  else Other u.

(** ** One connection *)

(** What the server does with a connection: close it without a word,
    send the error of [parse_request], close it after an exception of
    [make_environ], or answer in the version of the request. *)
Inductive handled : Type :=
| Closed
| ErrorSent (e : http_error)
| Dropped (e : py_exc)
| Answered (command version : string) (resp : response).

Section Connection.
Context {C : LocalClock}.

(** Werkzeug's [handle_one_request] and [run_wsgi] on the bytes of a
    connection: the request line is [rfile.readline()], with no limit;
    what follows the headers is the body, which the views never read;
    [ns] is the clock when the view runs. *)
Definition handle_one_request (tpl : templates) (stream : string) (ns : Z) : handled :=
  let (raw, rest) := readline None stream in
  if is_empty raw then Closed else
  match parse_request raw rest with
  | (NoWords, _) => Closed
  | (SendError e, _) => ErrorSent e
  | (Parsed command target version, body) =>
      match path_info target with
      | Raise e => Dropped e
      | Ok p =>
          match query_string target with
          | Raise e => Dropped e
          | Ok q => Answered command version
                      (dispatch tpl (Build_request (method_of_string command) p q body) ns)
          end
      end
  end.

End Connection.

(** ** A request as a client writes it *)

(** The words joined by single spaces, then CRLF. *)
Definition request_line (ws : list string) : string := String.concat " " ws ++ CRLF.

(** Header lines, each ended by CRLF, then the blank line. *)
Fixpoint header_block (hs : list string) : string :=
  match hs with
  | [] => CRLF
  | h :: hs => h ++ CRLF ++ header_block hs
  end.

Definition message (ws hs : list string) (body : string) : string :=
  request_line ws ++ header_block hs ++ body.

Definition not_space (c : ascii) : bool := negb (is_space c).

Definition word_ok (w : string) : bool := negb (is_empty w) && str_forallb not_space w.

Definition no_LF (s : string) : bool := str_forallb (fun c => negb (is_LF c)) s.

(** A header line: not blank, no LF, short enough with its CRLF. *)
Definition header_ok (h : string) : bool :=
  negb (is_empty h) && no_LF h && (String.length h + 2 <=? MAXLINE)%nat.

(** The name of a header line for [email.parser]: what precedes its
    first [:]. *)
Definition header_name (h : string) : string := fst (partition ":" h).

(** A header line neither [http.server] nor Werkzeug acts on for the two
    rules of the application.  [Host] (the server name the URL adapter
    encodes with IDNA, [400 BadHost] when that fails), [Expect]
    ([100 Continue] before the answer), [Connection] and [Upgrade] (a
    WebSocket request, [400] on an HTTP rule) are interpreted, and that
    interpretation is not modelled; names compare case-insensitively. *)
Definition inert_header (h : string) : bool :=
  header_ok h
  && negb (existsb (String.eqb (lower (header_name h))) ["host"; "expect"; "connection"; "upgrade"]).

(** What [f] makes of the answer of a handled connection. *)
Definition map_answer (f : response -> response) (h : handled) : handled :=
  match h with
  | Answered c v r => Answered c v (f r)
  | h => h
  end.

(** ** Lemmas *)

Lemma inert_header_ok (hs : list string) :
  Forall (fun h => inert_header h = true) hs -> Forall (fun h => header_ok h = true) hs.
Proof. apply Forall_impl. intros h [H _]%andb_true_iff. exact H. Qed.


Lemma words_from_word (w s cur : string) :
  str_forallb not_space w = true -> words_from (w ++ s) cur = words_from s (cur ++ w).
Proof.
  revert cur. induction w as [|c w IH]; intros cur; simpl.
  - now rewrite string_app_nil_r.
  - intros [Hc Hw]%andb_true_iff. unfold not_space in Hc. apply negb_true_iff in Hc.
    rewrite Hc, IH by exact Hw. now rewrite string_app_assoc.
Qed.

Lemma words_from_concat (w : string) (ws : list string) (cur : string) :
  str_forallb not_space w = true -> is_empty (cur ++ w) = false ->
  Forall (fun w => word_ok w = true) ws ->
  words_from (String.concat " " (w :: ws)) cur = (cur ++ w) :: ws.
Proof.
  intros Hw Hne HF. revert w cur Hw Hne. induction HF as [|w2 ws Hw2 _ IH]; intros w cur Hw Hne.
  - simpl. rewrite <- (string_app_nil_r w) at 1. rewrite words_from_word by exact Hw.
    simpl. now rewrite Hne.
  - change (String.concat " " (w :: w2 :: ws)) with (w ++ String " " (String.concat " " (w2 :: ws))).
    rewrite words_from_word by exact Hw.
    change (words_from (String " " ?s) ?cur')
      with (if is_empty cur' then words_from s EmptyString else cur' :: words_from s EmptyString).
    rewrite Hne. apply andb_true_iff in Hw2 as [Hne2 Hw2]. apply negb_true_iff in Hne2.
    now rewrite IH.
Qed.

(** [str.split()] reads back the words a client joined with spaces. *)
Lemma words_unwords (ws : list string) :
  Forall (fun w => word_ok w = true) ws -> words (String.concat " " ws) = ws.
Proof.
  destruct 1 as [|w ws Hw HF]; [reflexivity|].
  apply andb_true_iff in Hw as [Hne Hw]. apply negb_true_iff in Hne.
  exact (words_from_concat w ws EmptyString Hw Hne HF).
Qed.

Lemma rstrip_crlf_CRLF (s : string) :
  str_forallb (fun c => negb (is_crlf c)) s = true -> rstrip_crlf (s ++ CRLF) = s.
Proof.
  induction s as [|c s IH]; [reflexivity|]. simpl.
  intros [Hc Hs]%andb_true_iff. rewrite IH by exact Hs. apply negb_true_iff in Hc.
  destruct s; [now rewrite Hc | reflexivity].
Qed.

Lemma unwords_no_crlf (ws : list string) :
  Forall (fun w => word_ok w = true) ws ->
  str_forallb (fun c => negb (is_crlf c)) (String.concat " " ws) = true.
Proof.
  assert (Hw : forall w, word_ok w = true -> str_forallb (fun c => negb (is_crlf c)) w = true).
  { intros w [_ H]%andb_true_iff. eapply str_forallb_impl; [|exact H].
    unfold not_space, is_space, is_crlf, byte_in. intros c.
    destruct (N.eqb_spec (code c) 10) as [->|]; [discriminate|].
    destruct (N.eqb_spec (code c) 13) as [->|]; [discriminate | reflexivity]. }
  induction 1 as [|w ws H1 HF IH]; [reflexivity|].
  destruct ws as [|w2 ws]; [exact (Hw w H1)|].
  change (String.concat " " (w :: w2 :: ws)) with (w ++ String " " (String.concat " " (w2 :: ws))).
  rewrite str_forallb_app, Hw by exact H1. exact IH.
Qed.

Lemma lstrip_slashes_query (t q : string) :
  lstrip_slashes (t ++ String "?" q) = lstrip_slashes t ++ String "?" q.
Proof. induction t as [|c t IH]; simpl; [reflexivity|]. now destruct (c =? "/")%char. Qed.

Lemma prefix_empty (x : string) : String.prefix EmptyString x = true.
Proof. now destruct x. Qed.

Lemma reduce_slashes_query (t q : string) :
  reduce_slashes (t ++ String "?" q) = reduce_slashes t ++ String "?" q.
Proof.
  unfold reduce_slashes.
  destruct t as [|c1 [|c2 t]]; rewrite ?string_app_cons; try change (EmptyString ++ ?x) with x;
    cbn [String.prefix]; [reflexivity|..].
  - destruct (ascii_dec "/" c1) as [<-|]; [|reflexivity].
    destruct (ascii_dec "/" "?") as [E|]; [discriminate E | reflexivity].
  - destruct (ascii_dec "/" c1) as [<-|]; [|reflexivity].
    destruct (ascii_dec "/" c2) as [<-|]; [|reflexivity].
    rewrite !lstrip_slashes_slash, lstrip_slashes_query. rewrite !(prefix_empty : forall x, String.prefix EmptyString x = true). reflexivity.
Qed.

Lemma lstrip_slashes_forall (f : ascii -> bool) (s : string) :
  str_forallb f s = true -> str_forallb f (lstrip_slashes s) = true.
Proof.
  induction s as [|c s IH]; simpl; [auto|]. intros H.
  destruct (c =? "/")%char; [apply IH; now apply andb_true_iff in H as [_ H] | exact H].
Qed.

Lemma reduce_slashes_qf_free (t : string) :
  str_forallb qf_free t = true -> str_forallb qf_free (reduce_slashes t) = true.
Proof.
  intros H. unfold reduce_slashes. destruct (String.prefix "//" t); [|exact H].
  simpl. exact (lstrip_slashes_forall _ _ H).
Qed.


Lemma word_ok_query (t q : string) :
  word_ok t = true -> str_forallb not_space q = true -> word_ok (t ++ String "?" q) = true.
Proof.
  unfold word_ok. intros [Ht Hs]%andb_true_iff Hq. rewrite str_forallb_app, Hs.
  cbn [str_forallb]. rewrite Hq. destruct t; [discriminate | reflexivity].
Qed.

Lemma prefix_slash_cons (c : ascii) (u : string) :
  (c =? "/")%char = false -> String.prefix "//" (String "/" (String c u)) = false.
Proof.
  intros Hc. cbn [String.prefix]. destruct (ascii_dec "/" "/") as [_|N]; [|now destruct N].
  destruct (ascii_dec "/" c) as [<-|]; [discriminate Hc | reflexivity].
Qed.

(** The path [parse_request] keeps never starts with two slashes. *)
Lemma reduce_slashes_single (t : string) : String.prefix "//" (reduce_slashes t) = false.
Proof.
  unfold reduce_slashes. destruct (String.prefix "//" t) eqn:E; [|exact E].
  destruct (lstrip_slashes_head t) as [->|(c & u & -> & Hc)]; [|exact (prefix_slash_cons c u Hc)].
  cbn [String.prefix]. destruct (ascii_dec "/" "/") as [_|N]; [reflexivity | now destruct N].
Qed.

Lemma not_space_unsafe (c : ascii) : not_space c = true -> negb (unsafe c) = true.
Proof.
  unfold not_space, is_space, unsafe, byte_in.
  destruct (N.eqb_spec (code c) 9) as [->|]; [discriminate|].
  destruct (N.eqb_spec (code c) 10) as [->|]; [discriminate|].
  destruct (N.eqb_spec (code c) 13) as [->|]; [discriminate | reflexivity].
Qed.


(** A request line a client writes is read as its words. *)
Lemma request_line_rstrip (ws : list string) :
  Forall (fun w => word_ok w = true) ws -> rstrip_crlf (request_line ws) = String.concat " " ws.
Proof. intros HF. unfold request_line. exact (rstrip_crlf_CRLF _ (unwords_no_crlf ws HF)). Qed.

(** The request line a client writes is read as its words. *)
Lemma parse_line (ws : list string) (rest : string) :
  Forall (fun w => word_ok w = true) ws ->
  parse_request (request_line ws) rest
  = match parse_words (String.concat " " ws) ws with
    | Parsed c p v =>
        match read_headers rest with
        | inl e => let (msg, explain) := header_exc e in
                   (SendError (mk_error 431 msg (Some explain) v (Some c)), rest)
        | inr body => (Parsed c p v, body)
        end
    | r => (r, rest)
    end.
Proof. intros HF. unfold parse_request. now rewrite request_line_rstrip, words_unwords. Qed.

Lemma readline_until (lim : option nat) (s t : string) :
  no_LF s = true -> match lim with Some m => (String.length s < m)%nat | None => True end ->
  readline lim (s ++ String (chr 10) t) = (s ++ String (chr 10) EmptyString, t).
Proof.
  revert lim. induction s as [|c s IH]; intros lim Hs Hl.
  - destruct lim as [[|m]|]; [simpl in Hl; lia | reflexivity | reflexivity].
  - change (no_LF (String c s)) with (negb (is_LF c) && no_LF s) in Hs.
    apply andb_true_iff in Hs as [Hc Hs]. apply negb_true_iff in Hc.
    rewrite !string_app_cons.
    destruct lim as [[|m]|]; simpl in Hl; [lia| |]; cbn [readline option_map pred];
      rewrite Hc, IH; auto; cbn [String.length] in Hl; lia.
Qed.

Lemma readline_min (m : nat) (h y : string) :
  no_LF h = true -> (Nat.min m (String.length h) <= String.length (fst (readline (Some m) (h ++ y))))%nat.
Proof.
  revert m. induction h as [|c h IH]; intros m Hh; [simpl; lia|].
  change (no_LF (String c h)) with (negb (is_LF c) && no_LF h) in Hh.
  apply andb_true_iff in Hh as [Hc Hh]. apply negb_true_iff in Hc.
  destruct m as [|m]; [simpl; lia|]. rewrite string_app_cons. cbn [readline option_map pred]. rewrite Hc.
  specialize (IH m Hh). destruct (readline (Some m) (h ++ y)) as [l r]. simpl in *. lia.
Qed.

Lemma is_space_LF (c : ascii) : not_space c = true -> is_LF c = false /\ is_crlf c = false.
Proof.
  unfold not_space, is_space, is_LF, is_crlf, byte_in.
  destruct (N.eqb_spec (code c) 10) as [->|]; [discriminate|].
  destruct (N.eqb_spec (code c) 13) as [->|]; [discriminate | auto].
Qed.

Lemma unwords_no_LF (ws : list string) :
  Forall (fun w => word_ok w = true) ws -> no_LF (String.concat " " ws ++ String (chr 13) EmptyString) = true.
Proof.
  intros HF. unfold no_LF. rewrite str_forallb_app. simpl. rewrite andb_true_r.
  eapply str_forallb_impl; [|exact (unwords_no_crlf ws HF)].
  intros c H. unfold is_crlf, is_LF in *. apply negb_true_iff in H. apply orb_false_iff in H as [H _].
  now rewrite H.
Qed.

Lemma readline_request_line (ws : list string) (rest : string) :
  Forall (fun w => word_ok w = true) ws ->
  readline None (request_line ws ++ rest) = (request_line ws, rest).
Proof.
  intros HF. unfold request_line, CRLF.
  replace ((String.concat " " ws ++ String (chr 13) (String (chr 10) EmptyString)) ++ rest)
    with ((String.concat " " ws ++ String (chr 13) EmptyString) ++ String (chr 10) rest)
    by (rewrite !string_app_assoc; reflexivity).
  rewrite readline_until by (exact (unwords_no_LF ws HF) || exact I).
  now rewrite string_app_assoc.
Qed.

Lemma request_line_nonempty (ws : list string) : is_empty (request_line ws) = false.
Proof. unfold request_line. now destruct (String.concat " " ws). Qed.

Lemma terminator_short (l : string) : is_terminator l = true -> (String.length l <= 2)%nat.
Proof.
  unfold is_terminator. intros H. apply orb_true_iff in H as [H|H]; [apply orb_true_iff in H as [H|H]|].
  - apply String.eqb_eq in H. subst. simpl. lia.
  - apply String.eqb_eq in H. subst. simpl. lia.
  - destruct l; [simpl; lia | discriminate].
Qed.

Lemma header_line (h rest : string) :
  header_ok h = true ->
  readline (Some (S MAXLINE)) (h ++ CRLF ++ rest) = (h ++ CRLF, rest)
  /\ (MAXLINE <? String.length (h ++ CRLF))%nat = false /\ is_terminator (h ++ CRLF) = false.
Proof.
  intros H. apply andb_true_iff in H as [H Hl]. apply andb_true_iff in H as [Hne Hh].
  apply Nat.leb_le in Hl. apply negb_true_iff in Hne.
  assert (E : h ++ CRLF ++ rest = (h ++ String (chr 13) EmptyString) ++ String (chr 10) rest)
    by (rewrite string_app_assoc; reflexivity).
  assert (Hh' : no_LF (h ++ String (chr 13) EmptyString) = true)
    by (unfold no_LF in *; rewrite str_forallb_app, Hh; reflexivity).
  rewrite E, readline_until by (exact Hh' || (rewrite string_length_app; simpl; lia)).
  rewrite string_app_assoc. split; [reflexivity|]. split.
  - apply Nat.ltb_ge. rewrite string_length_app. simpl. lia.
  - destruct (is_terminator (h ++ CRLF)) eqn:T; [|reflexivity].
    apply terminator_short in T. rewrite string_length_app in T.
    destruct h; [discriminate | simpl in T; lia].
Qed.

Lemma read_headers_go_eq (k : nat) (s : string) :
  read_headers_go k s
  = let (line, rest) := readline (Some (S MAXLINE)) s in
    if (MAXLINE <? String.length line)%nat then inl LineTooLong
    else match k with
         | O => inl TooManyHeaders
         | S k' => if is_terminator line then inr rest else read_headers_go k' rest
         end.
Proof. destruct k; reflexivity. Qed.

(** The headers a client writes are read through the blank line, when
    there are fewer of them than the lines [read_headers_go] may keep. *)
Lemma read_headers_block (k : nat) (hs : list string) (body : string) :
  Forall (fun h => header_ok h = true) hs ->
  read_headers_go k (header_block hs ++ body)
  = if (length hs <? k)%nat then inr body else inl TooManyHeaders.
Proof.
  intros HF. revert k. induction HF as [|h hs Hh _ IH]; intros k.
  - destruct k; reflexivity.
  - cbn [header_block length].
    replace ((h ++ CRLF ++ header_block hs) ++ body) with (h ++ CRLF ++ header_block hs ++ body)
      by (now rewrite !string_app_assoc).
    destruct (header_line h (header_block hs ++ body) Hh) as (R & L & T).
    rewrite read_headers_go_eq, R. cbv beta iota. rewrite L. destruct k as [|k]; [reflexivity|].
    rewrite T, IH. reflexivity.
Qed.

Lemma read_headers_loop_go (fuel n : nat) (s : string) :
  (n <= MAXHEADERS)%nat -> (MAXHEADERS - n < fuel)%nat ->
  read_headers_loop fuel n s = Some (read_headers_go (MAXHEADERS - n) s).
Proof.
  revert n s. induction fuel as [|fuel IH]; intros n s Hn Hf; [lia|].
  cbn [read_headers_loop]. rewrite read_headers_go_eq.
  destruct (readline (Some (S MAXLINE)) s) as [line rest].
  destruct (MAXLINE <? String.length line)%nat; [reflexivity|].
  destruct (Nat.ltb_spec MAXHEADERS (S n)) as [Hlt|Hge].
  - replace (MAXHEADERS - n)%nat with O by lia. reflexivity.
  - replace (MAXHEADERS - n)%nat with (S (MAXHEADERS - S n)) by lia.
    destruct (is_terminator line); [reflexivity|]. apply IH; lia.
Qed.

(** C32: The [while True] loop of [_read_headers] terminates on every
    stream: after at most [_MAXHEADERS + 1] lines it has returned the
    body or raised, and what it returns is [read_headers]. *)
Theorem read_headers_terminates (fuel : nat) (s : string) :
  (MAXHEADERS < fuel)%nat -> read_headers_loop fuel 0 s = Some (read_headers s).
Proof.
  intros Hf. unfold read_headers. rewrite <- (Nat.sub_0_r MAXHEADERS).
  apply read_headers_loop_go; lia.
Qed.

Lemma parse_message (ws hs : list string) (body : string) :
  Forall (fun w => word_ok w = true) ws -> Forall (fun h => header_ok h = true) hs ->
  (length hs < MAXHEADERS)%nat ->
  parse_request (request_line ws) (header_block hs ++ body)
  = match parse_words (String.concat " " ws) ws with
    | Parsed c p v => (Parsed c p v, body)
    | r => (r, header_block hs ++ body)
    end.
Proof.
  intros Hw Hh Hn. rewrite parse_line by exact Hw.
  destruct (parse_words _ ws); try reflexivity.
  unfold read_headers. rewrite read_headers_block by exact Hh.
  apply Nat.ltb_lt in Hn. now rewrite Hn.
Qed.

Lemma handle_line `{LocalClock} (tpl : templates) (ws : list string) (rest : string) (ns : Z) :
  Forall (fun w => word_ok w = true) ws ->
  handle_one_request tpl (request_line ws ++ rest) ns
  = match parse_request (request_line ws) rest with
    | (NoWords, _) => Closed
    | (SendError e, _) => ErrorSent e
    | (Parsed command target version, body) =>
        match path_info target with
        | Raise e => Dropped e
        | Ok p =>
            match query_string target with
            | Raise e => Dropped e
            | Ok q => Answered command version
                        (dispatch tpl (Build_request (method_of_string command) p q body) ns)
            end
        end
    end.
Proof.
  intros HF. unfold handle_one_request. rewrite readline_request_line by exact HF.
  now rewrite request_line_nonempty.
Qed.

Section Props.
Context {C : LocalClock}.

(** A three-word line whose version is 0.x or 1.x, with fewer than 100
    well-formed headers, reaches [dispatch] with the command, the
    [PATH_INFO] of its target and the body. *)
Lemma handle_three (tpl : templates) (c t v : string) (hs : list string) (body : string) (ns : Z)
    (major minor : N) :
  word_ok c = true -> word_ok t = true -> word_ok v = true ->
  parse_version v = Some (major, minor) -> (major < 2)%N ->
  Forall (fun h => header_ok h = true) hs -> (length hs < MAXHEADERS)%nat ->
  handle_one_request tpl (message [c; t; v] hs body) ns
  = match path_info (reduce_slashes t) with
    | Raise e => Dropped e
    | Ok p =>
        match query_string (reduce_slashes t) with
        | Raise e => Dropped e
        | Ok q => Answered c v (dispatch tpl (Build_request (method_of_string c) p q body) ns)
        end
    end.
Proof.
  intros Hc Ht Hv Hpv Hmaj Hh Hn. unfold message.
  rewrite handle_line, parse_message by (first [assumption | repeat constructor; assumption]).
  unfold parse_words, check_version. simpl. rewrite Hpv.
  replace (2 <=? major)%N with false by (symmetry; apply N.leb_gt; exact Hmaj). reflexivity.
Qed.

(** C7: A query string reaches the answer only through a redirect: the
    target [t?q] is answered as [t], for every command, version, headers
    and body, except that the [Location] of a redirect carries [?] and
    [QUERY_STRING], the UTF-8 bytes of [q] ([make_redirect_url]). *)
Theorem handle_query_redirect (tpl : templates) (c t q v : string) (hs : list string)
    (body : string) (ns : Z) :
  word_ok c = true -> word_ok t = true -> str_forallb not_space q = true -> word_ok v = true ->
  str_forallb qf_free t = true -> str_forallb no_hash q = true ->
  handle_one_request tpl (message [c; t ++ String "?" q; v] hs body) ns
  = map_answer (add_query (utf8_encode q)) (handle_one_request tpl (message [c; t; v] hs body) ns).
Proof.
  intros Hc Ht Hq Hv Hf Hh. unfold message.
  rewrite !handle_line by (repeat constructor; auto using word_ok_query).
  rewrite !parse_line by (repeat constructor; auto using word_ok_query).
  unfold parse_words, check_version. cbn [length last Nat.leb].
  destruct (parse_version v) as [[major minor]|]; [|reflexivity].
  destruct (N.leb _ major); [reflexivity|].
  destruct (read_headers (header_block hs ++ body)); [destruct (header_exc _); reflexivity|].
  rewrite reduce_slashes_query, path_info_query by exact (reduce_slashes_qf_free t Hf).
  destruct (path_info (reduce_slashes t)) as [p|e] eqn:P; [|reflexivity].
  destruct (query_string_app _ q p (reduce_slashes_qf_free t Hf) Hh P) as [Q1 Q2].
  rewrite Q1, Q2, remove_unsafe_id by exact (str_forallb_impl _ _ _ not_space_unsafe Hq).
  cbn [map_answer]. rewrite dispatch_query. reflexivity.
Qed.

(** C19: [parse_request] reads back a request as a client writes it: a
    command, a target and a version 0.x or 1.x, separated by spaces and
    ended by CRLF, then fewer than 100 header lines and the blank line,
    give those three, the target with a leading run of slashes reduced
    to one, and the body. *)
Theorem parse_request_roundtrip (c t v : string) (hs : list string) (body : string)
    (major minor : N) :
  word_ok c = true -> word_ok t = true -> word_ok v = true ->
  parse_version v = Some (major, minor) -> (major < 2)%N ->
  Forall (fun h => header_ok h = true) hs -> (length hs < MAXHEADERS)%nat ->
  parse_request (request_line [c; t; v]) (header_block hs ++ body) = (Parsed c (reduce_slashes t) v, body).
Proof.
  intros Hc Ht Hv Hpv Hmaj Hh Hn. rewrite parse_message by (first [assumption | repeat constructor; assumption]).
  unfold parse_words, check_version. simpl. rewrite Hpv.
  replace (2 <=? major)%N with false by (symmetry; apply N.leb_gt; exact Hmaj). reflexivity.
Qed.

(** [POST /update] at the wire, with any query string, version 0.x or
    1.x, fewer than 100 headers and any body. *)
Lemma handle_post_update (tpl : templates) (q v : string) (hs : list string) (body : string)
    (ns : Z) (major minor : N) :
  str_forallb not_space q = true -> word_ok v = true ->
  parse_version v = Some (major, minor) -> (major < 2)%N ->
  Forall (fun h => inert_header h = true) hs -> (length hs < MAXHEADERS)%nat ->
  handle_one_request tpl (message ["POST"; "/update" ++ String "?" q; v] hs body) ns
  = Answered "POST" v (match now ns with
                | Ok dt => jsonify (update_items (strftime FORMAT dt))
                | Raise _ => error_response 500 []
                end).
Proof.
  intros Hq Hv Hpv Hmaj Hh Hn. apply inert_header_ok in Hh.
  rewrite (handle_three tpl "POST" _ v hs body ns major minor); auto using word_ok_query.
  rewrite reduce_slashes_query, path_info_query by reflexivity.
  change (path_info (reduce_slashes "/update")) with (Ok (A := string) "/update").
  cbv iota. destruct (query_string_ok (reduce_slashes "/update" ++ String "?" q) "/update")
    as [qs ->]; [rewrite path_info_query; reflexivity|].
  change (method_of_string "POST") with POST. now rewrite dispatch_post_update.
Qed.

(** C6: At the wire, [POST /update] in version 0.x or 1.x, with any query
    string, fewer than 100 well-formed headers none of which is [Host],
    [Expect], [Connection] or [Upgrade], and any body, is answered in the
    version of the request with the JSON of [update_data] at the clock of
    the view, or 500 when [datetime.now()] raises. *)
Theorem wire_post_update (tpl : templates) (q v : string) (hs : list string) (body : string)
    (ns : Z) (major minor : N) :
  str_forallb not_space q = true -> word_ok v = true ->
  parse_version v = Some (major, minor) -> (major < 2)%N ->
  Forall (fun h => inert_header h = true) hs -> (length hs < MAXHEADERS)%nat ->
  handle_one_request tpl (message ["POST"; "/update" ++ String "?" q; v] hs body) ns
  = Answered "POST" v (match now ns with
                | Ok dt => jsonify (update_items (strftime FORMAT dt))
                | Raise _ => error_response 500 []
                end).
Proof. exact (handle_post_update tpl q v hs body ns major minor). Qed.

(** C20: The errors of the request line, as [send_error] receives
    them, whatever follows the line: with three words or more, a last
    word that is not a valid version is refused with 400 and one from
    2.0 on with 505, both while the version is still [HTTP/0.9]; four
    words or more with a valid 0.x or 1.x version are refused with 400
    in that version, quoting the whole line. *)
Theorem handle_version_errors (tpl : templates) (ws : list string) (rest : string) (ns : Z) :
  Forall (fun w => word_ok w = true) ws -> (3 <= length ws)%nat ->
  let v := last ws EmptyString in
  (parse_version v = None ->
     handle_one_request tpl (request_line ws ++ rest) ns
     = ErrorSent (mk_error 400 ("Bad request version (" ++ py_repr v ++ ")") None HTTP09 None))
  /\ (forall major minor, parse_version v = Some (major, minor) -> (2 <= major)%N ->
        handle_one_request tpl (request_line ws ++ rest) ns
        = ErrorSent (mk_error 505 ("Invalid HTTP version (" ++ substring 5 (String.length v - 5) v ++ ")")
                       None HTTP09 None))
  /\ (forall major minor, parse_version v = Some (major, minor) -> (major < 2)%N ->
        (4 <= length ws)%nat ->
        handle_one_request tpl (request_line ws ++ rest) ns
        = ErrorSent (mk_error 400 ("Bad request syntax (" ++ py_repr (String.concat " " ws) ++ ")")
                       None v None)).
Proof.
  intros HF Hlen v. rewrite handle_line by exact HF. rewrite parse_line by exact HF.
  unfold parse_words, check_version. apply Nat.leb_le in Hlen as Hle. rewrite Hle. fold v.
  destruct ws as [|w1 [|w2 [|w3 ws]]]; simpl in Hlen; try lia.
  split; [intros ->; reflexivity|]. split.
  - intros major minor -> H2. apply N.leb_le in H2. now rewrite H2.
  - intros major minor -> H2 H4. replace (2 <=? major)%N with false by (symmetry; apply N.leb_gt; exact H2).
    destruct ws; [simpl in H4; lia | reflexivity].
Qed.

(** C31: The header limits of [http.client]: a request with 100 header
    lines or more is refused with 431 (the blank line that ends the
    headers counts towards the limit of 100, so 99 is the most accepted),
    and so is one whose header line is longer than 65534 characters
    before its CRLF. *)
Theorem header_limits (tpl : templates) (c t v : string) (ns : Z) (major minor : N) :
  word_ok c = true -> word_ok t = true -> word_ok v = true ->
  parse_version v = Some (major, minor) -> (major < 2)%N ->
  (forall hs body, Forall (fun h => header_ok h = true) hs -> (MAXHEADERS <= length hs)%nat ->
     handle_one_request tpl (message [c; t; v] hs body) ns
     = ErrorSent (mk_error 431 "Too many headers" (Some "got more than 100 headers") v (Some c)))
  /\ (forall h rest, no_LF h = true -> (MAXLINE < String.length h + 2)%nat ->
        handle_one_request tpl (request_line [c; t; v] ++ h ++ CRLF ++ rest) ns
        = ErrorSent (mk_error 431 "Line too long"
                       (Some "got more than 65536 bytes when reading header line") v (Some c))).
Proof.
  intros Hc Ht Hv Hpv Hmaj.
  assert (L : forall rest e, read_headers rest = inl e ->
                handle_one_request tpl (request_line [c; t; v] ++ rest) ns
                = ErrorSent (mk_error 431 (fst (header_exc e)) (Some (snd (header_exc e))) v (Some c))).
  { intros rest e Hr. rewrite handle_line, parse_line by (repeat constructor; auto).
    unfold parse_words, check_version. simpl. rewrite Hpv.
    replace (2 <=? major)%N with false by (symmetry; apply N.leb_gt; exact Hmaj).
    rewrite Hr. now destruct (header_exc e). }
  split.
  - intros hs body Hh Hn. unfold message. rewrite (L _ TooManyHeaders); [reflexivity|]. unfold read_headers. rewrite read_headers_block by exact Hh.
    replace (length hs <? MAXHEADERS)%nat with false by (symmetry; apply Nat.ltb_ge; exact Hn). reflexivity.
  - intros h rest Hh Hl. rewrite (L _ LineTooLong); [reflexivity|]. unfold read_headers. rewrite read_headers_go_eq.
    destruct (Nat.lt_ge_cases (String.length h) MAXLINE) as [Hs|Hs].
    + assert (E : h ++ CRLF ++ rest = (h ++ String (chr 13) EmptyString) ++ String (chr 10) rest)
        by (rewrite string_app_assoc; reflexivity).
      rewrite E, readline_until.
      * replace (MAXLINE <? _)%nat with true; [reflexivity|].
        symmetry. apply Nat.ltb_lt. rewrite !string_length_app. simpl. lia.
      * unfold no_LF in *. rewrite str_forallb_app, Hh. reflexivity.
      * rewrite string_length_app. simpl. lia.
    + assert (Hh' : no_LF (h ++ String (chr 13) EmptyString) = true)
        by (unfold no_LF in *; rewrite str_forallb_app, Hh; reflexivity).
      pose proof (readline_min (S MAXLINE) _ (String (chr 10) rest) Hh') as M.
      rewrite string_length_app in M. cbn [String.length] in M.
      replace (h ++ CRLF ++ rest) with ((h ++ String (chr 13) EmptyString) ++ String (chr 10) rest)
        by (rewrite string_app_assoc; reflexivity).
      destruct (readline (Some (S MAXLINE)) _) as [line r]. cbn [fst] in M.
      replace (MAXLINE <? String.length line)%nat with true; [reflexivity|].
      symmetry. apply Nat.ltb_lt. lia.
Qed.

(** C22: The path [parse_request] hands on never starts with two slashes
    (gh-87389), so a browser cannot read it as a host. *)
Theorem parse_request_single_slash (raw rest c p v body : string) :
  parse_request raw rest = (Parsed c p v, body) -> String.prefix "//" p = false.
Proof.
  unfold parse_request.
  assert (K : forall c' p' v', parse_words (rstrip_crlf raw) (words (rstrip_crlf raw)) = Parsed c' p' v' ->
                String.prefix "//" p' = false).
  { unfold parse_words. intros c' p' v' H.
    destruct (words (rstrip_crlf raw)) as [|w1 ws]; [discriminate|].
    destruct (check_version (w1 :: ws)) as [[? ?]|]; [discriminate|].
    destruct ws as [|w2 [|w3 [|w4 ws]]]; try discriminate.
    - destruct (String.eqb w1 "GET"); [|discriminate]. injection H as _ <- _. apply reduce_slashes_single.
    - injection H as _ <- _. apply reduce_slashes_single. }
  destruct (parse_words (rstrip_crlf raw) (words (rstrip_crlf raw))) as [| |c' p' v'] eqn:E; try discriminate.
  destruct (read_headers rest); [destruct (header_exc _); discriminate|].
  intros [= _ <- _ _]. exact (K _ _ _ eq_refl).
Qed.

(** C21: A target [http://[h] whose host part never closes its bracket
    makes [make_environ] raise [ValueError] outside the handler of
    application errors: the connection is closed without any answer,
    not with an error response. *)
Theorem handle_open_bracket_dropped (tpl : templates) (c h v : string) (hs : list string)
    (body : string) (ns : Z) (major minor : N) :
  word_ok c = true -> word_ok v = true -> parse_version v = Some (major, minor) -> (major < 2)%N ->
  Forall (fun h => header_ok h = true) hs -> (length hs < MAXHEADERS)%nat ->
  str_forallb not_space h = true -> str_forallb netloc_char h = true -> has "]" h = false ->
  handle_one_request tpl (message [c; "http://[" ++ h; v] hs body) ns
  = Dropped (ValueError "Invalid IPv6 URL").
Proof.
  intros Hc Hv Hpv Hmaj Hh Hn Hs Hnl Hb.
  rewrite (handle_three tpl c _ v hs body ns major minor); auto.
  change (reduce_slashes ("http://[" ++ h)) with ("http://[" ++ h).
  unfold path_info. rewrite urlsplit_open_bracket; [reflexivity | | exact Hnl | exact Hb].
  exact (str_forallb_impl _ _ _ not_space_unsafe Hs).
Qed.

End Props.

(** ** Witnesses *)

Lemma read_headers_terminates_witness :
  read_headers_loop 101 0 (header_block ["A: b"] ++ "body") = Some (read_headers (header_block ["A: b"] ++ "body")).
Proof. apply read_headers_terminates. cbv; lia. Defined.

Lemma parse_request_roundtrip_witness :
  parse_request (request_line ["POST"; "//update"; "HTTP/1.1"]) (header_block ["Host: x"] ++ "b")
  = (Parsed "POST" "/update" "HTTP/1.1", "b").
Proof.
  exact (parse_request_roundtrip "POST" "//update" "HTTP/1.1" ["Host: x"] "b" 1 1
           eq_refl eq_refl eq_refl eq_refl eq_refl ltac:(repeat constructor)
           ltac:(cbv; lia)).
Defined.

Lemma wire_post_update_witness :
  handle_one_request (C := utc) ∅ (message ["POST"; "/update?id=7"; "HTTP/1.0"] ["Accept: */*"] "x") 0
  = Answered "POST" "HTTP/1.0" (match @now utc 0 with
                         | Ok dt => jsonify (update_items (strftime FORMAT dt))
                         | Raise _ => error_response 500 []
                         end).
Proof.
  exact (wire_post_update (C := utc) ∅ "id=7" "HTTP/1.0" ["Accept: */*"] "x" 0 1 0
           eq_refl eq_refl eq_refl eq_refl ltac:(repeat constructor) ltac:(cbv; lia)).
Defined.

(** [GET http://x?a=b]: the empty path is redirected to [/], and the
    location keeps the query. *)
Lemma handle_query_redirect_witness :
  handle_one_request (C := utc) ∅ (message ["GET"; "http://x?a=b"; "HTTP/1.1"] [] "") 0
  = map_answer (add_query (utf8_encode "a=b"))
      (handle_one_request (C := utc) ∅ (message ["GET"; "http://x"; "HTTP/1.1"] [] "") 0)
  /\ handle_one_request (C := utc) ∅ (message ["GET"; "http://x?a=b"; "HTTP/1.1"] [] "") 0
     = Answered "GET" "HTTP/1.1" (redirect_response "/" "a=b").
Proof.
  split.
  - exact (handle_query_redirect (C := utc) ∅ "GET" "http://x" "a=b" "HTTP/1.1" [] "" 0
             eq_refl eq_refl eq_refl eq_refl eq_refl eq_refl).
  - vm_compute. reflexivity.
Defined.

Lemma handle_version_errors_witness :
  handle_one_request (C := utc) ∅ (request_line ["GET"; "/"; "HTTP/2.0"] ++ "") 0
  = ErrorSent (mk_error 505 "Invalid HTTP version (2.0)" None HTTP09 None).
Proof.
  refine (proj1 (proj2 (handle_version_errors (C := utc) ∅ ["GET"; "/"; "HTTP/2.0"] "" 0 _ _)) 2%N 0%N eq_refl _).
  - repeat constructor.
  - simpl; lia.
  - lia.
Defined.

Lemma header_limits_witness :
  handle_one_request (C := utc) ∅ (message ["GET"; "/"; "HTTP/1.1"] (repeat "A: b" 100) "") 0
  = ErrorSent (mk_error 431 "Too many headers" (Some "got more than 100 headers") "HTTP/1.1" (Some "GET")).
Proof.
  refine (proj1 (header_limits (C := utc) ∅ "GET" "/" "HTTP/1.1" 0 1 1
                   eq_refl eq_refl eq_refl eq_refl ltac:(lia)) (repeat "A: b" 100) "" _ _).
  - apply Forall_forall. intros h Hh. apply repeat_spec in Hh. subst h. reflexivity.
  - rewrite repeat_length. unfold MAXHEADERS. lia.
Defined.

Lemma parse_request_single_slash_witness :
  parse_request (request_line ["GET"; "//evil.example/x"; "HTTP/1.1"]) CRLF
    = (Parsed "GET" "/evil.example/x" "HTTP/1.1", EmptyString)
  /\ String.prefix "//" "/evil.example/x" = false.
Proof.
  assert (H : parse_request (request_line ["GET"; "//evil.example/x"; "HTTP/1.1"]) CRLF
              = (Parsed "GET" "/evil.example/x" "HTTP/1.1", EmptyString)) by (vm_compute; reflexivity).
  split; [exact H | exact (parse_request_single_slash _ _ _ _ _ _ H)].
Defined.

Lemma handle_open_bracket_dropped_witness :
  handle_one_request (C := utc) ∅ (message ["GET"; "http://[::1"; "HTTP/1.1"] [] "") 0
  = Dropped (ValueError "Invalid IPv6 URL").
Proof.
  exact (handle_open_bracket_dropped (C := utc) ∅ "GET" "::1" "HTTP/1.1" [] "" 0 1 1
           eq_refl eq_refl eq_refl eq_refl (Forall_nil _) ltac:(cbv; lia) eq_refl eq_refl eq_refl).
Defined.

End Http.
