(* ===== verification/Response.v ===== *)
(** * Response: the bytes the development server writes back

    What a client of the server of line 19 of src/app.py receives on a
    connection, from what [Http.handle_one_request] decided.

    - [date_time_string] is [BaseHTTPRequestHandler.date_time_string]:
      [email.utils.formatdate(time.time(), usegmt=True)], the clock
      rounded to microseconds half to even as [datetime.fromtimestamp]
      rounds, broken down by [gmtime] ([LocalTime.zone_localtime] at
      offset 0), checked by the [datetime] constructor, and written as
      [Www, DD Mmm YYYY HH:MM:SS GMT].
    - [send_error] is [BaseHTTPRequestHandler.send_error]: its messages
      come from [Http] ([repr] of the offending word or line), its page is
      [DEFAULT_ERROR_MESSAGE] with [html.escape], UTF-8 encoded; the
      status line and the headers are skipped while the request version
      is still [HTTP/0.9].
    - [wsgi_write] is the [write] of Werkzeug's [run_wsgi]: the status
      line of [send_response] with Werkzeug's upper-case phrase, [Server],
      [Date], the headers of the [Response] ([entity]: [Content-Type],
      [Allow], [Content-Length]), [Connection: close], the blank line,
      and the body unless the command as written is [HEAD].
    - [connection_bytes] composes them with [handle_one_request]: the
      bytes the client reads, for a view run at one clock reading and an
      answer written at another.
    - [server_version] and the redirect page ([Location] and page of
      [werkzeug.utils.redirect], built from the [Host] header) are
      parameters: neither is fixed by the code.

    The theorems: [POST /update] receives exactly
    [HTTP/1.1 200 OK], [Server], [Date], [Content-Type: application/json],
    a [Content-Length] equal to the length of the JSON, [Connection:
    close] and the JSON ([post_update_bytes]); a request line with a bad
    version or one from 2.0 on is answered with the bare HTML page, no
    status line ([version_errors_bare]); no request line can put a line
    break into the status line of an error ([error_message_one_line]);
    [HEAD] receives the bytes of [GET] without the body ([head_bytes]),
    but a [head] in lower case receives the body
    ([lowercase_head_body]); the [Date] header parses back, with the
    name tables of RFC 9110 written out independently, as the UTC second
    of the clock with its weekday, and raises outside the years 1..9999,
    which the saturated [PyTime_t] clock never reaches
    ([date_header_roundtrip]). *)

From stdpp Require Import base strings pretty gmap.
From Stdlib Require Import ZArith NArith String Ascii List Bool Lia.
From S2P Require Import Prelude Calendar LocalTime Strftime Json App Url Http.
Import ListNotations.

Local Open Scope string_scope.
Local Open Scope Z_scope.

Module Response.
Import Calendar LocalTime Strftime Json App Url Http.

(** ** The [Date] header *)

(** [_PyTime_gmtime]: [gmtime_r], an [OSError] when the year does not fit
    a C [int]. *)
Definition gmtime (t : Z) : option tm := zone_localtime (fixed_offset 0) t.

Definition gmtime_exc : py_exc := OSError "Value too large for defined data type".

(** [datetime_from_timet_and_us] for [_PyTime_gmtime] and
    [tzinfo=timezone.utc]: no fold probe, and [timezone.utc.fromutc] adds
    a zero offset. *)
Definition utc_from_timet_and_us (timet us : Z) : result datetime :=
  match gmtime timet with
  | None => Raise gmtime_exc
  | Some r =>
      new_datetime (tm_year r + 1900) (tm_mon r + 1) (tm_mday r) (tm_hour r) (tm_min r)
                   (Z.min 59 (tm_sec r)) us 0
  end.

(** [_PyTime_Round(x, _PyTime_ROUND_HALF_EVEN)] of [n / d]. *)
Definition round_half_even (n d : Z) : Z :=
  let q := n / d in
  let r := n mod d in
  if 2 * r <? d then q else if d <? 2 * r then q + 1 else if Z.even q then q else q + 1.

(** [time.time()] in microseconds, as [datetime.fromtimestamp] reads the
    float: the reading [ns] of the system clock stored as [PyTime_t]
    ([LocalTime.system_clock], saturated), rounded half to even. *)
Definition timestamp_us (ns : Z) : Z := round_half_even (system_clock ns) 1000.

(** [datetime.weekday()]: [(toordinal() + 6) % 7], Monday is 0. *)
Definition weekday (dt : datetime) : Z := (ymd2ord (year dt) (month dt) (day dt) + 6) mod 7.

Definition WEEKDAYS : list string := ["Mon"; "Tue"; "Wed"; "Thu"; "Fri"; "Sat"; "Sun"].

Definition MONTHS : list string :=
  ["Jan"; "Feb"; "Mar"; "Apr"; "May"; "Jun"; "Jul"; "Aug"; "Sep"; "Oct"; "Nov"; "Dec"].

(** [email.utils._format_timetuple_and_zone(dt.timetuple(), 'GMT')]:
    ['%s, %02d %s %04d %02d:%02d:%02d %s']. *)
Definition format_gmt (dt : datetime) : string :=
  nth (Z.to_nat (weekday dt)) WEEKDAYS "" ++ ", " ++ pad_dec 2 (day dt) ++ " "
  ++ nth (Z.to_nat (month dt - 1)) MONTHS "" ++ " " ++ pad_dec 4 (year dt) ++ " "
  ++ pad_dec 2 (hour dt) ++ ":" ++ pad_dec 2 (minute dt) ++ ":" ++ pad_dec 2 (second dt)
  ++ " GMT".

(** [date_time_string()] with [timestamp=None]: [formatdate(time.time(),
    usegmt=True)], that is [format_datetime(datetime.fromtimestamp(t,
    timezone.utc), True)]. *)
Definition date_time_string (ns : Z) : result string :=
  let us := timestamp_us ns in
  (dt <- utc_from_timet_and_us (us / 10 ^ 6) (us mod 10 ^ 6) ;;
   Ok (format_gmt dt))%web.

(** ** The bytes of an answer *)

Definition NL : string := String (chr 10) EmptyString.
Definition DQ : string := String DQUOTE EmptyString.

(** [protocol_version]: Werkzeug's server is threaded ([app.run]'s
    default), so its handler speaks [HTTP/1.1]. *)
Definition PROTOCOL : string := "HTTP/1.1".

(** [send_response_only]: ["%s %d %s\r\n" % (protocol_version, code,
    message)]. *)
Definition status_line (code : Z) (message : string) : string :=
  PROTOCOL ++ " " ++ pretty code ++ " " ++ message ++ CRLF.

(** [send_header]: ["%s: %s\r\n" % (keyword, value)]. *)
Definition header_line (kv : string * string) : string := fst kv ++ ": " ++ snd kv ++ CRLF.

(** [BaseHTTPRequestHandler.responses] at the codes [parse_request]
    sends: the phrase and the description of [http.HTTPStatus]. *)
Definition responses (code : Z) : option (string * string) :=
  if code =? 400 then Some ("Bad Request", "Bad request syntax or unsupported method")
  else if code =? 431 then
    Some ("Request Header Fields Too Large",
          "The server is unwilling to process the request because its header fields are too large")
  else if code =? 505 then Some ("HTTP Version Not Supported", "Cannot fulfill request")
  else None.

(** [html.escape(s, quote=False)]: [&], [<] and [>] become entities;
    the three [replace] calls of [html.escape] amount to this map because
    the ampersand is replaced first. *)
Definition html_escape_char (c : ascii) : string :=
  if (c =? "&")%char then "&amp;"
  else if (c =? "<")%char then "&lt;"
  else if (c =? ">")%char then "&gt;"
  else String c EmptyString.

Fixpoint html_escape (s : string) : string :=
  match s with
  | EmptyString => EmptyString
  | String c rest => html_escape_char c ++ html_escape rest
  end.

(** [DEFAULT_ERROR_MESSAGE % {'code': code, 'message': message,
    'explain': explain}] of [http.server]. *)
Definition error_message_format (code : Z) (message explain : string) : string :=
  "<!DOCTYPE HTML>" ++ NL
  ++ "<html lang=" ++ DQ ++ "en" ++ DQ ++ ">" ++ NL
  ++ "    <head>" ++ NL
  ++ "        <meta charset=" ++ DQ ++ "utf-8" ++ DQ ++ ">" ++ NL
  ++ "        <title>Error response</title>" ++ NL
  ++ "    </head>" ++ NL
  ++ "    <body>" ++ NL
  ++ "        <h1>Error response</h1>" ++ NL
  ++ "        <p>Error code: " ++ pretty code ++ "</p>" ++ NL
  ++ "        <p>Message: " ++ message ++ ".</p>" ++ NL
  ++ "        <p>Error code explanation: " ++ pretty code ++ " - " ++ explain ++ ".</p>" ++ NL
  ++ "    </body>" ++ NL
  ++ "</html>" ++ NL.

(** [DEFAULT_ERROR_CONTENT_TYPE]. *)
Definition ERROR_CONTENT_TYPE : string := "text/html;charset=utf-8".

(** [HTTP_STATUS_CODES[code].upper()]: the status Werkzeug's [Response]
    carries, at the codes [App.dispatch] answers with. *)
Definition status_text (code : Z) : string :=
  if code =? 200 then "OK"
  else if code =? 308 then "PERMANENT REDIRECT"
  else if code =? 404 then "NOT FOUND"
  else if code =? 405 then "METHOD NOT ALLOWED"
  else if code =? 500 then "INTERNAL SERVER ERROR"
  else "UNKNOWN".

(** The [name] and [description] of Werkzeug's [NotFound],
    [MethodNotAllowed] and [InternalServerError]. *)
Definition exception_text (code : Z) : string * string :=
  if code =? 404 then
    ("Not Found", "The requested URL was not found on the server. If you entered the URL manually please check your spelling and try again.")
  else if code =? 405 then ("Method Not Allowed", "The method is not allowed for the requested URL.")
  else ("Internal Server Error", "The server encountered an internal error and was unable to complete your request. Either the server is overloaded or there is an error in the application.").

(** [HTTPException.get_body]. *)
Definition error_page (code : Z) : string :=
  let (name, description) := exception_text code in
  "<!doctype html>" ++ NL ++ "<html lang=en>" ++ NL
  ++ "<title>" ++ pretty code ++ " " ++ name ++ "</title>" ++ NL
  ++ "<h1>" ++ name ++ "</h1>" ++ NL
  ++ "<p>" ++ description ++ "</p>" ++ NL.

(** [Response.get_content_type]: a [text/] type gets the charset. *)
Definition content_type (mimetype : string) : string :=
  if String.prefix "text/" mimetype then mimetype ++ "; charset=utf-8" else mimetype.

Definition method_name (m : method) : string :=
  match m with
  | GET => "GET" | HEAD => "HEAD" | POST => "POST" | PUT => "PUT" | DELETE => "DELETE"
  | PATCH => "PATCH" | OPTIONS => "OPTIONS" | Other n => n
  end.

Section Bytes.

(** [version_string()], the [Server] header: [Werkzeug/<version>
    Python/<version>], fixed by the installed versions, not by the code. *)
Variable server_version : string.

(** The [Location] and the page of [werkzeug.utils.redirect] for a path:
    they hold the absolute URL built from the [Host] header. *)
Variable redirect_page : string -> string * string.

(** [BaseHTTPRequestHandler.send_error(code, message, explain)], run when
    the clock reads [ns]: the status line, [Server], [Date],
    [Connection: close], then for a code from 200 on (but 204, 205 and
    304) [Content-Type] and [Content-Length] of the error page; the blank
    line; and the page unless the command is [HEAD].  The status line and
    the headers are written only when the request version is not
    [HTTP/0.9]; [date_time_string] runs (and may raise) in every case. *)
Definition send_error (e : http_error) (ns : Z) : result string :=
  (date <- date_time_string ns ;;
   let code := err_code e in
   let '(shortmsg, longmsg) := match responses code with Some p => p | None => ("???", "???") end in
   let message := err_message e in
   let explain := match err_explain e with Some x => x | None => longmsg end in
   let has_body := (200 <=? code) && negb ((code =? 204) || (code =? 205) || (code =? 304)) in
   let body := utf8_encode (error_message_format code (html_escape message) (html_escape explain)) in
   let headers :=
     ([("Server", server_version); ("Date", date); ("Connection", "close")]
      ++ (if has_body then [("Content-Type", ERROR_CONTENT_TYPE);
                           ("Content-Length", pretty (N.of_nat (String.length body)))] else []))%list in
   Ok ((if String.eqb (err_version e) HTTP09 then EmptyString
        else status_line code message ++ String.concat "" (map header_line headers) ++ CRLF)
       ++ (if has_body && negb (bool_decide (err_command e = Some "HEAD")) then body else EmptyString)))%web.

(** The headers and the bytes of the body Werkzeug's [Response] holds
    for an answer of [App.dispatch]: [Content-Type], [Allow] when the
    answer has allowed methods, then [Content-Length] ([set_data] or
    [get_wsgi_headers]). *)
Fixpoint entity (mimetype : string) (allowed : list method) (p : payload)
    : list (string * string) * string :=
  let framed body :=
    (([("Content-Type", content_type mimetype)]
      ++ (match allowed with
          | [] => []
          | _ => [("Allow", String.concat ", " (map method_name allowed))]
          end)
      ++ [("Content-Length", pretty (N.of_nat (String.length body)))])%list, body) in
  match p with
  | Html s => framed (utf8_encode s)
  | JsonDoc s => framed (utf8_encode s)
  | ErrorPage code => framed (utf8_encode (error_page code))
  | NoBody => framed EmptyString
  | RedirectTo loc =>
      let (location, page) := redirect_page loc in
      ([("Content-Type", content_type mimetype);
        ("Content-Length", pretty (N.of_nat (String.length (utf8_encode page))));
        ("Location", location)], utf8_encode page)
  | HeadOf p => entity mimetype allowed p
  end.

(** [run_wsgi]'s [write] on the answer, run when the clock reads [ns]:
    [send_response] (status line, [Server], [Date]), the headers of the
    answer, [Connection: close], the blank line, then the body unless
    [environ["REQUEST_METHOD"]], the command as the client wrote it, is
    [HEAD] ([Response.get_app_iter]).  No answer lacks a
    [Content-Length], so none is chunked. *)
Definition wsgi_write (version command : string) (r : response) (ns : Z) : result string :=
  (date <- date_time_string ns ;;
   let (headers, body) := entity (mimetype r) (allow r) (payload_of r) in
   Ok ((if String.eqb version HTTP09 then EmptyString
        else status_line (status r) (status_text (status r))
             ++ String.concat "" (map header_line ([("Server", server_version); ("Date", date)]
                                                  ++ headers ++ [("Connection", "close")])%list)
             ++ CRLF)
       ++ (if String.eqb command "HEAD" then EmptyString else body)))%web.

Context {C : LocalClock}.

(** What the client reads on a connection: the view runs when the clock
    reads [ns], the answer is written when it reads [ns'].  Nothing when
    the connection is closed, when [make_environ] raised, or when writing
    raised: [run_wsgi] then retries with [InternalServerError], whose
    [Date] raises again, and the connection closes. *)
Definition connection_bytes (tpl : templates) (stream : string) (ns ns' : Z) : string :=
  match handle_one_request tpl stream ns with
  | Closed | Dropped _ => EmptyString
  | ErrorSent e => match send_error e ns' with Ok b => b | Raise _ => EmptyString end
  | Answered command version r =>
      match wsgi_write version command r ns' with Ok b => b | Raise _ => EmptyString end
  end.

End Bytes.

(** A line of the head of an answer: no carriage return, no line feed. *)
Definition no_crlf (s : string) : bool := str_forallb (fun c => negb (is_crlf c)) s.

(** ** Reading a [Date] header back (the client's side) *)

Fixpoint index_of (x : string) (l : list string) : option Z :=
  match l with
  | [] => None
  | y :: l' => if String.eqb x y then Some 0 else option_map Z.succ (index_of x l')
  end.

Definition parse_name (names : list string) (s : string) : option (Z * string) :=
  match s with
  | String a (String b (String c rest)) =>
      option_map (fun i => (i, rest)) (index_of (String a (String b (String c EmptyString))) names)
  | _ => None
  end.

(** The names of RFC 9110, section 5.6.7 ([day-name], [month]), written
    out for the reader independently of the formatter's tables. *)
Definition IMF_DAY_NAMES : list string := ["Mon"; "Tue"; "Wed"; "Thu"; "Fri"; "Sat"; "Sun"].

Definition IMF_MONTH_NAMES : list string :=
  ["Jan"; "Feb"; "Mar"; "Apr"; "May"; "Jun"; "Jul"; "Aug"; "Sep"; "Oct"; "Nov"; "Dec"].

(** An IMF-fixdate: the weekday (Monday 0), then day, month, year, hour,
    minute and second. *)
Definition parse_imf_fixdate (s : string) : option (Z * Z * Z * Z * Z * Z * Z) :=
  (let? (wd, s) := parse_name IMF_DAY_NAMES s in
   let? s := expect "," s in
   let? s := expect " " s in
   let? (d, s) := parse_digits 2 0 s in
   let? s := expect " " s in
   let? (mo, s) := parse_name IMF_MONTH_NAMES s in
   let? s := expect " " s in
   let? (y, s) := parse_digits 4 0 s in
   let? s := expect " " s in
   let? (hh, s) := parse_digits 2 0 s in
   let? s := expect ":" s in
   let? (mm, s) := parse_digits 2 0 s in
   let? s := expect ":" s in
   let? (ss, s) := parse_digits 2 0 s in
   if String.eqb s " GMT" then Some (wd, y, mo + 1, d, hh, mm, ss) else None)%web.

(** ** Lemmas *)

Lemma parse_weekday (i : Z) (rest : string) :
  0 <= i < 7 -> parse_name IMF_DAY_NAMES (nth (Z.to_nat i) WEEKDAYS "" ++ rest) = Some (i, rest).
Proof.
  intros H. assert (i = 0 \/ i = 1 \/ i = 2 \/ i = 3 \/ i = 4 \/ i = 5 \/ i = 6) by lia.
  repeat match goal with H : _ \/ _ |- _ => destruct H as [->|H] end; subst; reflexivity.
Qed.

Lemma parse_month (m : Z) (rest : string) :
  1 <= m <= 12 -> parse_name IMF_MONTH_NAMES (nth (Z.to_nat (m - 1)) MONTHS "" ++ rest) = Some (m - 1, rest).
Proof.
  intros H. assert (m = 1 \/ m = 2 \/ m = 3 \/ m = 4 \/ m = 5 \/ m = 6 \/ m = 7 \/ m = 8
                    \/ m = 9 \/ m = 10 \/ m = 11 \/ m = 12) by lia.
  repeat match goal with H : _ \/ _ |- _ => destruct H as [->|H] end; subst; reflexivity.
Qed.

Lemma string_app_nil_l (s : string) : EmptyString ++ s = s.
Proof. reflexivity. Qed.

(** The [Date] of a valid [datetime] reads back as its weekday and its
    fields. *)
Lemma format_gmt_parse (dt : datetime) :
  datetime_ok dt ->
  parse_imf_fixdate (format_gmt dt)
  = Some (weekday dt, year dt, month dt, day dt, hour dt, minute dt, second dt).
Proof.
  intros Hok. pose proof Hok as (_ & V & _). apply valid_ymd_spec in V.
  destruct (datetime_ok_ranges dt Hok) as (Y & M & D & H & Mi & S).
  assert (W : 0 <= weekday dt < 7) by (unfold weekday; apply Z.mod_pos_bound; lia).
  unfold format_gmt, parse_imf_fixdate.
  rewrite !pad_dec_fixed by (lia || assumption).
  repeat first [ rewrite parse_weekday by exact W | rewrite parse_month by lia
               | rewrite parse_fixed_digits | rewrite string_app_cons | rewrite string_app_nil_l
               | rewrite expect_cons | progress cbv iota beta ].
  rewrite !Z.mod_small by assumption. f_equal. repeat f_equal; lia.
Qed.

(** Within the years of [datetime], the clock's second makes a valid
    [datetime] whose wall time is that second. *)
Lemma utc_from_Ok (t us : Z) :
  -62135596800 <= t < 253402300800 -> 0 <= us <= 999999 ->
  exists dt, utc_from_timet_and_us t us = Ok dt /\ datetime_ok dt /\ wall_seconds dt = t + EPOCH.
Proof.
  intros Ht Hus. unfold utc_from_timet_and_us, gmtime.
  destruct (zone_localtime_spec (fixed_offset 0) t) as (r & L & Hok & H59 & T).
  { unfold in_datetime_range, fixed_offset, EPOCH, EPOCH_ORDINAL. lia. }
  rewrite L, Z.min_r by exact H59. apply tm_seconds_Ok in T as [Yr Wt].
  destruct (zone_new_datetime r us 0 _ Hok H59 Yr Wt Hus ltac:(lia)) as (dt & E & Hdt & Wd & _).
  exists dt. rewrite E. unfold fixed_offset in Wd. cbv beta in Wd. split; [reflexivity|]. split; [exact Hdt|]. lia.
Qed.

(** Outside them, [fromtimestamp] raises. *)
Lemma utc_from_Raise (t us : Z) :
  ~ (-62135596800 <= t < 253402300800) -> exists e, utc_from_timet_and_us t us = Raise e.
Proof.
  intros Ht. unfold utc_from_timet_and_us, gmtime.
  destruct (zone_localtime (fixed_offset 0) t) as [r|] eqn:L; [|eauto].
  destruct (zone_localtime_Some _ _ _ L) as [W H59].
  destruct (zone_localtime_ok _ t r L) as (V & Hh & Hm & Hs).
  unfold new_datetime. destruct (in_range MINYEAR (tm_year r + 1900) MAXYEAR) eqn:Y; [|simpl; eauto].
  exfalso. apply in_range_spec in Y. unfold MINYEAR, MAXYEAR in Y.
  pose proof (ord2ymd_year_range (ymd2ord (tm_year r + 1900) (tm_mon r + 1) (tm_mday r))) as R.
  rewrite ord2ymd_ymd2ord in R by exact V. apply R in Y.
  unfold fixed_offset, EPOCH, EPOCH_ORDINAL in W. cbv beta in W. lia.
Qed.

(** The weekday of a wall time [t] seconds after the epoch: 1970-01-01
    was a Thursday. *)
Lemma weekday_of_wall (dt : datetime) (t : Z) :
  datetime_ok dt -> wall_seconds dt = t + EPOCH -> weekday dt = (t / 86400 + 3) mod 7.
Proof.
  intros (_ & _ & H & M & S & _) W. unfold weekday, wall_seconds, EPOCH, EPOCH_ORDINAL in *. zlia.
Qed.

(** C14: The [Date] header is total on the years of [datetime] and reads
    back: when the second [t] of the clock (rounded to microseconds) lies
    in 0001-01-01 .. 9999-12-31, [date_time_string] returns a string
    that parses as an IMF-fixdate naming exactly that second in UTC, with
    the weekday of [t] counted from the Thursday of the epoch; outside,
    it raises. *)
Theorem date_header_roundtrip (ns : Z) :
  let t := timestamp_us ns / 10 ^ 6 in
  (-62135596800 <= t < 253402300800 ->
   exists s y m d hh mi ss,
     date_time_string ns = Ok s
     /\ parse_imf_fixdate s = Some ((t / 86400 + 3) mod 7, y, m, d, hh, mi, ss)
     /\ valid_ymd y m d = true /\ 0 <= hh < 24 /\ 0 <= mi < 60 /\ 0 <= ss < 60
     /\ (((ymd2ord y m d - EPOCH_ORDINAL) * 24 + hh) * 60 + mi) * 60 + ss = t)
  /\ (~ (-62135596800 <= t < 253402300800) -> exists e, date_time_string ns = Raise e).
Proof.
  intros t. split.
  - intros Ht.
    destruct (utc_from_Ok t (timestamp_us ns mod 10 ^ 6) Ht ltac:(zlia)) as (dt & E & Hok & W).
    exists (format_gmt dt), (year dt), (month dt), (day dt), (hour dt), (minute dt), (second dt).
    unfold date_time_string. cbv zeta. fold t. rewrite E. split; [reflexivity|].
    rewrite format_gmt_parse by exact Hok. rewrite (weekday_of_wall dt t Hok W).
    split; [reflexivity|].
    destruct Hok as (_ & V & H & M & S & _). unfold wall_seconds, EPOCH in W.
    repeat split; auto; lia.
  - intros Ht. destruct (utc_from_Raise t (timestamp_us ns mod 10 ^ 6) Ht) as [e E].
    exists e. unfold date_time_string. cbv zeta. fold t. rewrite E. reflexivity.
Qed.

Lemma printable_ascii (c : ascii) : printable c = true -> is_ascii c = true.
Proof. destruct c as [[] [] [] [] [] [] [] []]; vm_compute; congruence. Qed.

Lemma all_printable_ascii (s : string) : all_printable s = true -> str_forallb is_ascii s = true.
Proof.
  intros H. induction s as [|c s IH]; [reflexivity|].
  cbn [all_printable] in H. apply andb_true_iff in H as [Hc Hs].
  cbn [str_forallb]. rewrite (printable_ascii c Hc). exact (IH Hs).
Qed.

(** [send_error] in the [HTTP/0.9] state of [parse_request]: only the
    error page, no status line and no header. *)
Lemma send_error_09 (sv : string) (e : http_error) (ns : Z) (date : string) (shortmsg longmsg : string) :
  err_version e = HTTP09 -> err_command e = None -> err_explain e = None ->
  responses (err_code e) = Some (shortmsg, longmsg) -> 200 <= err_code e < 204 \/ 400 <= err_code e ->
  date_time_string ns = Ok date ->
  send_error sv e ns
  = Ok (utf8_encode (error_message_format (err_code e) (html_escape (err_message e)) (html_escape longmsg))).
Proof.
  intros Hv Hc Hx Hr Hcode Hd. unfold send_error. rewrite Hd. cbn [bind].
  rewrite Hr, Hx, Hv, Hc. cbn zeta.
  replace ((200 <=? err_code e) && negb ((err_code e =? 204) || (err_code e =? 205) || (err_code e =? 304)))
    with true by (symmetry; apply andb_true_iff; split; [apply Z.leb_le; lia|];
                  apply negb_true_iff; rewrite !orb_false_iff, !Z.eqb_neq; lia).
  rewrite String.eqb_refl. reflexivity.
Qed.

(** ** One-line messages *)

Lemma no_crlf_app (a b : string) : no_crlf (a ++ b) = no_crlf a && no_crlf b.
Proof. apply str_forallb_app. Qed.

Lemma repr_char_no_crlf (c : ascii) :
  no_crlf (repr_char SQUOTE c) && no_crlf (repr_char DQUOTE c) = true.
Proof. destruct c as [[] [] [] [] [] [] [] []]; vm_compute; reflexivity. Qed.

(** [repr] escapes carriage returns and line feeds. *)
Lemma py_repr_no_crlf (s : string) : no_crlf (py_repr s) = true.
Proof.
  unfold py_repr.
  assert (R : forall q, q = SQUOTE \/ q = DQUOTE -> no_crlf (repr_chars q s) = true).
  { intros q Hq. induction s as [|c s IH]; [reflexivity|].
    cbn [repr_chars]. rewrite no_crlf_app, IH, andb_true_r.
    pose proof (repr_char_no_crlf c) as Hc. apply andb_true_iff in Hc.
    destruct Hq as [->| ->]; tauto. }
  destruct (has SQUOTE s && negb (has DQUOTE s));
    cbn [no_crlf str_forallb]; rewrite no_crlf_app, R by auto; reflexivity.
Qed.

Lemma no_space_no_crlf (s : string) : str_forallb not_space s = true -> no_crlf s = true.
Proof.
  apply str_forallb_impl. intros c Hc. apply negb_true_iff. exact (proj2 (is_space_LF c Hc)).
Qed.

Lemma str_forallb_substring (f : ascii -> bool) (n m : nat) (s : string) :
  str_forallb f s = true -> str_forallb f (substring n m s) = true.
Proof.
  revert n m. induction s as [|c s IH]; intros [|n] [|m] H; cbn [substring] in *; try reflexivity;
    cbn [str_forallb] in *; apply andb_true_iff in H as [Hc Hs]; auto.
  rewrite Hc. exact (IH 0%nat m Hs).
Qed.

(** The words of [str.split()] hold no white space. *)
Lemma words_from_no_space (s cur : string) :
  str_forallb not_space cur = true -> Forall (fun w => str_forallb not_space w = true) (words_from s cur).
Proof.
  revert cur. induction s as [|c s IH]; intros cur Hcur; cbn [words_from].
  - destruct (is_empty cur); auto.
  - destruct (is_space c) eqn:Hc.
    + destruct (is_empty cur); [apply IH; reflexivity|]. constructor; [exact Hcur | apply IH; reflexivity].
    + apply IH. rewrite str_forallb_app, Hcur. cbn. unfold not_space. now rewrite Hc.
Qed.

Lemma last_in_words (ws : list string) (P : string -> Prop) :
  Forall P ws -> P EmptyString -> P (last ws EmptyString).
Proof.
  intros HF H0. induction HF as [|w ws Hw HF IH]; [exact H0|].
  destruct ws; [exact Hw | exact IH].
Qed.

Ltac repr_message := intros [= <-]; cbn [err_message]; rewrite !no_crlf_app, py_repr_no_crlf; reflexivity.

(** The message [parse_words] gives [send_error] has no line break. *)
Lemma parse_words_message (line : string) (ws : list string) (e : http_error) :
  Forall (fun w => str_forallb not_space w = true) ws ->
  parse_words line ws = SendError e -> no_crlf (err_message e) = true.
Proof.
  intros HF. unfold parse_words, check_version.
  assert (V : str_forallb not_space (last ws EmptyString) = true) by (apply last_in_words; auto).
  destruct ws as [|w1 ws]; [discriminate|].
  destruct (3 <=? length (w1 :: ws))%nat.
  - destruct (parse_version (last (w1 :: ws) EmptyString)) as [[major minor]|].
    + destruct (2 <=? major)%N.
      * intros [= <-]. cbn [err_message]. rewrite !no_crlf_app.
        apply andb_true_iff; split; [reflexivity|]. apply andb_true_iff; split; [|reflexivity].
        apply no_space_no_crlf, str_forallb_substring. simpl in V |- *. exact V.
      * destruct ws as [|w2 [|w3 [|w4 ws]]]; try discriminate;
          try (destruct (String.eqb w1 "GET"); [discriminate|]); repr_message.
    + repr_message.
  - destruct ws as [|w2 [|w3 [|w4 ws]]]; try discriminate;
      try (destruct (String.eqb w1 "GET"); [discriminate|]); repr_message.
Qed.

Section Claims.
Variable server_version : string.
Variable redirect_page : string -> string * string.
Context {C : LocalClock}.

(** C9: [POST /update] on the wire: a connection carrying [POST
    /update?q] in version 0.x or 1.x, with fewer than 100 headers none
    of which is [Host], [Expect], [Connection] or [Upgrade], and any
    body, receives exactly the status line [HTTP/1.1 200 OK], the headers
    [Server], [Date], [Content-Type: application/json], a
    [Content-Length] equal to the length of the JSON that follows, and
    [Connection: close], a blank line, then the JSON of [update_data]
    with its newline; in version [HTTP/0.9] the JSON alone. *)
Theorem post_update_bytes (tpl : templates) (q v : string) (hs : list string) (body : string)
    (ns ns' : Z) (major minor : N) (dt : datetime) (date : string) :
  str_forallb not_space q = true -> word_ok v = true ->
  parse_version v = Some (major, minor) -> (major < 2)%N ->
  Forall (fun h => inert_header h = true) hs -> (length hs < MAXHEADERS)%nat ->
  now ns = Ok dt -> date_time_string ns' = Ok date ->
  let json := dumps (JObj (update_items (strftime FORMAT dt))) ++ String LF EmptyString in
  connection_bytes server_version redirect_page tpl
    (message ["POST"; "/update" ++ String "?" q; v] hs body) ns ns'
  = (if String.eqb v HTTP09 then EmptyString
     else status_line 200 "OK"
          ++ String.concat "" (map header_line
               [("Server", server_version); ("Date", date); ("Content-Type", "application/json");
                ("Content-Length", pretty (N.of_nat (String.length json))); ("Connection", "close")])
          ++ CRLF)
    ++ json.
Proof.
  intros Hq Hv Hpv Hmaj Hh Hn Hnow Hd json. unfold connection_bytes.
  rewrite (handle_post_update tpl q v hs body ns major minor Hq Hv Hpv Hmaj Hh Hn), Hnow.
  unfold wsgi_write. rewrite Hd. cbn [bind].
  assert (J : utf8_encode json = json).
  { apply utf8_encode_ascii. unfold json. rewrite str_forallb_app, all_printable_ascii by apply dumps_printable.
    reflexivity. }
  unfold jsonify.
  change (dumps (JObj (update_items (strftime FORMAT dt))) ++ String LF EmptyString) with json.
  clearbody json. cbn -[utf8_encode String.concat map header_line pretty status_line].
  rewrite J. reflexivity.
Qed.

(** C10: A request line of three words or more whose version is bad, or
    from 2.0 on, is answered in [HTTP/0.9]: the client receives the UTF-8
    error page of [send_error] alone, with no status line and no header,
    so the 400 or the 505 appears only inside the HTML. *)
Theorem version_errors_bare (tpl : templates) (ws : list string) (rest : string) (ns ns' : Z)
    (date : string) :
  Forall (fun w => word_ok w = true) ws -> (3 <= length ws)%nat -> date_time_string ns' = Ok date ->
  let v := last ws EmptyString in
  (parse_version v = None ->
     connection_bytes server_version redirect_page tpl (request_line ws ++ rest) ns ns'
     = utf8_encode (error_message_format 400 (html_escape ("Bad request version (" ++ py_repr v ++ ")"))
                                         "Bad request syntax or unsupported method"))
  /\ (forall major minor, parse_version v = Some (major, minor) -> (2 <= major)%N ->
        connection_bytes server_version redirect_page tpl (request_line ws ++ rest) ns ns'
        = utf8_encode (error_message_format 505
                         (html_escape ("Invalid HTTP version (" ++ substring 5 (String.length v - 5) v ++ ")"))
                         "Cannot fulfill request")).
Proof.
  intros HF Hlen Hd v. unfold connection_bytes. rewrite handle_line, parse_line by exact HF.
  unfold parse_words. destruct ws as [|w1 ws]; [simpl in Hlen; lia|].
  unfold check_version. apply Nat.leb_le in Hlen as Hle. rewrite Hle. fold v. split.
  - intros Hp. rewrite Hp.
    rewrite (send_error_09 server_version
               (mk_error 400 ("Bad request version (" ++ py_repr v ++ ")") None HTTP09 None)
               ns' date "Bad Request" _ eq_refl eq_refl eq_refl eq_refl ltac:(cbn; lia) Hd).
    reflexivity.
  - intros major minor Hp H2. rewrite Hp. apply N.leb_le in H2. rewrite H2.
    rewrite (send_error_09 server_version
               (mk_error 505 ("Invalid HTTP version (" ++ substring 5 (String.length v - 5) v ++ ")")
                  None HTTP09 None)
               ns' date "HTTP Version Not Supported" _ eq_refl eq_refl eq_refl eq_refl ltac:(cbn; lia) Hd).
    reflexivity.
Qed.

(** C11: No request can split the status line of an error answer: the
    message [send_error] writes after the code, which quotes the request
    line, its command or its version, never holds a carriage return or a
    line feed, so the status line ends at its own CRLF. *)
Theorem error_message_one_line (tpl : templates) (stream : string) (ns : Z) (e : http_error) :
  handle_one_request tpl stream ns = ErrorSent e -> no_crlf (err_message e) = true.
Proof.
  unfold handle_one_request. destruct (readline None stream) as [raw rest].
  destruct (is_empty raw); [discriminate|].
  destruct (parse_request raw rest) as [[|e'|c t v] body] eqn:P;
    [discriminate| |destruct (path_info t); [destruct (query_string t)|]; discriminate].
  intros [= <-]. revert P. unfold parse_request.
  pose proof (words_from_no_space (rstrip_crlf raw) EmptyString eq_refl) as W.
  destruct (parse_words _ _) as [|e0|c t v] eqn:PW; [discriminate| |].
  - intros [= <- _]. exact (parse_words_message _ _ _ W PW).
  - destruct (read_headers rest) as [[]|]; [intros [= <- _]; reflexivity.. | discriminate].
Qed.

(** The answer of [App.dispatch] to [HEAD] is its answer to [GET],
    marked as the answer to [HEAD]: every rule that accepts [GET] also
    accepts [HEAD]. *)
Lemma dispatch_head_get (tpl : templates) (p q body : string) (ns : Z) :
  dispatch tpl (Build_request HEAD p q body) ns
  = strip_head HEAD (dispatch tpl (Build_request GET p q body) ns).
Proof.
  unfold dispatch. cbn [req_method req_path].
  rewrite (url_match_ext url_map p (Some HEAD) (Some GET)) by (repeat constructor).
  destruct (url_match url_map p (Some GET)); reflexivity.
Qed.

(** C12: [HEAD] on the wire: for every target, version 0.x or 1.x and
    headers, the bytes a [HEAD] request receives are exactly those [GET]
    receives (status line, [Content-Length] and every other header
    included) without the body, when the [Date] is the same. *)
Theorem head_bytes (tpl : templates) (t v : string) (hs : list string) (b : string) (ns ns' : Z)
    (major minor : N) (p qs date : string) :
  word_ok t = true -> word_ok v = true -> parse_version v = Some (major, minor) -> (major < 2)%N ->
  Forall (fun h => header_ok h = true) hs -> (length hs < MAXHEADERS)%nat ->
  path_info (reduce_slashes t) = Ok p -> query_string (reduce_slashes t) = Ok qs ->
  date_time_string ns' = Ok date ->
  let r := dispatch tpl (Build_request GET p qs b) ns in
  connection_bytes server_version redirect_page tpl (message ["GET"; t; v] hs b) ns ns'
  = connection_bytes server_version redirect_page tpl (message ["HEAD"; t; v] hs b) ns ns'
    ++ snd (entity redirect_page (mimetype r) (allow r) (payload_of r)).
Proof.
  intros Ht Hv Hpv Hmaj Hh Hn Hp Hq Hd r. unfold connection_bytes.
  rewrite !(handle_three tpl _ t v hs b ns major minor) by (reflexivity || assumption).
  rewrite Hp, Hq. change (method_of_string "HEAD") with HEAD. change (method_of_string "GET") with GET.
  rewrite dispatch_head_get. fold r. unfold wsgi_write. rewrite Hd. cbn [bind].
  unfold strip_head. rewrite decide_True by reflexivity. cbn [mimetype allow payload_of entity].
  destruct (entity redirect_page (mimetype r) (allow r) (payload_of r)) as [headers body].
  cbn [snd]. rewrite string_app_nil_r. reflexivity.
Qed.

(** C13: A [head] request in lower case is dispatched as [HEAD] (Flask
    upper-cases the method) but receives the body: [get_app_iter]
    compares [environ["REQUEST_METHOD"]], the command as written, with
    [HEAD].  Its bytes are those of [GET]. *)
Lemma lowercase_head_body (tpl : templates) (t v : string) (hs : list string) (b : string)
    (ns ns' : Z) (major minor : N) :
  word_ok t = true -> word_ok v = true -> parse_version v = Some (major, minor) -> (major < 2)%N ->
  Forall (fun h => header_ok h = true) hs -> (length hs < MAXHEADERS)%nat ->
  connection_bytes server_version redirect_page tpl (message ["head"; t; v] hs b) ns ns'
  = connection_bytes server_version redirect_page tpl (message ["GET"; t; v] hs b) ns ns'.
Proof.
  intros Ht Hv Hpv Hmaj Hh Hn. unfold connection_bytes.
  rewrite !(handle_three tpl _ t v hs b ns major minor) by (reflexivity || assumption).
  destruct (path_info (reduce_slashes t)) as [p|e]; [|reflexivity].
  destruct (query_string (reduce_slashes t)) as [qs|e]; [|reflexivity].
  change (method_of_string "head") with HEAD. change (method_of_string "GET") with GET.
  rewrite dispatch_head_get. unfold wsgi_write.
  destruct (date_time_string ns'); [|reflexivity]. cbn [bind].
  unfold strip_head. rewrite decide_True by reflexivity. reflexivity.
Qed.

End Claims.

(** ** Witnesses *)

Definition demo_server : string := "Werkzeug/3.1.3 Python/3.12.7".

Definition demo_redirect (path : string) : string * string := ("http://localhost:5000" ++ path, EmptyString).

Definition NOV_2023 : Z := 1700000000 * 10 ^ 9.

Definition EPOCH_DATETIME : datetime := mk_datetime 1970 1 1 0 0 0 0 0.

Lemma date_header_roundtrip_witness :
  exists s y m d hh mi ss,
    date_time_string NOV_2023 = Ok s
    /\ parse_imf_fixdate s = Some ((timestamp_us NOV_2023 / 10 ^ 6 / 86400 + 3) mod 7, y, m, d, hh, mi, ss)
    /\ valid_ymd y m d = true /\ 0 <= hh < 24 /\ 0 <= mi < 60 /\ 0 <= ss < 60
    /\ (((ymd2ord y m d - EPOCH_ORDINAL) * 24 + hh) * 60 + mi) * 60 + ss = timestamp_us NOV_2023 / 10 ^ 6.
Proof. apply (proj1 (date_header_roundtrip NOV_2023)). split; vm_compute; congruence. Defined.

Lemma post_update_bytes_witness :
  let json := dumps (JObj (update_items (strftime FORMAT EPOCH_DATETIME))) ++ String LF EmptyString in
  connection_bytes demo_server demo_redirect (C := utc) ∅
    (message ["POST"; "/update" ++ String "?" "x"; "HTTP/1.1"] ["Accept: */*"] "{}") 0 0
  = (if String.eqb "HTTP/1.1" HTTP09 then EmptyString
     else status_line 200 "OK"
          ++ String.concat "" (map header_line
               [("Server", demo_server); ("Date", "Thu, 01 Jan 1970 00:00:00 GMT");
                ("Content-Type", "application/json");
                ("Content-Length", pretty (N.of_nat (String.length json))); ("Connection", "close")])
          ++ CRLF)
    ++ json.
Proof.
  exact (post_update_bytes demo_server demo_redirect (C := utc) ∅ "x" "HTTP/1.1" ["Accept: */*"] "{}"
           0 0 1 1 EPOCH_DATETIME "Thu, 01 Jan 1970 00:00:00 GMT" eq_refl eq_refl eq_refl
           ltac:(lia) ltac:(repeat constructor) ltac:(cbv; lia) ltac:(vm_compute; reflexivity)
           ltac:(vm_compute; reflexivity)).
Defined.

Lemma version_errors_bare_witness :
  connection_bytes demo_server demo_redirect (C := utc) ∅ (request_line ["GET"; "/"; "HTTP/2.0"] ++ CRLF) 0 0
  = utf8_encode (error_message_format 505 (html_escape ("Invalid HTTP version (" ++ "2.0" ++ ")"))
                                      "Cannot fulfill request").
Proof.
  exact (proj2 (version_errors_bare demo_server demo_redirect (C := utc) ∅ ["GET"; "/"; "HTTP/2.0"] CRLF
                  0 0 "Thu, 01 Jan 1970 00:00:00 GMT" ltac:(repeat constructor) ltac:(simpl; lia)
                  ltac:(vm_compute; reflexivity)) 2%N 0%N eq_refl ltac:(lia)).
Defined.

Lemma error_message_one_line_witness :
  no_crlf (err_message (mk_error 400 ("Bad request syntax (" ++ py_repr "GET / x HTTP/1.1" ++ ")") None
                                  "HTTP/1.1" None)) = true.
Proof.
  apply (error_message_one_line (C := utc) ∅ (request_line ["GET"; "/"; "x"; "HTTP/1.1"]) 0).
  vm_compute. reflexivity.
Defined.

Lemma head_bytes_witness :
  let r := dispatch (C := utc) sample_templates (Build_request GET "/" "" "") 0 in
  connection_bytes demo_server demo_redirect (C := utc) sample_templates (message ["GET"; "/"; "HTTP/1.1"] [] "") 0 0
  = connection_bytes demo_server demo_redirect (C := utc) sample_templates (message ["HEAD"; "/"; "HTTP/1.1"] [] "") 0 0
    ++ snd (entity demo_redirect (mimetype r) (allow r) (payload_of r)).
Proof.
  exact (head_bytes demo_server demo_redirect (C := utc) sample_templates "/" "HTTP/1.1" [] "" 0 0 1 1 "/"
           "" "Thu, 01 Jan 1970 00:00:00 GMT" eq_refl eq_refl eq_refl ltac:(lia) (Forall_nil _)
           ltac:(cbv; lia) ltac:(vm_compute; reflexivity) ltac:(vm_compute; reflexivity)
           ltac:(vm_compute; reflexivity)).
Defined.

Lemma lowercase_head_body_witness :
  connection_bytes demo_server demo_redirect (C := utc) sample_templates (message ["head"; "/"; "HTTP/1.1"] [] "") 0 0
  = connection_bytes demo_server demo_redirect (C := utc) sample_templates (message ["GET"; "/"; "HTTP/1.1"] [] "") 0 0.
Proof.
  exact (lowercase_head_body demo_server demo_redirect (C := utc) sample_templates "/" "HTTP/1.1" [] "" 0 0 1 1
           eq_refl eq_refl eq_refl ltac:(lia) (Forall_nil _) ltac:(cbv; lia)).
Defined.

End Response.
