(* ===== verification/Server.v ===== *)
(** * Server: [app.run] and the clock across requests

    Lines 18-19 of src/app.py start Werkzeug's development server on
    [0.0.0.0:5000] with [debug=False].  Its start-up is [bind_port]:
    [BaseWSGIServer.__init__] binds the listening socket, and when the
    bind fails with [EADDRINUSE] it prints the error and a hint to the
    standard error and calls [sys.exit(1)].  Serving itself is one thread
    per connection, each running [Http.handle_one_request]; the
    application keeps no state of its own, so what two requests share is
    the system clock each view reads ([App.dispatch] at its own reading).

    The theorems compare two [POST /update] answers by their clock
    readings only, with no assumption on how the readings were taken:
    with a fixed UTC offset the two messages compare as the seconds of
    the two readings ([post_update_messages_order]), so a later second
    never gives an earlier timestamp; in a zone that sets its clocks back
    by an hour, two requests an hour apart receive the same answer
    although [datetime.now()] returns different values
    ([post_update_repeats_after_fall_back]). *)

From stdpp Require Import base gmap strings pretty.
From Stdlib Require Import ZArith String List Lia.
From S2P Require Import Prelude Calendar LocalTime Strftime Json App.
Import ListNotations.

Local Open Scope Z_scope.

Module Server.
Import LocalTime Strftime Json App.

(** ** [app.run(host='0.0.0.0', port=5000, debug=False)] *)

Record config := mk_config { host : string; port : Z; debug : bool }.

Definition run_config : config := mk_config "0.0.0.0"%string 5000 false.

(** [BaseWSGIServer.__init__]: binding the listening socket on a Linux
    host, with the ports already bound.  On [OSError] it prints
    [e.strerror] and, for [EADDRINUSE], the hint naming the port, to the
    standard error, then [sys.exit(1)]; the lines it prints come first. *)
Definition bind_port (cfg : config) (in_use : list Z) : list string * result unit :=
  if decide (port cfg ∈ in_use) then
    (["Address already in use";
      "Port " ++ pretty (port cfg) ++ " is in use by another program. Either identify and"
      ++ " stop that program, or start the server with a different port."]%string,
     Raise (SystemExit 1))
  else ([], Ok tt).

(** ** Timestamps across requests *)

(** With an offset of less than a day, [POST /update] always answers the
    JSON of [update_data], with the timestamp of the saturated clock. *)
Lemma post_update_fixed_offset_total (o ns : Z) (tpl : templates) (body : string) :
  -86400 < o < 86400 ->
  exists dt, @now (zone_clock (fixed_offset o)) ns = Ok dt /\ datetime_ok dt
    /\ wall_seconds dt = system_clock ns / 10 ^ 9 + o + EPOCH
    /\ @dispatch (zone_clock (fixed_offset o)) tpl (mk_request POST "/update" body) ns
       = jsonify (update_items (current_time dt)).
Proof.
  intros Ho. destruct (now_fixed_offset o ns) as (dt & N & V & W & _).
  - pose proof (system_clock_bounds ns).
    unfold PyTime_MIN, PyTime_MAX, EPOCH, EPOCH_ORDINAL in *. zlia.
  - exists dt. rewrite dispatch_post_update, N. auto.
Qed.

(** C3: With a fixed UTC offset of less than a day, the timestamps of any
    two [POST /update] answers compare as the seconds of the clock
    readings their views took: equal within a second, and increasing
    with the clock, whatever the order the readings were taken in. *)
Theorem post_update_messages_order (o ns1 ns2 : Z) (tpl : templates) (b1 b2 : string) :
  -86400 < o < 86400 ->
  exists ts1 ts2,
    @dispatch (zone_clock (fixed_offset o)) tpl (mk_request POST "/update" b1) ns1
      = jsonify (update_items ts1)
    /\ @dispatch (zone_clock (fixed_offset o)) tpl (mk_request POST "/update" b2) ns2
      = jsonify (update_items ts2)
    /\ String.compare ts1 ts2 = Z.compare (system_clock ns1 / 10 ^ 9) (system_clock ns2 / 10 ^ 9).
Proof.
  intros Ho.
  destruct (post_update_fixed_offset_total o ns1 tpl b1 Ho) as (dt1 & _ & V1 & W1 & D1).
  destruct (post_update_fixed_offset_total o ns2 tpl b2 Ho) as (dt2 & _ & V2 & W2 & D2).
  exists (current_time dt1), (current_time dt2). split; [exact D1|]. split; [exact D2|].
  rewrite current_time_order, W1, W2 by assumption.
  rewrite <- !Z.add_assoc, !(Z.add_comm (_ / 10 ^ 9)). apply Z.add_compare_mono_l.
Qed.

(** C4: In a zone that sets its clocks back by an hour at [T], [datetime.now()]
    returns different [datetime]s at [T - 3600 + s] and at [T + s] (their
    folds differ), yet the two [POST /update] answers are identical: two
    requests an hour apart get the same message. *)
Theorem post_update_repeats_after_fall_back (o T s : Z) (tpl : templates) (b1 b2 : string) :
  0 <= s < 3600 -> 3 * 86400 <= T + o + EPOCH <= 3652058 * 86400 ->
  -9223372036 + 3600 <= T <= 9223372036 - 3600 ->
  exists dt1 dt2,
    @now (zone_clock (fall_back o T)) ((T - 3600 + s) * 10 ^ 9) = Ok dt1
    /\ @now (zone_clock (fall_back o T)) ((T + s) * 10 ^ 9) = Ok dt2
    /\ dt1 <> dt2
    /\ @dispatch (zone_clock (fall_back o T)) tpl (mk_request POST "/update" b1)
         ((T - 3600 + s) * 10 ^ 9)
       = @dispatch (zone_clock (fall_back o T)) tpl (mk_request POST "/update" b2)
         ((T + s) * 10 ^ 9).
Proof.
  intros Hs HT HC.
  destruct (now_fall_back_fold o T s Hs HT HC) as (dt1 & dt2 & N1 & N2 & W & F1 & F2).
  exists dt1, dt2. split; [exact N1|]. split; [exact N2|].
  split; [intros <-; lia|].
  rewrite !dispatch_post_update, N1, N2.
  replace (strftime FORMAT dt2) with (strftime FORMAT dt1); [reflexivity|].
  apply String.compare_eq_iff.
  change (String.compare (current_time dt1) (current_time dt2) = Eq).
  rewrite current_time_order by (eapply now_Ok_valid; eassumption).
  apply Z.compare_eq_iff, W.
Qed.

(** ** Witnesses *)

(** Port 5000 taken: the two lines on the standard error, then exit 1. *)
Lemma bind_port_in_use :
  bind_port run_config [5000] =
  (["Address already in use";
    "Port 5000 is in use by another program. Either identify and stop that program, or start the server with a different port."]%string,
   Raise (SystemExit 1)).
Proof. reflexivity. Qed.

(** In UTC, a request at 2025-11-09 00:00:00.9 and one two seconds later. *)
Lemma post_update_messages_order_witness :
  -86400 < 0 < 86400 /\
  exists ts1 ts2,
    @dispatch utc ∅ (mk_request POST "/update" "") (1762646400 * 10 ^ 9 + 900000000)
      = jsonify (update_items ts1)
    /\ @dispatch utc ∅ (mk_request POST "/update" "") (1762646402 * 10 ^ 9)
      = jsonify (update_items ts2)
    /\ String.compare ts1 ts2
       = Z.compare (system_clock (1762646400 * 10 ^ 9 + 900000000) / 10 ^ 9)
                   (system_clock (1762646402 * 10 ^ 9) / 10 ^ 9).
Proof. split; [lia | apply post_update_messages_order; lia]. Defined.

(** Clocks set back from UTC+1 to UTC at 2025-10-26 01:00:00 UTC. *)
Lemma post_update_repeats_after_fall_back_witness :
  exists dt1 dt2,
    @now (zone_clock (fall_back 0 1761440400)) ((1761440400 - 3600 + 1800) * 10 ^ 9) = Ok dt1
    /\ @now (zone_clock (fall_back 0 1761440400)) ((1761440400 + 1800) * 10 ^ 9) = Ok dt2
    /\ dt1 <> dt2
    /\ @dispatch (zone_clock (fall_back 0 1761440400)) ∅ (mk_request POST "/update" "")
         ((1761440400 - 3600 + 1800) * 10 ^ 9)
       = @dispatch (zone_clock (fall_back 0 1761440400)) ∅ (mk_request POST "/update" "")
         ((1761440400 + 1800) * 10 ^ 9).
Proof. apply post_update_repeats_after_fall_back; zconcrete. Defined.

End Server.
